(** * Mayavi pipeline lifecycle: [Source] and [VTKDataSource]

    A shallow embedding of
    - [enthought/mayavi/core/source.py] (class [Source]) and
    - [enthought/mayavi/sources/vtk_data_source.py] (class [VTKDataSource]),
    followed by the properties of the two classes.

    Python methods mutate objects and may raise.  They are embedded in a
    state monad whose computations end either in a value or in an
    exception; in both cases the mutations made so far are kept, as in
    Python (this is why the monad is defined here and not taken as a
    state transformer over an error monad, which would drop the state
    of a computation that raises). *)

From Stdlib Require Import List String Bool Arith ZArith Lia.
Import ListNotations.
Open Scope string_scope.
Open Scope list_scope.

(** ** Python computations *)

(** A raised exception, identified by its message. *)
Definition exn : Type := string.

Inductive result (A : Type) : Type :=
| Return (a : A)
| Raise (e : exn).
Arguments Return {A} a.
Arguments Raise {A} e.

Module Py.

Definition M (S A : Type) : Type := S -> S * result A.

Definition ret {S A : Type} (a : A) : M S A :=
  fun s => (s, Return a).

Definition bind {S A B : Type} (c : M S A) (k : A -> M S B) : M S B :=
  fun s =>
    match c s with
    | (s', Return a) => k a s'
    | (s', Raise e) => (s', Raise e)
    end.

Definition raise {S A : Type} (e : exn) : M S A :=
  fun s => (s, Raise e).

(** [try: c  except: h()] with a bare [except], which catches everything. *)
Definition try_except {S A : Type} (c : M S A) (h : exn -> M S A) : M S A :=
  fun s =>
    match c s with
    | (s', Return a) => (s', Return a)
    | (s', Raise e) => h e s'
    end.

Definition get {S : Type} : M S S :=
  fun s => (s, Return s).

Definition modify {S : Type} (f : S -> S) : M S unit :=
  fun s => (f s, Return tt).

(** [for x in xs: body(x)] over a list that the body does not change. *)
Fixpoint for_each {S A : Type} (xs : list A) (body : A -> M S unit) : M S unit :=
  match xs with
  | [] => ret tt
  | x :: xs' => bind (body x) (fun _ => for_each xs' body)
  end.

(** The state in which a computation ends. *)
Definition exec {S A : Type} (c : M S A) (s : S) : S := fst (c s).

(** How a computation ends. *)
Definition outcome {S A : Type} (c : M S A) (s : S) : result A := snd (c s).

End Py.

Declare Scope py_scope.
Delimit Scope py_scope with py.
Notation "x <- c ;; k" := (Py.bind c (fun x => k))
  (at level 61, c at next level, right associativity) : py_scope.
Notation "c ;; k" := (Py.bind c (fun _ => k))
  (at level 61, right associativity) : py_scope.
Open Scope py_scope.

(** ** [enthought.mayavi.core.source] *)

Module Source.

(** Python object identities. *)
Definition oid : Type := nat.

(** The classes that [Source] tells apart with [isinstance]. *)
Inductive klass : Type :=
| KFilter
| KModule
| KModuleManager
| KSource
| KOther.

Definition is_module_manager (k : klass) : bool :=
  match k with KModuleManager => true | _ => false end.

(** [is_filter(object)]: [isinstance(object, Filter)]. *)
Definition is_filter (k : klass) : bool :=
  match k with KFilter => true | _ => false end.

(** The attributes of a pipeline object that [Source] reads or writes. *)
Record object : Type := mkObject {
  cls : klass;
  running : bool;
  children : list oid;
  scene : option oid;
  source : option oid;
  inputs : list oid
}.

(** What the caller can observe of a run: the method calls made on
    other objects and the exceptions handed to the logger. *)
Inductive event : Type :=
| CallStart (o : oid)
| CallStop (o : oid)
| Logged (e : exn).

(** The object store.  Every reference is valid, so the store is total;
    [next] is the first identity not yet given to an object. *)
Record world : Type := mkWorld {
  heap : oid -> object;
  next : oid;
  trace : list event
}.

Definition upd (h : oid -> object) (o : oid) (x : object) : oid -> object :=
  fun o' => if Nat.eqb o' o then x else h o'.

Definition set_obj (o : oid) (f : object -> object) (w : world) : world :=
  mkWorld (upd (heap w) o (f (heap w o))) (next w) (trace w).

Definition with_running (b : bool) (x : object) : object :=
  mkObject (cls x) b (children x) (scene x) (source x) (inputs x).

Definition with_children (cs : list oid) (x : object) : object :=
  mkObject (cls x) (running x) cs (scene x) (source x) (inputs x).

Definition with_scene (sc : option oid) (x : object) : object :=
  mkObject (cls x) (running x) (children x) sc (source x) (inputs x).

Definition with_source (src : option oid) (x : object) : object :=
  mkObject (cls x) (running x) (children x) (scene x) src (inputs x).

Definition with_inputs (ins : list oid) (x : object) : object :=
  mkObject (cls x) (running x) (children x) (scene x) (source x) ins.

Definition M : Type -> Type := Py.M world.

Definition read (o : oid) : M object :=
  fun w => (w, Return (heap w o)).

Definition write (o : oid) (f : object -> object) : M unit :=
  Py.modify (set_obj o f).

Definition record_event (ev : event) (w : world) : world :=
  mkWorld (heap w) (next w) (trace w ++ [ev]).

Definition emit (ev : event) : M unit :=
  Py.modify (record_event ev).

(** Modelled from the spec: [exception()] of
    [enthought.mayavi.core.common], called in the [except:] branches; the
    spec: a failure is "caught, logged, and swallowed". *)
Definition exception (e : exn) : M unit :=
  emit (Logged e).

Section Methods.

(** The class-specific work of [start()] and [stop()] of the objects in
    the pipeline is code of other modules.  Whether that work raises, and
    what, is left open: it may depend on the object and on the whole
    state of the program. *)
Variable start_error : oid -> world -> option exn.
Variable stop_error : oid -> world -> option exn.

(** Modelled from the spec: [Base.start], the method reached by
    [super(Source, self).start()], which is defined in
    [enthought.mayavi.core.base].  The spec: "then marks this node
    running". *)
Definition Base_start (self : oid) : M unit :=
  write self (with_running true).

(** Modelled from the spec: [Base.stop], the method reached by
    [super(Source, self).stop()], likewise.  The spec: "then marks this
    node not running". *)
Definition Base_stop (self : oid) : M unit :=
  write self (with_running false).

(** Modelled from the spec: the call [obj.start()] on a child, whose class
    (a filter, a module manager, a module, ...) is defined outside this
    file of the program.  The spec: "no-op if already running", "a node
    is running iff start() has completed"; the class-specific work in
    between may raise.  Of that work only the raising is modelled: what
    it does to other objects, such as starting the objects below the
    child, is not. *)
Definition obj_start (obj : oid) : M unit :=
  emit (CallStart obj) ;;
  x <- read obj ;;
  if running x then Py.ret tt
  else
    w <- Py.get ;;
    match start_error obj w with
    | Some e => Py.raise e
    | None => Base_start obj
    end.

(** Modelled from the spec: the call [obj.stop()] on a child, likewise:
    "no-op if not running", otherwise class-specific work that may raise,
    then the object is marked not running.  What the work does to other
    objects is not modelled. *)
Definition obj_stop (obj : oid) : M unit :=
  emit (CallStop obj) ;;
  x <- read obj ;;
  if running x then
    w <- Py.get ;;
    match stop_error obj w with
    | Some e => Py.raise e
    | None => Base_stop obj
    end
  else Py.ret tt.

(** [Source.start] *)
Definition start (self : oid) : M unit :=
  x <- read self ;;
  if running x then Py.ret tt
  else
    Py.for_each (children x)
      (fun obj => Py.try_except (obj_start obj) exception) ;;
    Base_start self.

(** [Source.stop] *)
Definition stop (self : oid) : M unit :=
  x <- read self ;;
  if negb (running x) then Py.ret tt
  else
    Py.for_each (children x) obj_stop ;;
    Base_stop self.

(** The body of the second loop of [_handle_children], "process the new
    objects". *)
Definition process_added (self obj : oid) : M unit :=
  x <- read self ;;
  write obj (with_scene (scene x)) ;;
  o <- read obj ;;
  (if is_module_manager (cls o) then write obj (with_source (Some self))
   else if is_filter (cls o) then write obj (with_inputs (inputs o ++ [self]))
   else Py.ret tt) ;;
  x <- read self ;;
  if running x then Py.try_except (obj_start obj) exception
  else Py.ret tt.

(** [Source._handle_children] *)
Definition _handle_children (self : oid) (removed added : list oid) : M unit :=
  Py.for_each removed obj_stop ;;
  Py.for_each added (process_added self).

(** [Source._children_changed]: the trait handler run when [children] is
    assigned a new list. *)
Definition _children_changed (self : oid) (old new : list oid) : M unit :=
  _handle_children self old new.

(** [Source._children_items_changed]: the trait handler run when items
    of [children] are removed or added in place. *)
Definition _children_items_changed (self : oid) (removed added : list oid)
  : M unit :=
  _handle_children self removed added.

(** The trait machinery runs the handler of a change of [children]
    inside the assignment or the list operation that makes the change.
    What the handler raises does not reach the caller: the machinery
    catches it and logs it, and the operation returns. *)
Definition notified (handler : M unit) : M unit :=
  Py.try_except handler (fun e => emit (Logged e)).

(** [self.children = new] *)
Definition assign_children (self : oid) (new : list oid) : M unit :=
  x <- read self ;;
  write self (with_children new) ;;
  notified (_children_changed self (children x) new).

(** [self.children.append(child)] *)
Definition children_append (self child : oid) : M unit :=
  x <- read self ;;
  write self (with_children (children x ++ [child])) ;;
  _children_items_changed self [] [child].

(** [self.children.remove(child)]; Python raises [ValueError] when the
    child is not in the list. *)
Fixpoint remove_first (c : oid) (cs : list oid) : option (list oid) :=
  match cs with
  | [] => None
  | x :: cs' =>
      if Nat.eqb x c then Some cs'
      else option_map (cons x) (remove_first c cs')
  end.

Definition children_remove (self child : oid) : M unit :=
  x <- read self ;;
  match remove_first child (children x) with
  | None => Py.raise "ValueError"
  | Some cs =>
      write self (with_children cs) ;;
      notified (_children_items_changed self [child] [])
  end.

(** Modelled from the spec: the constructor call
    [ModuleManager(source=self, scene=self.scene)]; the class is defined in
    [enthought.mayavi.core.module_manager].  The spec gives a manager the
    attributes [source], [scene], [children] and [running]; a new one is
    not running and has no children. *)
Definition new_ModuleManager (src : oid) (sc : option oid) : M oid :=
  fun w =>
    (mkWorld (upd (heap w) (next w)
                (mkObject KModuleManager false [] sc (Some src) []))
       (S (next w)) (trace w),
     Return (next w)).

(** The loop of [add_module]: the last [ModuleManager] among the children. *)
Definition last_module_manager (h : oid -> object) (cs : list oid)
  : option oid :=
  fold_left
    (fun mm child => if is_module_manager (cls (h child)) then Some child else mm)
    cs None.

(** [mm.children.append(module)] on a module manager.  The handler that
    [ModuleManager] runs on this change is outside this file of the
    program and is not modelled. *)
Definition mm_children_append (mm module : oid) : M unit :=
  x <- read mm ;;
  write mm (with_children (children x ++ [module])).

(** [Source.add_module] *)
Definition add_module (self module : oid) : M unit :=
  x <- read self ;;
  w <- Py.get ;;
  mm <- match last_module_manager (heap w) (children x) with
        | Some mm => Py.ret mm
        | None =>
            mm <- new_ModuleManager self (scene x) ;;
            (if running x then obj_start mm else Py.ret tt) ;;
            children_append self mm ;;
            Py.ret mm
        end ;;
  mm_children_append mm module.

End Methods.

(** Projections of a trace. *)
Definition started (t : list event) : list oid :=
  flat_map (fun ev => match ev with CallStart o => [o] | _ => [] end) t.

Definition stopped (t : list event) : list oid :=
  flat_map (fun ev => match ev with CallStop o => [o] | _ => [] end) t.

(** The events added to the trace between two states. *)
Definition since (w w' : world) : list event :=
  skipn (List.length (trace w)) (trace w').

(** The children of [self] that are module managers. *)
Definition module_managers (w : world) (self : oid) : list oid :=
  filter (fun c => is_module_manager (cls (heap w c))) (children (heap w self)).

(** The state after [add_module] has run at least once on a node whose
    children [cs0] held no module manager: [mm] is the manager that the
    first call created and [ms] are the modules added so far. *)
Definition managed (self : oid) (cs0 : list oid) (mm : oid) (ms : list oid)
  (w : world) : Prop :=
  mm <> self /\
  cls (heap w mm) = KModuleManager /\
  children (heap w self) = cs0 ++ [mm] /\
  (forall c, In c cs0 -> is_module_manager (cls (heap w c)) = false) /\
  children (heap w mm) = ms /\
  running (heap w mm) = running (heap w self).

(** [w'] is reached from [w] by adding the events [t] to the trace. *)
Definition extends (w : world) (t : list event) (w' : world) : Prop :=
  trace w' = trace w ++ t.

(** Concrete pipelines, used to run the methods.  Object 0 is a source
    with the filters 1 and 2 as children; [next] is 3. *)
Definition pipeline (is_running : bool) : world :=
  mkWorld
    (fun o =>
       match o with
       | 0 => mkObject KSource is_running [1; 2] None None []
       | _ => mkObject KFilter is_running [] None (Some 0) [0]
       end)
    3 [].

(** A source that is not running although its children, the filters 1
    and 2, are. *)
Definition idle_parent : world :=
  mkWorld
    (fun o =>
       match o with
       | 0 => mkObject KSource false [1; 2] None None []
       | _ => mkObject KFilter true [] None (Some 0) [0]
       end)
    3 [].

(** A source without children; every other object is a module that is
    not running. *)
Definition lone_source (is_running : bool) : world :=
  mkWorld
    (fun o =>
       match o with
       | 0 => mkObject KSource is_running [] None None []
       | _ => mkObject KModule false [] None None []
       end)
    1 [].

(** The work of [start()] or [stop()] of object [bad] raises [e]; that of
    every other object succeeds. *)
Definition fails_on (bad : oid) (e : exn) : oid -> world -> option exn :=
  fun o _ => if Nat.eqb o bad then Some e else None.

Definition never_fails : oid -> world -> option exn :=
  fun _ _ => None.

(** ** More of [enthought.mayavi.core.source] *)

(** Two objects that differ at most in [running]. *)
Definition same_but_running (x y : object) : Prop :=
  cls x = cls y /\ children x = children y /\ scene x = scene y /\
  source x = source y /\ inputs x = inputs y.

(** What [_handle_children] sets up on an object added to [self], whose
    scene is [sc]. *)
Definition wired (self : oid) (sc : option oid) (x : object) : Prop :=
  scene x = sc /\
  (is_module_manager (cls x) = true -> source x = Some self) /\
  (is_filter (cls x) = true -> In self (inputs x)).

Section Routing.

Variable start_error : oid -> world -> option exn.
Variable stop_error : oid -> world -> option exn.

(** [isinstance(child, self.__class__)], for [self] and [child]: the
    class of [self] may be any subclass of [Source]. *)
Variable same_class : oid -> oid -> bool.

(** [scene.add_child(child)] of the scene, which is outside this file of
    the program. *)
Variable scene_add_child : oid -> oid -> M unit.

(** [Source.add_child] *)
Definition add_child (self child : oid) : M unit :=
  c <- read child ;;
  if is_filter (cls c) then children_append start_error stop_error self child
  else if same_class self child then
    x <- read self ;;
    match scene x with
    | Some sc => scene_add_child sc child
    | None => Py.raise "AttributeError"
    end
  else
    match cls c with
    | KModule => add_module start_error stop_error self child
    | KModuleManager => children_append start_error stop_error self child
    | _ => children_append start_error stop_error self child
    end.

End Routing.

(** What is dropped on a node of the tree view: a class, or an object of
    a class. *)
Inductive dropped : Type :=
| AClass (k : klass)
| AnObject (k : klass).

(** [issubclass(x, C)], where [is_c] tells the classes that are [C] or
    derive from it; Python raises [TypeError] when [x] is not a class. *)
Definition issubclass (x : dropped) (is_c : klass -> bool) : result bool :=
  match x with
  | AClass k => Return (is_c k)
  | AnObject _ => Raise "TypeError"
  end.

(** [isinstance(x, C)]; a class is no instance of [C]. *)
Definition isinstance (x : dropped) (is_c : klass -> bool) : bool :=
  match x with
  | AClass _ => false
  | AnObject k => is_c k
  end.

(** [Source.tno_can_add] *)
Definition tno_can_add (add_object : dropped) : bool :=
  let tried :=
    match issubclass add_object is_filter with
    | Return true => Return true
    | Return false => issubclass add_object is_module_manager
    | Raise e => Raise e
    end in
  match tried with
  | Return true => true
  | Return false => false
  | Raise _ =>
      if isinstance add_object is_filter
         || isinstance add_object is_module_manager
      then true
      else false
  end.

(** [Source.tno_drop_object]; [None] is what Python returns when the
    function ends without a [return]. *)
Definition tno_drop_object (dropped_object : dropped) : option dropped :=
  if isinstance dropped_object is_filter
     || isinstance dropped_object is_module_manager
  then Some dropped_object
  else None.

(** A source whose children are the module managers 1 and 3 and the
    filter 2; every other object is a module. *)
Definition two_managers : world :=
  mkWorld
    (fun o =>
       match o with
       | 0 => mkObject KSource false [1; 2; 3] None None []
       | 1 => mkObject KModuleManager false [] None (Some 0) []
       | 2 => mkObject KFilter false [] None None [0]
       | 3 => mkObject KModuleManager false [7] None (Some 0) []
       | _ => mkObject KModule false [] None None []
       end)
    10 [].

End Source.

(** ** [enthought.mayavi.sources.vtk_data_source] *)

Module VTKDataSource.

(** ['point'] or ['cell']: the [d_type] of [_setup_data_traits], called
    [attr_type] in [_set_data_name]. *)
Inductive d_type : Type := point | cell.

(** ['scalars'], ['vectors'] or ['tensors']: the [attr] of
    [_setup_data_traits], called [data_type] in [_set_data_name]. *)
Inductive attr : Type := scalars | vectors | tensors.

Definition d_type_eqb (x y : d_type) : bool :=
  match x, y with
  | point, point | cell, cell => true
  | _, _ => false
  end.

Definition attr_eqb (x y : attr) : bool :=
  match x, y with
  | scalars, scalars | vectors, vectors | tensors, tensors => true
  | _, _ => false
  end.

(** The source names six traits of each family by formatting a string,
    ['%s_%s_name' % (d_type, attr)]; a family is a table with one entry
    per pair. *)
Definition table (A : Type) : Type := d_type -> attr -> A.

Definition tset {A : Type} (t : table A) (d : d_type) (a : attr) (v : A)
  : table A :=
  fun d' a' => if d_type_eqb d' d && attr_eqb a' a then v else t d' a'.

(** Identities of native datasets. *)
Definition ds_id : Type := nat.

(** A [tvtk.DataSet], as far as the source uses it. *)
Record DataSet : Type := mkDataSet {
  class_name : string;
  (** the names of the arrays of [point_data] and [cell_data], by kind *)
  arrays : table (list string);
  (** the active attribute of [point_data] and [cell_data] *)
  active : table (option string);
  (** the observers: tag and event *)
  observers : list (Z * string);
  next_tag : Z
}.

Definition with_active (t : table (option string)) (x : DataSet) : DataSet :=
  mkDataSet (class_name x) (arrays x) t (observers x) (next_tag x).

Definition with_observers (obs : list (Z * string)) (tag : Z) (x : DataSet)
  : DataSet :=
  mkDataSet (class_name x) (arrays x) (active x) obs tag.

(** The [tvtk.AssignAttribute] filter: its input, and the calls of
    [assign] and [update] made on it. *)
Record AssignAttribute : Type := mkAssignAttribute {
  input : option ds_id;
  assigned : list (string * attr * d_type);
  updates : nat
}.

(** An entry of [outputs]. *)
Inductive port : Type := AssignAttributeOutput.

(** A value of a field of a persisted record. *)
Inductive value : Type :=
| Str (s : string)
| Int (z : Z).

Inductive event : Type :=
| SetActive (ds : ds_id) (d : d_type) (a : attr) (v : option string)
| Assign (v : string) (a : attr) (d : d_type)
| Update
| DataChanged
| RemoveObserver (ds : ds_id) (tag : Z)
| AddObserver (ds : ds_id) (ev : string) (tag : Z)
| Connect (ds : ds_id) (ev : string)
| SetState (key : string) (v : value)
| HandleChildrenState (n : nat)
| SetChildrenState (n : nat).

(** A [VTKDataSource] object together with the native datasets and the
    trace of what it did: calls on native objects, [data_changed]
    notifications and steps of a restoration. *)
Record world : Type := mkWorld {
  data : option ds_id;
  (** [point_scalars_name], ..., [cell_tensors_name] *)
  selector : table string;
  (** [_point_scalars_list], ..., [_cell_tensors_list] *)
  candidates : table (list string);
  _assign_attribute : AssignAttribute;
  _first : bool;
  _observer_id : Z;
  outputs : list port;
  name : string;
  (** the attributes that only persistence touches *)
  attributes : list (string * value);
  datasets : ds_id -> DataSet;
  trace : list event
}.

(** A new [VTKDataSource]: the defaults of the trait declarations. *)
Definition fresh (ds : ds_id -> DataSet) : world :=
  mkWorld None (fun _ _ => "") (fun _ _ => [])
    (mkAssignAttribute None [] 0) true (-1)%Z [] "" [] ds [].

Definition with_data (v : option ds_id) (w : world) : world :=
  mkWorld v (selector w) (candidates w) (_assign_attribute w) (_first w)
    (_observer_id w) (outputs w) (name w) (attributes w) (datasets w) (trace w).

Definition with_selector (v : table string) (w : world) : world :=
  mkWorld (data w) v (candidates w) (_assign_attribute w) (_first w)
    (_observer_id w) (outputs w) (name w) (attributes w) (datasets w) (trace w).

Definition with_candidates (v : table (list string)) (w : world) : world :=
  mkWorld (data w) (selector w) v (_assign_attribute w) (_first w)
    (_observer_id w) (outputs w) (name w) (attributes w) (datasets w) (trace w).

Definition with_assign_attribute (v : AssignAttribute) (w : world) : world :=
  mkWorld (data w) (selector w) (candidates w) v (_first w)
    (_observer_id w) (outputs w) (name w) (attributes w) (datasets w) (trace w).

Definition with_first (v : bool) (w : world) : world :=
  mkWorld (data w) (selector w) (candidates w) (_assign_attribute w) v
    (_observer_id w) (outputs w) (name w) (attributes w) (datasets w) (trace w).

Definition with_observer_id (v : Z) (w : world) : world :=
  mkWorld (data w) (selector w) (candidates w) (_assign_attribute w) (_first w)
    v (outputs w) (name w) (attributes w) (datasets w) (trace w).

Definition with_outputs (v : list port) (w : world) : world :=
  mkWorld (data w) (selector w) (candidates w) (_assign_attribute w) (_first w)
    (_observer_id w) v (name w) (attributes w) (datasets w) (trace w).

Definition with_name (v : string) (w : world) : world :=
  mkWorld (data w) (selector w) (candidates w) (_assign_attribute w) (_first w)
    (_observer_id w) (outputs w) v (attributes w) (datasets w) (trace w).

Definition with_attributes (v : list (string * value)) (w : world) : world :=
  mkWorld (data w) (selector w) (candidates w) (_assign_attribute w) (_first w)
    (_observer_id w) (outputs w) (name w) v (datasets w) (trace w).

Definition with_dataset (ds : ds_id) (f : DataSet -> DataSet) (w : world)
  : world :=
  mkWorld (data w) (selector w) (candidates w) (_assign_attribute w) (_first w)
    (_observer_id w) (outputs w) (name w) (attributes w)
    (fun ds' => if Nat.eqb ds' ds then f (datasets w ds) else datasets w ds')
    (trace w).

Definition record_event (ev : event) (w : world) : world :=
  mkWorld (data w) (selector w) (candidates w) (_assign_attribute w) (_first w)
    (_observer_id w) (outputs w) (name w) (attributes w) (datasets w)
    (trace w ++ [ev]).

Definition M : Type -> Type := Py.M world.

Definition emit (ev : event) : M unit :=
  Py.modify (record_event ev).

(** [self.data_changed = True]: the event is fired. *)
Definition fire_data_changed : M unit :=
  emit DataChanged.

(** [getattr(dataset.<d>_data, 'set_active_<a>')(v)] on a native dataset;
    [v] is a name, or [None] to deactivate.  The call is recorded and the
    name is kept as the active one; what the attribute tables list
    afterwards is what [get_all_attributes] finds on the dataset. *)
Definition set_active (ds : ds_id) (d : d_type) (a : attr) (v : option string)
  : M unit :=
  Py.modify (with_dataset ds (fun x => with_active (tset (active x) d a v) x)) ;;
  emit (SetActive ds d a v).

(** [aa.assign(v, a.upper(), d.upper() + '_DATA')] *)
Definition aa_assign (v : string) (a : attr) (d : d_type) : M unit :=
  Py.modify
    (fun w =>
       let aa := _assign_attribute w in
       with_assign_attribute
         (mkAssignAttribute (input aa) (assigned aa ++ [(v, a, d)]) (updates aa))
         w) ;;
  emit (Assign v a d).

(** [aa.update()] *)
Definition aa_update : M unit :=
  Py.modify
    (fun w =>
       let aa := _assign_attribute w in
       with_assign_attribute
         (mkAssignAttribute (input aa) (assigned aa) (S (updates aa))) w) ;;
  emit Update.

(** [dataset.remove_observer(tag)] *)
Definition remove_observer (ds : ds_id) (tag : Z) : M unit :=
  Py.modify
    (with_dataset ds
       (fun x =>
          with_observers
            (filter (fun o => negb (Z.eqb (fst o) tag)) (observers x))
            (next_tag x) x)) ;;
  emit (RemoveObserver ds tag).

(** [dataset.add_observer(ev, messenger.send)]: the tag of the new
    observer is returned. *)
Definition add_observer (ds : ds_id) (ev : string) : M Z :=
  w <- Py.get ;;
  let tag := next_tag (datasets w ds) in
  Py.modify
    (with_dataset ds
       (fun x => with_observers (observers x ++ [(tag, ev)]) (tag + 1)%Z x)) ;;
  emit (AddObserver ds ev tag) ;;
  Py.ret tag.

(** [VTKDataSource._fire_data_changed] *)
Definition _fire_data_changed : M unit :=
  fire_data_changed.

(** [VTKDataSource._set_data_name] *)
Definition _set_data_name (data_type : attr) (attr_type : d_type)
  (value : option string) : M unit :=
  match value with
  | None => Py.ret tt
  | Some value =>
      w <- Py.get ;;
      match data w with
      | None => Py.raise "AttributeError"
      | Some dataset =>
          if Nat.eqb (String.length value) 0 then
            set_active dataset attr_type data_type None ;;
            fire_data_changed
          else
            set_active dataset attr_type data_type (Some value) ;;
            aa_assign value data_type attr_type ;;
            aa_update ;;
            fire_data_changed
      end
  end.

(** [_point_scalars_name_changed], ..., [_cell_tensors_name_changed] *)
Definition _name_changed (d : d_type) (a : attr) (value : option string)
  : M unit :=
  _set_data_name a d value.

Definition mem (k : string) (ks : list string) : bool :=
  existsb (String.eqb k) ks.

(** A record handed to [__set_pure_state__]: the attribute [data], which
    a record may lack ([None]), and which holds [None] or the compressed
    dataset; the other fields that are not children; the records of the
    children. *)
Record pure_state : Type := mkPureState {
  st_data : option (option string);
  st_fields : list (string * value);
  st_children : list string
}.

Section Traits.

(** [get_all_attributes] of [vtk_xml_file_reader], which is outside this
    file of the program: the array names that it finds on a dataset, for
    every pair.  What it lists, and in which order, may depend on the
    whole dataset, its active attributes included. *)
Variable get_all_attributes : DataSet -> table (list string).

(** The selectors are [DEnum] traits of [enthought.mayavi.core.traits],
    outside this file of the program: the value of a selector is a
    member of its list.  When the list is replaced by one without the
    value of the selector, the selector falls back to a member of the new
    list; which one is left open: it is the member at this index. *)
Variable fallback_index : list string -> nat.

Definition fallback (values : list string) : string :=
  nth (fallback_index values) values "".

(** Modelled from the spec: [setattr(obj, '_<d>_<a>_list', values)] with
    the [DEnum] selector that reads the list.  The spec: a selector is "a
    name drawn from a dynamically computed candidate list".  The list is
    stored; a selector whose value is not in it falls back, and since its
    value changes its handler runs. *)
Definition store_candidates (d : d_type) (a : attr) (values : list string)
  : M unit :=
  Py.modify (fun w => with_candidates (tset (candidates w) d a values) w) ;;
  w <- Py.get ;;
  if mem (selector w d a) values then Py.ret tt
  else
    Py.modify
      (fun w => with_selector (tset (selector w) d a (fallback values)) w) ;;
    _name_changed d a (Some (fallback values)).

(** Modelled from the spec: [self.<d>_<a>_name = value], an assignment
    to a [DEnum] selector.  The spec: a selector is "a name drawn from a
    dynamically computed candidate list".  A value that is not in the list
    is refused with [TraitError]; otherwise the value is stored and the
    handler runs. *)
Definition assign_selector (d : d_type) (a : attr) (value : string) : M unit :=
  w <- Py.get ;;
  if mem value (candidates w d a) then
    Py.modify (fun w => with_selector (tset (selector w) d a value) w) ;;
    _name_changed d a (Some value)
  else Py.raise "TraitError".

(** The body of the loop of [_setup_data_traits], for one [attr]. *)
Definition setup_attr (ds : ds_id) (found : attr -> list string)
  (d : d_type) (a : attr) : M unit :=
  let values := found a ++ [""] in
  store_candidates d a values ;;
  if Nat.ltb 1 (List.length values) then
    w <- Py.get ;;
    let default := selector w d a in
    let default :=
      if _first w && Nat.eqb (String.length default) 0
      then nth 0 values ""
      else default in
    set_active ds d a (Some default) ;;
    aa_assign default a d ;;
    aa_update ;;
    Py.modify (fun w => with_selector (tset (selector w) d a default) w)
  else Py.ret tt.

(** [_setup_data_traits(obj, attributes, d_type)], local to
    [_update_data]. *)
Definition _setup_data_traits (found : attr -> list string) (d : d_type)
  : M unit :=
  w <- Py.get ;;
  match data w with
  | None => Py.raise "AttributeError"
  | Some ds => Py.for_each [scalars; vectors; tensors] (setup_attr ds found d)
  end.

(** [VTKDataSource._update_data], the data-refresh pass. *)
Definition _update_data : M unit :=
  w <- Py.get ;;
  match data w with
  | None => Py.ret tt
  | Some ds =>
      let pnt_attr := get_all_attributes (datasets w ds) point in
      let cell_attr := get_all_attributes (datasets w ds) cell in
      _setup_data_traits pnt_attr point ;;
      _setup_data_traits cell_attr cell ;;
      w <- Py.get ;;
      (if _first w then Py.modify (with_first false) else Py.ret tt) ;;
      fire_data_changed
  end.

(** [VTKDataSource._get_name] *)
Definition _get_name : M string :=
  w <- Py.get ;;
  let ret :=
    match data w with
    | Some ds => "VTK Data (" ++ class_name (datasets w ds) ++ ")"
    | None => "VTK Data (uninitialized)"
    end%string in
  match String.index 0 "[Hidden]" (name w) with
  | Some _ => Py.ret (ret ++ " [Hidden]")%string
  | None => Py.ret ret
  end.

(** [VTKDataSource._data_changed] *)
Definition _data_changed (old : option ds_id) (new : ds_id) : M unit :=
  Py.modify
    (fun w =>
       let aa := _assign_attribute w in
       with_assign_attribute
         (mkAssignAttribute (Some new) (assigned aa) (updates aa)) w) ;;
  _update_data ;;
  Py.modify (with_outputs [AssignAttributeOutput]) ;;
  fire_data_changed ;;
  (match old with
   | Some old => w <- Py.get ;; remove_observer old (_observer_id w)
   | None => Py.ret tt
   end) ;;
  tag <- add_observer new "ModifiedEvent" ;;
  Py.modify (with_observer_id tag) ;;
  emit (Connect new "ModifiedEvent") ;;
  nm <- _get_name ;;
  Py.modify (with_name nm).

(** [self.data = new].  The trait machinery stores the value and runs
    [_data_changed(old, new)]; assigning the object already held notifies
    nobody. *)
Definition assign_data (new : ds_id) : M unit :=
  w <- Py.get ;;
  match data w with
  | Some old =>
      if Nat.eqb old new then Py.ret tt
      else Py.modify (with_data (Some new)) ;; _data_changed (Some old) new
  | None => Py.modify (with_data (Some new)) ;; _data_changed None new
  end.

(** [gunzip_string], and [tvtk.DataSetReader] reading a dataset from a
    string: the dataset it outputs. *)
Variable gunzip_string : string -> string.
Variable read_dataset : string -> ds_id.

(** [setattr(self, key, value)] as [set_state] does it for a field.  The
    traits [name] and [_observer_id] are a string and an integer, and
    refuse another value with [TraitError]. *)
Definition restore_field (kv : string * value) : M unit :=
  (if String.eqb (fst kv) "name" then
     match snd kv with
     | Str s => Py.modify (with_name s)
     | Int _ => Py.raise "TraitError"
     end
   else if String.eqb (fst kv) "_observer_id" then
     match snd kv with
     | Int z => Py.modify (with_observer_id z)
     | Str _ => Py.raise "TraitError"
     end
   else Py.modify (fun w => with_attributes (kv :: attributes w) w)) ;;
  emit (SetState (fst kv) (snd kv)).

(** Modelled from the spec: [set_state(self, state, first=..., ignore=...)]
    of [enthought.persistence.state_pickler], as the source calls it:
    the attributes named in [first] are set first, then the others, those
    named in [ignore] excepted, all others excepted when [ignore] holds
    ['*'].  The attributes of a record are [data], the fields and
    [children]; setting [children] sets the state of every child. *)
Definition set_state (state : pure_state) (first ignore : list string)
  : M unit :=
  let wanted k := mem k first || negb (mem "*" ignore || mem k ignore) in
  let children_state :=
    if wanted "children"
    then emit (SetChildrenState (List.length (st_children state)))
    else Py.ret tt in
  (if mem "children" first then children_state else Py.ret tt) ;;
  Py.for_each (filter (fun kv => wanted (fst kv)) (st_fields state))
    restore_field ;;
  (if mem "children" first then Py.ret tt else children_state).

(** Modelled from the spec: [handle_children_state(self.children,
    state.children)] of [enthought.mayavi.core.common], which makes the
    list of children match the records: "children are restored and
    attached". *)
Definition handle_children_state (children : list string) : M unit :=
  emit (HandleChildrenState (List.length children)).

(** [VTKDataSource.__set_pure_state__]; [state.data] raises
    [AttributeError] on a record without the attribute. *)
Definition __set_pure_state__ (state : pure_state) : M unit :=
  match st_data state with
  | None => Py.raise "AttributeError"
  | Some z =>
      (match z with
       | Some z =>
           let d := gunzip_string z in
           assign_data (read_dataset d)
       | None => Py.ret tt
       end) ;;
      set_state state [] ["children"; "data"] ;;
      handle_children_state (st_children state) ;;
      set_state state ["children"] ["*"]
  end.

(** The step that the pass makes for a pair. *)
Definition visit (ds : ds_id) (found : table (list string))
  (p : d_type * attr) : M unit :=
  setup_attr ds (found (fst p)) (fst p) (snd p).

End Traits.

(** The events added to the trace between two states. *)
Definition since (w w' : world) : list event :=
  skipn (List.length (trace w)) (trace w').

(** The calls that add or remove an observer, in order. *)
Definition observer_events (t : list event) : list event :=
  filter
    (fun ev =>
       match ev with
       | RemoveObserver _ _ | AddObserver _ _ _ => true
       | _ => false
       end) t.

(** The subscriptions that the source has made and not released, read
    off the calls it made: the dataset and the tag of each. *)
Definition subscription_step (live : list (ds_id * Z)) (ev : event)
  : list (ds_id * Z) :=
  match ev with
  | AddObserver ds _ tag => live ++ [(ds, tag)]
  | RemoveObserver ds tag =>
      filter (fun s => negb (Nat.eqb (fst s) ds && Z.eqb (snd s) tag)) live
  | _ => live
  end.

Definition subscriptions (t : list event) : list (ds_id * Z) :=
  fold_left subscription_step t [].

(** The invariant of the subscription: the source has exactly one
    subscription, on the dataset it holds, under the tag kept in
    [_observer_id], and the dataset has the observer.  A dataset may have
    any other observers. *)
Definition subscribed (w : world) : Prop :=
  match data w with
  | Some cur =>
      subscriptions (trace w) = [(cur, _observer_id w)] /\
      In (_observer_id w, "ModifiedEvent") (observers (datasets w cur))
  | None => subscriptions (trace w) = []
  end.

(** Does the event touch the active attribute or the assignment of the
    pair [(d, a)]? *)
Definition touches (d : d_type) (a : attr) (ev : event) : bool :=
  match ev with
  | SetActive _ d' a' _ => d_type_eqb d' d && attr_eqb a' a
  | Assign _ a' d' => d_type_eqb d' d && attr_eqb a' a
  | _ => false
  end.

(** The six pairs in the order in which [_update_data] visits them, and
    the end of the pass. *)
Definition pairs : list (d_type * attr) :=
  [(point, scalars); (point, vectors); (point, tensors);
   (cell, scalars); (cell, vectors); (cell, tensors)].

Definition finish (w : world) : world :=
  record_event DataChanged (if _first w then with_first false w else w).

(** The three kinds of state that a restoration applies. *)
Inductive phase : Type := Fields | Dataset | Children.

Definition phase_eqb (p q : phase) : bool :=
  match p, q with
  | Fields, Fields | Dataset, Dataset | Children, Children => true
  | _, _ => false
  end.

Definition phase_of (ev : event) : phase :=
  match ev with
  | SetState _ _ => Fields
  | HandleChildrenState _ | SetChildrenState _ => Children
  | _ => Dataset
  end.

(** The phases of a trace in the order in which they begin. *)
Fixpoint phases (t : list event) : list phase :=
  match t with
  | [] => []
  | ev :: t' =>
      match phases t' with
      | p :: ps => if phase_eqb (phase_of ev) p then p :: ps
                   else phase_of ev :: p :: ps
      | [] => [phase_of ev]
      end
  end.

(** The events of a trace belong to the dataset. *)
Definition native (t : list event) : bool :=
  forallb (fun ev => phase_eqb (phase_of ev) Dataset) t.

(** What no step of the pass changes: [t] are the events added. *)
Definition kept (w w' : world) (t : list event) : Prop :=
  trace w' = trace w ++ t /\
  observer_events t = [] /\ native t = true /\
  data w' = data w /\ _first w' = _first w /\
  _observer_id w' = _observer_id w /\
  name w' = name w /\
  input (_assign_attribute w') = input (_assign_attribute w) /\
  (forall x, observers (datasets w' x) = observers (datasets w x) /\
             next_tag (datasets w' x) = next_tag (datasets w x) /\
             class_name (datasets w' x) = class_name (datasets w x) /\
             arrays (datasets w' x) = arrays (datasets w x)).

(** What the steps for the other pairs leave alone of the pair [(d, a)]. *)
Definition untouched (d : d_type) (a : attr) (w w' : world) (t : list event)
  : Prop :=
  selector w' d a = selector w d a /\
  candidates w' d a = candidates w d a /\
  (forall x, active (datasets w' x) d a = active (datasets w x) d a) /\
  forallb (fun ev => negb (touches d a ev)) t = true.

Definition nonempty (values : list string) : bool :=
  match values with
  | [] => false
  | _ :: _ => true
  end.

(** The calls that the pass makes for a pair with arrays, once the
    selector of the pair holds [v]. *)
Definition activation (ds : ds_id) (d : d_type) (a : attr) (v : string)
  : list event :=
  [SetActive ds d a (Some v); Assign v a d; Update].

(** The calls of the handler of a selector that has fallen back to [v],
    [data_changed] included. *)
Definition handler_calls (ds : ds_id) (d : d_type) (a : attr) (v : string)
  : list event :=
  if Nat.eqb (String.length v) 0
  then [SetActive ds d a None; DataChanged]
  else activation ds d a v ++ [DataChanged].

(** The calls of a whole pass before its last [data_changed], in the
    order of the visit: for a pair whose selector, [before] the pass, is
    not in the new list, those of the handler; for a pair with arrays,
    the activation of what the selector holds [after] the pass. *)
Definition pass_calls (fallback_index : list string -> nat) (ds : ds_id)
  (found : table (list string)) (before after : table string) : list event :=
  flat_map
    (fun p =>
       let values := found (fst p) (snd p) ++ [""] in
       (if mem (before (fst p) (snd p)) values then []
        else handler_calls ds (fst p) (snd p) (fallback fallback_index values))
       ++ (if nonempty (found (fst p) (snd p))
           then activation ds (fst p) (snd p) (after (fst p) (snd p))
           else []))
    pairs.

(** The pairs whose selector is not among the names found for the pair
    or empty. *)
Definition stale_pairs (found : table (list string)) (sel : table string)
  : list (d_type * attr) :=
  filter
    (fun p => negb (mem (sel (fst p) (snd p)) (found (fst p) (snd p) ++ [""])))
    pairs.

(** The value that the selector of a pair has after the step for the
    pair, from the value [v] it had before, on a source whose [_first] is
    [first]: the value itself, or the fallback when it is not in the new
    list; on a first pass the first name found, when that is empty. *)
Definition settled (fallback_index : list string -> nat) (first : bool)
  (found : list string) (v : string) : string :=
  let v1 :=
    if mem v (found ++ [""]) then v
    else fallback fallback_index (found ++ [""]) in
  if nonempty found && first && Nat.eqb (String.length v1) 0
  then nth 0 found ""
  else v1.

(** How often [data_changed] is fired in a trace. *)
Definition data_changes (t : list event) : nat :=
  List.length
    (filter (fun ev => match ev with DataChanged => true | _ => false end) t).

(** The last value that a list of fields gives to a key: [fs] is the
    list in reverse. *)
Fixpoint field_get (k : string) (fs : list (string * value)) : option value :=
  match fs with
  | [] => None
  | (k', v) :: fs' => if String.eqb k' k then Some v else field_get k fs'
  end.

(** The fields [name] and [_observer_id] of a record hold a string and
    an integer. *)
Definition typed (kv : string * value) : bool :=
  if String.eqb (fst kv) "name" then
    match snd kv with Str _ => true | Int _ => false end
  else if String.eqb (fst kv) "_observer_id" then
    match snd kv with Int _ => true | Str _ => false end
  else true.

(** No field of a record is named like its dataset or its children, and
    the fields are typed. *)
Definition well_formed (state : pure_state) : Prop :=
  forallb
    (fun kv => negb (mem (fst kv) ["children"; "data"]) && typed kv)
    (st_fields state) = true.

(** Datasets to run the methods on.  Dataset 1 is a [PolyData] with the
    point scalars [temperature] and [pressure] and nothing else;
    dataset 2 is an [ImageData] with the point vectors [velocity] and
    nothing else.  No attribute is active.  Each carries an observer that
    is not of the source, under tag 0, as tvtk registers one on the
    objects it wraps. *)
Definition weather : ds_id -> DataSet :=
  fun ds =>
    match ds with
    | 1 =>
        mkDataSet "PolyData"
          (fun d a =>
             match d, a with
             | point, scalars => ["temperature"; "pressure"]
             | _, _ => []
             end)
          (fun _ _ => None) [(0%Z, "ModifiedEvent")] 1%Z
    | _ =>
        mkDataSet "ImageData"
          (fun d a =>
             match d, a with
             | point, vectors => ["velocity"]
             | _, _ => []
             end)
          (fun _ _ => None) [(0%Z, "ModifiedEvent")] 1%Z
    end.

(** A discovery to run the methods with: the arrays of the pair, the
    active one first. *)
Definition active_first (x : DataSet) : table (list string) :=
  fun d a =>
    match active x d a with
    | Some v =>
        if mem v (arrays x d a)
        then v :: filter (fun n => negb (String.eqb n v)) (arrays x d a)
        else arrays x d a
    | None => arrays x d a
    end.

(** A fallback to run the methods with: the first member of the list. *)
Definition first_member : list string -> nat := fun _ => 0.

(** A decompression and a reader to restore with: the string is taken
    as it is, and what is read is dataset 1. *)
Definition stored : string -> string := fun z => z.

Definition reads_weather : string -> ds_id := fun _ => 1.

(** A persisted source: a dataset, the field [name], one child. *)
Definition saved : pure_state :=
  mkPureState (Some (Some "gzipped")) [("name", Str "VTK Data (PolyData)")]
    ["child"].

(** A source persisted while the tag of its observer was 7: the record
    that [__get_pure_state__] makes keeps the tag. *)
Definition saved_with_tag : pure_state :=
  mkPureState (Some (Some "gzipped"))
    [("name", Str "VTK Data (PolyData)"); ("_observer_id", Int 7%Z)] [].

(** The record of a source that held no dataset: it has no [data]. *)
Definition saved_without_data : pure_state :=
  mkPureState None [("name", Str "VTK Data (uninitialized)")] [].

(** The state in which the pass runs when dataset 2 replaces dataset 1
    in a source that had selected [temperature]. *)
Definition replaced : world :=
  with_data (Some 2)
    (Py.exec (assign_data active_first first_member 1) (fresh weather)).

(** A new source restored from [saved_with_tag]. *)
Definition restored : world :=
  Py.exec
    (__set_pure_state__ active_first first_member stored reads_weather
       saved_with_tag)
    (fresh weather).

(** ** More of [enthought.mayavi.sources.vtk_data_source] *)

(** A Python dictionary with string keys, as a list of entries with at
    most one entry per key. *)
Definition dict : Type := list (string * string).

(** [d.get(k)] *)
Fixpoint dict_get (k : string) (d : dict) : option string :=
  match d with
  | [] => None
  | (k', v) :: d' => if String.eqb k' k then Some v else dict_get k d'
  end.

(** [d.pop(name, None)] *)
Definition dict_pop (name : string) (d : dict) : dict :=
  filter (fun kv => negb (String.eqb (fst kv) name)) d.

(** [d[name] = v] *)
Definition dict_set (name v : string) (d : dict) : dict :=
  (name, v) :: dict_pop name d.

Section Saving.

(** [gzip_string], and the string that a [tvtk.DataSetWriter] writing to
    its output string produces for a dataset. *)
Variable gzip_string : string -> string.
Variable write_dataset : DataSet -> string.

(** [VTKDataSource.__get_pure_state__]; [d] is the dictionary that
    [super(VTKDataSource, self).__get_pure_state__()] returns. *)
Definition __get_pure_state__ (d : dict) (w : world) : dict :=
  let d :=
    fold_left (fun d name => dict_pop name d)
      ["_assign_attribute"; "_first"; "_observer"] d in
  let d :=
    fold_left
      (fun d name =>
         dict_pop ("_" ++ name ++ "_name")%string
           (dict_pop ("_" ++ name ++ "_list")%string d))
      ["point_scalars"; "point_vectors"; "point_tensors";
       "cell_scalars"; "cell_vectors"; "cell_tensors"] d in
  match data w with
  | Some ds => dict_set "data" (gzip_string (write_dataset (datasets w ds))) d
  | None => d
  end.

End Saving.

(** The keys that [__get_pure_state__] removes. *)
Definition removed_keys : list string :=
  ["_assign_attribute"; "_first"; "_observer";
   "_point_scalars_list"; "_point_scalars_name";
   "_point_vectors_list"; "_point_vectors_name";
   "_point_tensors_list"; "_point_tensors_name";
   "_cell_scalars_list"; "_cell_scalars_name";
   "_cell_vectors_list"; "_cell_vectors_name";
   "_cell_tensors_list"; "_cell_tensors_name"].

(** The dictionary of a source as its base class would save it. *)
Definition base_record : dict :=
  [("name", "VTK Data (PolyData)"); ("_first", "False");
   ("_observer_id", "4"); ("_point_scalars_list", "['temperature', '']");
   ("running", "True")].

End VTKDataSource.

(** ** A [VTKDataSource] as a node of the pipeline *)

Module VTKDataSourceNode.

(** The two views of one object: the node of the pipeline, with the
    objects around it, and the dataset source. *)
Record world : Type := mkWorld {
  node : Source.world;
  vtk : VTKDataSource.world
}.

Definition M : Type -> Type := Py.M world.

Definition on_node {A : Type} (c : Source.M A) : M A :=
  fun w => let (n, r) := c (node w) in (mkWorld n (vtk w), r).

Definition on_vtk {A : Type} (c : VTKDataSource.M A) : M A :=
  fun w => let (v, r) := c (vtk w) in (mkWorld (node w) v, r).

Section Start.

Variable get_all_attributes :
  VTKDataSource.DataSet -> VTKDataSource.table (list string).
Variable fallback_index : list string -> nat.
Variable start_error : Source.oid -> Source.world -> option exn.

(** [VTKDataSource.start]; [super(VTKDataSource, self).start()] is
    [Source.start]. *)
Definition start (self : Source.oid) : M unit :=
  x <- on_node (Source.read self) ;;
  if Source.running x then Py.ret tt
  else
    on_vtk (VTKDataSource._update_data get_all_attributes fallback_index) ;;
    on_node (Source.start start_error self).

End Start.

End VTKDataSourceNode.

(** ** The generated classes of [tvtk.tvtk_classes] *)

Module TVTK.

(** The views that [trait_view] of a generated class builds. *)
Inductive view : Type := FullTraitsView | View | TraitsView.

(** What [trait_view] returns: the answer of the superclass, a view it
    built, or [None]. *)
Inductive answer : Type :=
| Super
| Built (v : view)
| Nothing.

Definition is_in (name : option string) (names : list (option string))
  : bool :=
  existsb
    (fun n =>
       match name, n with
       | None, None => true
       | Some x, Some y => String.eqb x y
       | _, _ => false
       end) names.

(** [ParametricSuperEllipsoid.trait_view] and
    [XMLDataSetWriter.trait_view], which differ only in the contents of
    the views; [view_element_given] is [view_element is not None]. *)
Definition trait_view (name : option string) (view_element_given : bool)
  : answer :=
  if view_element_given
     || negb (is_in name
                [None; Some ""; Some "traits_view"; Some "full_traits_view";
                 Some "view"])
  then Super
  else if is_in name [Some "full_traits_view"] then Built FullTraitsView
  else if is_in name [Some "view"] then Built View
  else if is_in name [None; Some "traits_view"] then Built TraitsView
  else Nothing.

End TVTK.

(** * Properties *)

(** ** General facts about traces *)

Lemma skipn_length_app (A : Type) (l t : list A) :
  skipn (List.length l) (l ++ t) = t.
Proof.
  induction l as [|a l IH]; simpl.
  - reflexivity.
  - exact IH.
Qed.

(** ** Properties of [Source] *)

Section SourceProperties.

Import Source.

Variable start_error : oid -> world -> option exn.
Variable stop_error : oid -> world -> option exn.

Local Abbreviation obj_start := (Source.obj_start start_error).
Local Abbreviation obj_stop := (Source.obj_stop stop_error).
Local Abbreviation start := (Source.start start_error).
Local Abbreviation stop := (Source.stop stop_error).
Local Abbreviation _handle_children := (Source._handle_children start_error stop_error).
Local Abbreviation add_module := (Source.add_module start_error stop_error).

Lemma extends_since w t w' : extends w t w' -> since w w' = t.
Proof.
  unfold extends, since. intros ->. apply skipn_length_app.
Qed.

Lemma extends_trans w t1 w1 t2 w2 :
  extends w t1 w1 -> extends w1 t2 w2 -> extends w (t1 ++ t2) w2.
Proof.
  unfold extends. intros H1 H2. rewrite H2, H1. symmetry. apply app_assoc.
Qed.

Lemma started_app t1 t2 : started (t1 ++ t2) = started t1 ++ started t2.
Proof. unfold started. apply flat_map_app. Qed.

Lemma stopped_app t1 t2 : stopped (t1 ++ t2) = stopped t1 ++ stopped t2.
Proof. unfold stopped. apply flat_map_app. Qed.

Lemma heap_set_obj_same o f w : heap (set_obj o f w) o = f (heap w o).
Proof. unfold set_obj, upd. simpl. now rewrite Nat.eqb_refl. Qed.

Lemma heap_set_obj_other o f w o' :
  o' <> o -> heap (set_obj o f w) o' = heap w o'.
Proof.
  intros Hne. unfold set_obj, upd. simpl.
  destruct (Nat.eqb_spec o' o); [contradiction | reflexivity].
Qed.

(** *** One call of [obj.start()] and of [obj.stop()] *)

Lemma obj_start_run c w :
  obj_start c w =
    let w1 := record_event (CallStart c) w in
    if running (heap w c) then (w1, Return tt)
    else match start_error c w1 with
         | Some e => (w1, Raise e)
         | None => (set_obj c (with_running true) w1, Return tt)
         end.
Proof.
  unfold Source.obj_start, Py.bind, emit, read, Py.modify, Py.get. simpl.
  destruct (running (heap w c)); [reflexivity|].
  destruct (start_error c (record_event (CallStart c) w)); reflexivity.
Qed.

Lemma obj_stop_run c w :
  obj_stop c w =
    let w1 := record_event (CallStop c) w in
    if running (heap w c) then
      match stop_error c w1 with
      | Some e => (w1, Raise e)
      | None => (set_obj c (with_running false) w1, Return tt)
      end
    else (w1, Return tt).
Proof.
  unfold Source.obj_stop, Py.bind, emit, read, Py.modify, Py.get. simpl.
  destruct (running (heap w c)); [|reflexivity].
  destruct (stop_error c (record_event (CallStop c) w)); reflexivity.
Qed.

(** What one guarded [obj.start()] of the loop of [start] does: it
    returns, it adds the call and possibly a log entry to the trace, and
    it changes at most [running] of the child. *)
Lemma attempt_start c w :
  exists w' t,
    Py.try_except (obj_start c) exception w = (w', Return tt) /\
    extends w (CallStart c :: t) w' /\
    started t = [] /\ stopped t = [] /\
    next w' = next w /\
    (forall o, o <> c -> heap w' o = heap w o) /\
    (running (heap w c) = true -> heap w' c = heap w c) /\
    (forall e, (forall w0, start_error c w0 = Some e) ->
               running (heap w c) = false ->
               t = [Logged e] /\ heap w' c = heap w c).
Proof.
  unfold Py.try_except. rewrite obj_start_run. cbv zeta.
  destruct (running (heap w c)) eqn:Hr.
  - exists (record_event (CallStart c) w), [].
    repeat split; try reflexivity; try discriminate.
  - destruct (start_error c (record_event (CallStart c) w)) as [e|] eqn:He.
    + exists (record_event (Logged e) (record_event (CallStart c) w)), [Logged e].
      repeat split; try reflexivity; try discriminate.
      * unfold extends. simpl. now rewrite <- app_assoc.
      * specialize (H (record_event (CallStart c) w)). congruence.
    + exists (set_obj c (with_running true) (record_event (CallStart c) w)), [].
      repeat split; try reflexivity; try discriminate.
      * intros o Ho. now rewrite heap_set_obj_other.
      * specialize (H (record_event (CallStart c) w)). congruence.
      * specialize (H (record_event (CallStart c) w)). congruence.
Qed.

(** The loop of [start]: every child gets its [start()] call, in order,
    whatever the earlier children did. *)
Lemma start_children cs : forall w,
  exists w' t,
    Py.for_each cs (fun obj => Py.try_except (obj_start obj) exception) w
      = (w', Return tt) /\
    extends w t w' /\
    started t = cs /\ stopped t = [] /\
    (forall c e, In c cs -> (forall w0, start_error c w0 = Some e) ->
                 running (heap w c) = false -> In (Logged e) t).
Proof.
  induction cs as [|c cs IH]; intros w.
  - exists w, []. repeat split; try reflexivity.
    + unfold extends. now rewrite app_nil_r.
    + intros c e [].
  - destruct (attempt_start c w)
      as (w1 & t1 & Hrun & Hext & Hst & Hsp & _ & Hframe & _ & Hfail).
    destruct (IH w1) as (w2 & t2 & Hrun2 & Hext2 & Hst2 & Hsp2 & Hlog2).
    exists w2, ((CallStart c :: t1) ++ t2).
    split; [|split; [|split; [|split]]].
    + simpl. unfold Py.bind. now rewrite Hrun.
    + eapply extends_trans; eassumption.
    + rewrite started_app. simpl. now rewrite Hst, Hst2.
    + rewrite stopped_app. simpl. now rewrite Hsp, Hsp2.
    + intros c' e Hin Herr Hnr. apply in_or_app.
      destruct (Nat.eq_dec c' c) as [->|Hne].
      * left. destruct (Hfail e Herr Hnr) as [-> _]. simpl. auto.
      * right. destruct Hin as [Heq|Hin]; [congruence|].
        apply (Hlog2 c' e Hin Herr). now rewrite Hframe.
Qed.

(** [start] and [stop] as functions of the state. *)
Lemma start_run self w :
  start self w =
    if running (heap w self) then (w, Return tt)
    else
      match Py.for_each (children (heap w self))
              (fun obj => Py.try_except (obj_start obj) exception) w with
      | (w1, Return _) => (set_obj self (with_running true) w1, Return tt)
      | (w1, Raise e) => (w1, Raise e)
      end.
Proof.
  unfold Source.start, Py.bind, read. simpl.
  destruct (running (heap w self)); reflexivity.
Qed.

Lemma stop_run self w :
  stop self w =
    if running (heap w self) then
      match Py.for_each (children (heap w self)) obj_stop w with
      | (w1, Return _) => (set_obj self (with_running false) w1, Return tt)
      | (w1, Raise e) => (w1, Raise e)
      end
    else (w, Return tt).
Proof.
  unfold Source.stop, Py.bind, read. simpl.
  destruct (running (heap w self)); reflexivity.
Qed.

(** C1. For every [Source] node that is not running, [start()] returns
    normally whatever its children do: it calls [start()] on every child,
    in the order of [children], an exception raised by a child is caught
    and logged and keeps neither a later child from being started nor the
    node from being marked running. *)
Theorem start_attempts_every_child :
  forall (w : world) (self : oid),
    running (heap w self) = false ->
    Py.outcome (start self) w = Return tt /\
    started (since w (Py.exec (start self) w)) = children (heap w self) /\
    stopped (since w (Py.exec (start self) w)) = [] /\
    running (heap (Py.exec (start self) w) self) = true /\
    (forall c e,
        In c (children (heap w self)) ->
        running (heap w c) = false ->
        (forall w0, start_error c w0 = Some e) ->
        In (Logged e) (since w (Py.exec (start self) w))).
Proof.
  intros w self Hnr.
  destruct (start_children (children (heap w self)) w)
    as (w1 & t & Hrun & Hext & Hst & Hsp & Hlog).
  assert (Hstart : start self w = (set_obj self (with_running true) w1, Return tt)).
  { now rewrite start_run, Hnr, Hrun. }
  assert (Hsince : since w (set_obj self (with_running true) w1) = t).
  { apply extends_since. exact Hext. }
  unfold Py.outcome, Py.exec. rewrite Hstart. simpl fst. simpl snd.
  rewrite Hsince.
  repeat split; try assumption.
  - now rewrite heap_set_obj_same.
  - intros c e Hin Hc Herr. eauto.
Qed.

(** C5. [start()] and [stop()] are idempotent: two calls in a row end as
    one call does, in the same state and with the same outcome; [start()]
    on a running node and [stop()] on a node that is not running change
    nothing. *)
Theorem start_stop_idempotent :
  forall (w : world) (self : oid),
    (start self ;; start self) w = start self w /\
    (stop self ;; stop self) w = stop self w /\
    (running (heap w self) = true -> start self w = (w, Return tt)) /\
    (running (heap w self) = false -> stop self w = (w, Return tt)).
Proof.
  intros w self.
  assert (Hstart_noop : forall w0,
             running (heap w0 self) = true -> start self w0 = (w0, Return tt)).
  { intros w0 Hr. now rewrite start_run, Hr. }
  assert (Hstop_noop : forall w0,
             running (heap w0 self) = false -> stop self w0 = (w0, Return tt)).
  { intros w0 Hr. now rewrite stop_run, Hr. }
  split; [|split; [|split]]; auto.
  - destruct (running (heap w self)) eqn:Hr.
    + unfold Py.bind at 1. rewrite (Hstart_noop w Hr). now apply Hstart_noop.
    + destruct (start_children (children (heap w self)) w)
        as (w1 & t & Hrun & _).
      assert (Hs : start self w
                   = (set_obj self (with_running true) w1, Return tt)).
      { now rewrite start_run, Hr, Hrun. }
      unfold Py.bind at 1. rewrite Hs. apply Hstart_noop.
      now rewrite heap_set_obj_same.
  - destruct (running (heap w self)) eqn:Hr.
    + destruct (Py.for_each (children (heap w self)) obj_stop w)
        as [w1 [[]|e]] eqn:Hloop.
      * assert (Hs : stop self w
                     = (set_obj self (with_running false) w1, Return tt)).
        { now rewrite stop_run, Hr, Hloop. }
        unfold Py.bind at 1. rewrite Hs. apply Hstop_noop.
        now rewrite heap_set_obj_same.
      * assert (Hs : stop self w = (w1, Raise e)).
        { now rewrite stop_run, Hr, Hloop. }
        unfold Py.bind at 1. now rewrite Hs.
    + unfold Py.bind at 1. rewrite (Hstop_noop w Hr). now apply Hstop_noop.
Qed.

(** *** Loops of [obj.stop()] calls *)

Lemma for_each_app (A : Type) (body : A -> M unit) (xs ys : list A) :
  forall w w0,
    Py.for_each xs body w = (w0, Return tt) ->
    Py.for_each (xs ++ ys) body w = Py.for_each ys body w0.
Proof.
  induction xs as [|x xs IH]; intros w w0 H; simpl in *.
  - unfold Py.ret in H. now inversion H.
  - unfold Py.bind in *. destruct (body x w) as [w1 [[]|e]].
    + now apply IH.
    + discriminate.
Qed.

Lemma for_each_extends (A : Type) (body : A -> M unit) :
  (forall x w, exists t, extends w t (fst (body x w))) ->
  forall xs w, exists t, extends w t (fst (Py.for_each xs body w)).
Proof.
  intros Hbody xs. induction xs as [|x xs IH]; intros w; simpl.
  - exists []. unfold extends. simpl. now rewrite app_nil_r.
  - unfold Py.bind. destruct (Hbody x w) as [t1 H1].
    destruct (body x w) as [w1 [[]|e]]; simpl in H1.
    + destruct (IH w1) as [t2 H2]. exists (t1 ++ t2).
      eapply extends_trans; eassumption.
    + exists t1. exact H1.
Qed.

Lemma obj_stop_effect c w :
  extends w [CallStop c] (fst (obj_stop c w)) /\
  (forall o, o <> c -> heap (fst (obj_stop c w)) o = heap w o) /\
  (forall e, snd (obj_stop c w) = Raise e ->
             heap (fst (obj_stop c w)) = heap w).
Proof.
  rewrite obj_stop_run. cbv zeta.
  destruct (running (heap w c));
    [destruct (stop_error c (record_event (CallStop c) w))|];
    simpl; repeat split; try reflexivity; try discriminate.
  intros o Ho. unfold upd.
  destruct (Nat.eqb_spec o c); [contradiction | reflexivity].
Qed.

(** A loop of [stop()] calls that returns has called [stop()] on every
    object of the list, in order, and has touched no other object. *)
Lemma stop_children cs : forall w w',
  Py.for_each cs obj_stop w = (w', Return tt) ->
  exists t,
    extends w t w' /\ stopped t = cs /\ started t = [] /\
    (forall o, ~ In o cs -> heap w' o = heap w o).
Proof.
  induction cs as [|c cs IH]; intros w w' H; simpl in H.
  - inversion H; subst. exists []. repeat split.
    unfold extends. now rewrite app_nil_r.
  - unfold Py.bind in H.
    destruct (obj_stop_effect c w) as (Hext & Hframe & _).
    destruct (obj_stop c w) as [w1 [[]|e]]; [|discriminate].
    simpl in Hext, Hframe.
    destruct (IH w1 w' H) as (t & Hext' & Hsp & Hst & Hframe').
    exists ([CallStop c] ++ t). repeat split.
    + eapply extends_trans; eassumption.
    + rewrite stopped_app. simpl. now rewrite Hsp.
    + rewrite started_app. simpl. exact Hst.
    + intros o Hnin. rewrite Hframe'.
      * apply Hframe. intros ->. apply Hnin. now left.
      * intros Hin. apply Hnin. now right.
Qed.

(** C6. For every running [Source] node, [stop()] calls [stop()] on the
    children in order and catches nothing: when the children before [c]
    stop normally and [stop()] of [c] raises [e], then [stop()] of the
    node ends right there by raising [e]; the children after [c] are not
    stopped and the node stays marked running. *)
Theorem stop_failure_propagates :
  forall (w : world) (self : oid) (pre : list oid) (c : oid)
         (post : list oid) (e : exn) (w0 w1 : world),
    running (heap w self) = true ->
    children (heap w self) = pre ++ c :: post ->
    ~ In self pre ->
    Py.for_each pre obj_stop w = (w0, Return tt) ->
    obj_stop c w0 = (w1, Raise e) ->
    stop self w = (w1, Raise e) /\
    stopped (since w w1) = pre ++ [c] /\
    started (since w w1) = [] /\
    running (heap w1 self) = true.
Proof.
  intros w self pre c post e w0 w1 Hr Hcs Hself Hpre Hc.
  assert (Hloop : Py.for_each (children (heap w self)) obj_stop w
                  = (w1, Raise e)).
  { rewrite Hcs, (for_each_app _ _ _ _ _ _ Hpre). simpl.
    unfold Py.bind. now rewrite Hc. }
  destruct (stop_children pre w w0 Hpre) as (t & Hext & Hsp & Hst & Hframe).
  destruct (obj_stop_effect c w0) as (Hext1 & _ & Hheap).
  rewrite Hc in Hext1, Hheap. simpl in Hext1, Hheap.
  assert (Hsince : since w w1 = t ++ [CallStop c]).
  { apply extends_since. eapply extends_trans; eassumption. }
  split; [|split; [|split]].
  - now rewrite stop_run, Hr, Hloop.
  - rewrite Hsince, stopped_app, Hsp. reflexivity.
  - rewrite Hsince, started_app, Hst. reflexivity.
  - rewrite (Hheap e eq_refl), (Hframe self Hself). exact Hr.
Qed.

(** *** The hook run when [children] changes *)

Lemma extends_refl w : extends w [] w.
Proof. unfold extends. now rewrite app_nil_r. Qed.

Lemma extends_same_trace w1 w2 t w' :
  trace w1 = trace w2 -> extends w1 t w' -> extends w2 t w'.
Proof. unfold extends. now intros ->. Qed.

(** Processing one added object returns, stops nothing, and changes
    neither the allocation counter nor an object other than the added
    one. *)
Lemma process_added_eq self obj w :
  Source.process_added start_error self obj w =
    let w1 := set_obj obj (with_scene (scene (heap w self))) w in
    let w2 :=
      if is_module_manager (cls (heap w1 obj))
      then set_obj obj (with_source (Some self)) w1
      else if is_filter (cls (heap w1 obj))
           then set_obj obj (with_inputs (inputs (heap w1 obj) ++ [self])) w1
           else w1 in
    if running (heap w2 self)
    then Py.try_except (obj_start obj) exception w2
    else (w2, Return tt).
Proof.
  unfold Source.process_added, Py.bind, read, write, Py.modify, Py.ret.
  cbv beta zeta iota.
  destruct (is_module_manager
              (cls (heap (set_obj obj (with_scene (scene (heap w self))) w) obj)));
    [|destruct (is_filter
                  (cls (heap (set_obj obj (with_scene (scene (heap w self))) w)
                          obj)))];
    match goal with
    | |- context [if running ?x then _ else _] => destruct (running x)
    end; reflexivity.
Qed.

Lemma process_added_run self obj w :
  exists w' t,
    Source.process_added start_error self obj w = (w', Return tt) /\
    extends w t w' /\ stopped t = [] /\ next w' = next w /\
    (forall o, o <> obj -> heap w' o = heap w o).
Proof.
  rewrite process_added_eq.
  set (w1 := set_obj obj (with_scene (scene (heap w self))) w).
  assert (H1 : trace w1 = trace w /\ next w1 = next w /\
               forall o, o <> obj -> heap w1 o = heap w o).
  { repeat split. intros o Ho. unfold w1. now rewrite heap_set_obj_other. }
  destruct H1 as (Ht1 & Hn1 & Hf1).
  cbv zeta.
  set (w2 := if is_module_manager (cls (heap w1 obj)) then _ else _).
  assert (H2 : trace w2 = trace w /\ next w2 = next w /\
               forall o, o <> obj -> heap w2 o = heap w o).
  { unfold w2.
    destruct (is_module_manager (cls (heap w1 obj)));
      [|destruct (is_filter (cls (heap w1 obj)))];
      repeat split; try assumption;
      intros o Ho; rewrite heap_set_obj_other by assumption; now apply Hf1. }
  destruct H2 as (Ht2 & Hn2 & Hf2). clearbody w2.
  destruct (running (heap w2 self)).
  - destruct (attempt_start obj w2)
      as (w' & t & Hrun & Hext & _ & Hsp & Hnext & Hframe & _).
    exists w', (CallStart obj :: t). repeat split; try assumption.
    + eapply extends_same_trace; eassumption.
    + congruence.
    + intros o Ho. rewrite Hframe by assumption. now apply Hf2.
  - exists w2, []. repeat split; try assumption.
    unfold extends. rewrite Ht2. now rewrite app_nil_r.
Qed.

Lemma process_added_loop self added : forall w,
  exists w' t,
    Py.for_each added (Source.process_added start_error self) w
      = (w', Return tt) /\
    extends w t w' /\ stopped t = [].
Proof.
  induction added as [|obj added IH]; intros w; simpl.
  - exists w, []. repeat split. apply extends_refl.
  - destruct (process_added_run self obj w) as (w1 & t1 & Hrun & Hext & Hsp & _).
    destruct (IH w1) as (w2 & t2 & Hrun2 & Hext2 & Hsp2).
    exists w2, (t1 ++ t2). repeat split.
    + unfold Py.bind. now rewrite Hrun.
    + eapply extends_trans; eassumption.
    + rewrite stopped_app. now rewrite Hsp, Hsp2.
Qed.

Lemma stop_loop_extends cs w :
  exists t, extends w t (fst (Py.for_each cs obj_stop w)).
Proof.
  apply for_each_extends. intros x w0. exists [CallStop x].
  apply obj_stop_effect.
Qed.

(** C7, as amended.  Whether the node is running or not, the hook calls
    [stop()] on a removed child [c] as soon as the removed children before
    it have been stopped: when their [stop()] calls return, the calls of
    [stop()] made by the hook are those on the children before [c], in
    order, then the one on [c], then possibly more. *)
Theorem removed_children_stopped :
  forall (w : world) (self : oid) (pre : list oid) (c : oid)
         (post added : list oid) (w0 : world),
    Py.for_each pre obj_stop w = (w0, Return tt) ->
    exists rest,
      stopped
        (since w (Py.exec (_handle_children self (pre ++ c :: post) added) w))
      = pre ++ c :: rest.
Proof.
  intros w self pre c post added w0 Hpre.
  destruct (stop_children pre w w0 Hpre) as (t0 & Hext0 & Hsp0 & _).
  destruct (obj_stop_effect c w0) as (Hext1 & _).
  assert (Hrest : exists t,
             extends (fst (obj_stop c w0)) t
               (Py.exec (_handle_children self (pre ++ c :: post) added) w)).
  { unfold Py.exec, Source._handle_children, Py.bind at 1.
    rewrite (for_each_app _ _ _ _ _ _ Hpre). simpl Py.for_each.
    unfold Py.bind at 1.
    destruct (obj_stop c w0) as [w1 [[]|e]]; simpl fst.
    - destruct (stop_loop_extends post w1) as [t1 Ht1].
      destruct (Py.for_each post obj_stop w1) as [w2 [[]|e]]; simpl in Ht1.
      + destruct (process_added_loop self added w2) as (w3 & t2 & Hrun & Ht2 & _).
        rewrite Hrun. exists (t1 ++ t2). eapply extends_trans; eassumption.
      + exists t1. exact Ht1.
    - exists []. apply extends_refl. }
  destruct Hrest as [t2 Hext2].
  exists (stopped t2).
  rewrite (extends_since _ (t0 ++ [CallStop c] ++ t2)).
  - rewrite !stopped_app, Hsp0. reflexivity.
  - eapply extends_trans; [eassumption|].
    eapply extends_trans; eassumption.
Qed.

(** Removing a single child in place always returns and calls [stop()]
    on it, and on nothing else. *)
Lemma single_removed_child_stopped w self c cs :
  remove_first c (children (heap w self)) = Some cs ->
  Py.outcome (Source.children_remove start_error stop_error self c) w
  = Return tt /\
  stopped
    (since w (Py.exec (Source.children_remove start_error stop_error self c) w))
  = [c].
Proof.
  intros Hrem.
  set (w1 := set_obj self (with_children cs) w).
  assert (Hrun : Source.children_remove start_error stop_error self c w
                 = match obj_stop c w1 with
                   | (w2, Return _) => (w2, Return tt)
                   | (w2, Raise e) => (record_event (Logged e) w2, Return tt)
                   end).
  { unfold Source.children_remove, Py.bind at 1, read. rewrite Hrem.
    unfold write, notified, Py.try_except, _children_items_changed,
      Source._handle_children.
    cbn [Py.for_each]. unfold Py.bind, Py.modify, Py.ret, emit. fold w1.
    destruct (obj_stop c w1) as [w2 [[]|e]]; reflexivity. }
  destruct (obj_stop_effect c w1) as (Hext & _).
  unfold Py.outcome, Py.exec. rewrite Hrun.
  destruct (obj_stop c w1) as [w2 [[]|e]]; cbn [fst snd] in *.
  - split; [reflexivity|].
    rewrite (extends_since w [CallStop c]); [reflexivity|].
    apply (extends_same_trace w1); [reflexivity | exact Hext].
  - split; [reflexivity|].
    rewrite (extends_since w [CallStop c; Logged e]); [reflexivity|].
    unfold extends in *. cbn [trace record_event]. rewrite Hext.
    unfold w1. cbn [trace set_obj]. now rewrite <- app_assoc.
Qed.

End SourceProperties.

(** *** [add_module] *)

Section AddModule.

Import Source.

Variable start_error : oid -> world -> option exn.
Variable stop_error : oid -> world -> option exn.

Local Abbreviation obj_start := (Source.obj_start start_error).
Local Abbreviation process_added := (Source.process_added start_error).
Local Abbreviation add_module := (Source.add_module start_error stop_error).

Lemma add_module_eq self m w :
  add_module self m w =
    let x := heap w self in
    match last_module_manager (heap w) (children x) with
    | Some mm => mm_children_append mm m w
    | None =>
        let n := next w in
        let w1 :=
          mkWorld
            (upd (heap w) n
               (mkObject KModuleManager false [] (scene x) (Some self) []))
            (S n) (trace w) in
        match (if running x then obj_start n w1 else (w1, Return tt)) with
        | (w2, Return _) =>
            let w3 :=
              set_obj self (with_children (children (heap w2 self) ++ [n])) w2 in
            match process_added self n w3 with
            | (w4, Return _) => mm_children_append n m w4
            | (w4, Raise e) => (w4, Raise e)
            end
        | (w2, Raise e) => (w2, Raise e)
        end
    end.
Proof.
  unfold Source.add_module, children_append, _children_items_changed,
    Source._handle_children, new_ModuleManager, Py.bind, read, write,
    Py.get, Py.modify, Py.ret.
  cbn [Py.for_each]. unfold Py.bind, Py.ret. cbv beta zeta iota.
  destruct (last_module_manager (heap w) (children (heap w self)));
    [reflexivity|].
  destruct (running (heap w self)).
  - destruct (obj_start _ _) as [w2 [[]|e]]; [|reflexivity].
    destruct (process_added _ _ _) as [w4 [[]|e]]; reflexivity.
  - destruct (process_added _ _ _) as [w4 [[]|e]]; reflexivity.
Qed.


Lemma last_module_manager_none (h : oid -> object) (cs : list oid) :
  (forall c, In c cs -> is_module_manager (cls (h c)) = false) ->
  last_module_manager h cs = None.
Proof.
  unfold last_module_manager.
  induction cs as [|c cs IH] using rev_ind; intros H.
  - reflexivity.
  - rewrite fold_left_app. simpl.
    rewrite (H c) by (apply in_or_app; right; now left).
    apply IH. intros c' Hin. apply H, in_or_app. now left.
Qed.

Lemma last_module_manager_last (h : oid -> object) (cs : list oid) (mm : oid) :
  is_module_manager (cls (h mm)) = true ->
  last_module_manager h (cs ++ [mm]) = Some mm.
Proof.
  intros H. unfold last_module_manager. rewrite fold_left_app. simpl.
  now rewrite H.
Qed.

Lemma filter_none (A : Type) (p : A -> bool) (xs : list A) :
  filter p xs = [] <-> (forall x, In x xs -> p x = false).
Proof.
  induction xs as [|x xs IH]; simpl.
  - split; [intros _ x [] | reflexivity].
  - destruct (p x) eqn:Hp.
    + split; [discriminate|]. intros H. rewrite (H x) in Hp; [discriminate|].
      now left.
    + rewrite IH. split.
      * intros H y [<-|Hy]; auto.
      * intros H y Hy. apply H. now right.
Qed.

(** Processing an added module manager that is already started when the
    node runs: only its [scene] and [source] change. *)
Lemma process_added_manager self obj w :
  obj <> self ->
  cls (heap w obj) = KModuleManager ->
  running (heap w obj) = running (heap w self) ->
  exists w',
    process_added self obj w = (w', Return tt) /\
    heap w' obj
    = with_source (Some self) (with_scene (scene (heap w self)) (heap w obj)) /\
    (forall o, o <> obj -> heap w' o = heap w o).
Proof.
  intros Hne Hcls Hrun.
  rewrite process_added_eq.
  set (w1 := set_obj obj (with_scene (scene (heap w self))) w).
  cbv zeta.
  assert (H1 : heap w1 obj = with_scene (scene (heap w self)) (heap w obj))
    by apply heap_set_obj_same.
  rewrite H1. cbn [cls with_scene]. rewrite Hcls. cbn [is_module_manager].
  set (w2 := set_obj obj (with_source (Some self)) w1).
  assert (H2 : heap w2 obj
               = with_source (Some self)
                   (with_scene (scene (heap w self)) (heap w obj))).
  { unfold w2. now rewrite heap_set_obj_same, H1. }
  assert (Hf2 : forall o, o <> obj -> heap w2 o = heap w o).
  { intros o Ho. unfold w2, w1. now rewrite !heap_set_obj_other. }
  rewrite (Hf2 self) by congruence.
  destruct (running (heap w self)) eqn:Hr.
  - unfold Py.try_except. rewrite obj_start_run. cbv zeta.
    rewrite H2. cbn [running with_source with_scene]. rewrite Hrun.
    exists (record_event (CallStart obj) w2). repeat split; assumption.
  - exists w2. repeat split; assumption.
Qed.

Lemma add_module_first self m w w' :
  self < next w ->
  (forall c, In c (children (heap w self)) -> c < next w) ->
  module_managers w self = [] ->
  add_module self m w = (w', Return tt) ->
  managed self (children (heap w self)) (next w) [m] w' /\
  running (heap w' self) = running (heap w self).
Proof.
  intros Hself Hcs Hnone Hrun.
  assert (Hnomm : forall c, In c (children (heap w self)) ->
                            is_module_manager (cls (heap w c)) = false).
  { apply filter_none. exact Hnone. }
  rewrite add_module_eq in Hrun. cbv zeta in Hrun.
  rewrite (last_module_manager_none _ _ Hnomm) in Hrun.
  assert (Hne : next w <> self) by lia.
  set (x := heap w self) in *.
  set (n := next w) in *.
  set (w1 := mkWorld _ _ _) in Hrun.
  assert (H1n : heap w1 n = mkObject KModuleManager false [] (scene x) (Some self) []).
  { unfold w1, upd. simpl. now rewrite Nat.eqb_refl. }
  assert (H1o : forall o, o <> n -> heap w1 o = heap w o).
  { intros o Ho. unfold w1, upd. simpl.
    destruct (Nat.eqb_spec o n); [contradiction | reflexivity]. }
  clearbody w1.
  destruct (if running x then obj_start n w1 else (w1, Return tt))
    as [w2 [[]|e]] eqn:H2; [|discriminate].
  assert (H2n : heap w2 n
                = mkObject KModuleManager (running x) [] (scene x) (Some self) []).
  { destruct (running x).
    - rewrite obj_start_run in H2. cbv zeta in H2. rewrite H1n in H2.
      cbn [running] in H2.
      destruct (start_error _ _); [discriminate|].
      inversion H2; subst w2. rewrite heap_set_obj_same.
      unfold record_event. cbn [heap]. now rewrite H1n.
    - inversion H2; subst w2. exact H1n. }
  assert (H2o : forall o, o <> n -> heap w2 o = heap w o).
  { intros o Ho. rewrite <- (H1o o Ho). destruct (running x).
    - rewrite obj_start_run in H2. cbv zeta in H2. rewrite H1n in H2.
      cbn [running] in H2.
      destruct (start_error _ _); [discriminate|].
      inversion H2; subst w2. now rewrite heap_set_obj_other.
    - now inversion H2. }
  clear H2 H1n H1o.
  rewrite (H2o self) in Hrun by congruence. fold x in Hrun.
  set (w3 := set_obj self _ w2) in Hrun.
  assert (H3s : heap w3 self = with_children (children x ++ [n]) x).
  { unfold w3. rewrite heap_set_obj_same, (H2o self) by congruence. reflexivity. }
  assert (H3n : heap w3 n = heap w2 n).
  { unfold w3. now rewrite heap_set_obj_other. }
  assert (H3o : forall o, o <> n -> o <> self -> heap w3 o = heap w o).
  { intros o Ho Ho'. unfold w3. rewrite heap_set_obj_other by assumption.
    now apply H2o. }
  clearbody w3.
  destruct (process_added_manager self n w3) as (w4 & H4 & H4n & H4o).
  { exact Hne. }
  { now rewrite H3n, H2n. }
  { now rewrite H3n, H2n, H3s. }
  rewrite H4 in Hrun.
  unfold mm_children_append, Py.bind, read, write, Py.modify in Hrun.
  inversion Hrun; subst w'. clear Hrun.
  assert (Hn : heap (set_obj n (with_children (children (heap w4 n) ++ [m])) w4) n
               = mkObject KModuleManager (running x) [m] (scene x) (Some self) []).
  { rewrite heap_set_obj_same, H4n, H3n, H2n, H3s. reflexivity. }
  assert (Hs : heap (set_obj n (with_children (children (heap w4 n) ++ [m])) w4) self
               = with_children (children x ++ [n]) x).
  { rewrite heap_set_obj_other by congruence. rewrite H4o by congruence.
    exact H3s. }
  unfold managed. rewrite Hn, Hs. cbn [cls children running with_children].
  repeat split; try reflexivity; try assumption.
  intros c Hc.
  assert (Hcn : c <> n) by (specialize (Hcs c Hc); unfold n; lia).
  rewrite heap_set_obj_other by assumption. rewrite H4o by assumption.
  destruct (Nat.eq_dec c self) as [->|Hcs'].
  - rewrite H3s. cbn [cls with_children]. now apply Hnomm.
  - rewrite H3o by assumption. now apply Hnomm.
Qed.

Lemma add_module_next self cs0 mm ms m w :
  managed self cs0 mm ms w ->
  exists w',
    add_module self m w = (w', Return tt) /\
    managed self cs0 mm (ms ++ [m]) w' /\
    running (heap w' self) = running (heap w self).
Proof.
  intros (Hne & Hcls & Hcs & Hnomm & Hms & Hrun).
  exists (set_obj mm (with_children (children (heap w mm) ++ [m])) w).
  split; [|split].
  - rewrite add_module_eq. cbv zeta. rewrite Hcs.
    rewrite last_module_manager_last by now rewrite Hcls.
    reflexivity.
  - unfold managed. rewrite heap_set_obj_same.
    rewrite (heap_set_obj_other mm _ w self) by congruence.
    cbn [cls children running with_children].
    repeat split; try assumption.
    + intros c Hc. destruct (Nat.eq_dec c mm) as [->|Hcm].
      * specialize (Hnomm mm Hc). rewrite Hcls in Hnomm. discriminate.
      * rewrite heap_set_obj_other by assumption. now apply Hnomm.
    + now rewrite Hms.
  - now rewrite heap_set_obj_other by congruence.
Qed.

(** Any number of further calls keeps the single manager. *)
Lemma add_modules_next self cs0 mm ms' : forall ms w,
  managed self cs0 mm ms w ->
  exists w',
    Py.for_each ms' (add_module self) w = (w', Return tt) /\
    managed self cs0 mm (ms ++ ms') w' /\
    running (heap w' self) = running (heap w self).
Proof.
  induction ms' as [|m ms' IH]; intros ms w H.
  - exists w. rewrite app_nil_r. split; [reflexivity|]. split; [exact H | reflexivity].
  - destruct (add_module_next self cs0 mm ms m w H) as (w1 & Hrun & H1 & Hr1).
    destruct (IH (ms ++ [m]) w1 H1) as (w2 & Hrun2 & H2 & Hr2).
    exists w2. split; [|split].
    + simpl. unfold Py.bind. now rewrite Hrun.
    + now rewrite <- app_assoc in H2.
    + congruence.
Qed.

Lemma managed_module_managers self cs0 mm ms w :
  managed self cs0 mm ms w -> module_managers w self = [mm].
Proof.
  intros (_ & Hcls & Hcs & Hnomm & _).
  unfold module_managers. rewrite Hcs, filter_app. simpl.
  rewrite Hcls. simpl.
  now rewrite (proj2 (filter_none _ _ cs0) Hnomm).
Qed.

(** C8. On a node without a [ModuleManager] child, [add_module] called
    once for every module of a non-empty list [ms], each call returning,
    leaves the node with exactly one [ModuleManager] child; that manager
    is new, comes last among the children, and its children are the
    modules of [ms] in the order of the calls; it is running exactly when
    the node is.  Taken at the first [k] modules of a longer sequence of
    calls, this describes the state after the [k]-th call. *)
Theorem add_module_single_manager :
  forall (w : world) (self : oid) (ms : list oid) (w' : world),
    self < next w ->
    (forall c, In c (children (heap w self)) -> c < next w) ->
    module_managers w self = [] ->
    ms <> [] ->
    Py.for_each ms (add_module self) w = (w', Return tt) ->
    module_managers w' self = [next w] /\
    children (heap w' self) = children (heap w self) ++ [next w] /\
    children (heap w' (next w)) = ms /\
    running (heap w' (next w)) = running (heap w' self) /\
    running (heap w' self) = running (heap w self).
Proof.
  intros w self ms w' Hself Hcs Hnone Hms Hrun.
  destruct ms as [|m ms]; [contradiction|].
  simpl in Hrun. unfold Py.bind in Hrun.
  destruct (add_module self m w) as [w1 [[]|e]] eqn:H1; [|discriminate].
  destruct (add_module_first self m w w1 Hself Hcs Hnone H1) as (Hm1 & Hr1).
  destruct (add_modules_next self _ _ ms [m] w1 Hm1) as (w2 & H2 & Hm2 & Hr2).
  rewrite H2 in Hrun. inversion Hrun; subst w2.
  pose proof (managed_module_managers _ _ _ _ _ Hm2) as Hmm.
  destruct Hm2 as (_ & _ & Hch & _ & Hmods & Hrunning).
  repeat split; try assumption. congruence.
Qed.

End AddModule.

(** ** Properties of [VTKDataSource] *)

Section VTKProperties.

Import VTKDataSource.

Variable get_all_attributes : DataSet -> table (list string).
Variable fallback_index : list string -> nat.

Local Abbreviation fallback := (VTKDataSource.fallback fallback_index).
Local Abbreviation settled := (VTKDataSource.settled fallback_index).
Local Abbreviation store_candidates :=
  (VTKDataSource.store_candidates fallback_index).
Local Abbreviation setup_attr := (VTKDataSource.setup_attr fallback_index).
Local Abbreviation visit := (VTKDataSource.visit fallback_index).
Local Abbreviation _update_data :=
  (VTKDataSource._update_data get_all_attributes fallback_index).
Local Abbreviation _data_changed :=
  (VTKDataSource._data_changed get_all_attributes fallback_index).
Local Abbreviation assign_data :=
  (VTKDataSource.assign_data get_all_attributes fallback_index).

Lemma py_for_each_app (S A : Type) (body : A -> Py.M S unit) (xs ys : list A) :
  forall s s0,
    Py.for_each xs body s = (s0, Return tt) ->
    Py.for_each (xs ++ ys) body s = Py.for_each ys body s0.
Proof.
  induction xs as [|x xs IH]; intros s s0 H; simpl in *.
  - unfold Py.ret in H. now inversion H.
  - unfold Py.bind in *. destruct (body x s) as [s1 [[]|e]].
    + now apply IH.
    + discriminate.
Qed.

Lemma bind_returns (S A B : Type) (c : Py.M S A) (k : A -> Py.M S B) s s' a :
  c s = (s', Return a) -> Py.bind c k s = k a s'.
Proof. intros H. unfold Py.bind. now rewrite H. Qed.

Lemma bind_modify (S B : Type) (f : S -> S) (k : unit -> Py.M S B) s :
  Py.bind (Py.modify f) k s = k tt (f s).
Proof. reflexivity. Qed.

Lemma bind_get (S B : Type) (k : S -> Py.M S B) s :
  Py.bind Py.get k s = k s s.
Proof. reflexivity. Qed.

Lemma d_type_eqb_eq x y : d_type_eqb x y = true <-> x = y.
Proof. destruct x, y; simpl; split; congruence. Qed.

Lemma attr_eqb_eq x y : attr_eqb x y = true <-> x = y.
Proof. destruct x, y; simpl; split; congruence. Qed.

Lemma tset_same (A : Type) (t : table A) d a v : tset t d a v d a = v.
Proof.
  unfold tset.
  now rewrite (proj2 (d_type_eqb_eq d d) eq_refl), (proj2 (attr_eqb_eq a a) eq_refl).
Qed.

Lemma tset_other (A : Type) (t : table A) d a v d' a' :
  (d', a') <> (d, a) -> tset t d a v d' a' = t d' a'.
Proof.
  intros Hne. unfold tset.
  destruct (d_type_eqb d' d) eqn:Hd; [|reflexivity].
  destruct (attr_eqb a' a) eqn:Ha; [|reflexivity].
  apply d_type_eqb_eq in Hd. apply attr_eqb_eq in Ha. congruence.
Qed.

Lemma touches_other d a d' a' :
  (d', a') <> (d, a) -> d_type_eqb d d' && attr_eqb a a' = false.
Proof.
  intros Hne.
  destruct (d_type_eqb d d') eqn:Hd; [|reflexivity].
  destruct (attr_eqb a a') eqn:Ha; [|reflexivity].
  apply d_type_eqb_eq in Hd. apply attr_eqb_eq in Ha. congruence.
Qed.

Lemma since_app w w' t : trace w' = trace w ++ t -> since w w' = t.
Proof. unfold since. intros ->. apply skipn_length_app. Qed.

Lemma datasets_with_dataset_same ds f w :
  datasets (with_dataset ds f w) ds = f (datasets w ds).
Proof. simpl. now rewrite Nat.eqb_refl. Qed.

Lemma mem_In k ks : mem k ks = true <-> In k ks.
Proof.
  unfold mem. rewrite existsb_exists. split.
  - intros (x & Hin & Heq). apply String.eqb_eq in Heq. now subst.
  - intros Hin. exists k. split; [assumption | apply String.eqb_refl].
Qed.

Lemma fallback_in values : In "" values -> In (fallback values) values.
Proof.
  intros Hin. unfold VTKDataSource.fallback.
  destruct (Nat.lt_ge_cases (fallback_index values) (List.length values))
    as [Hlt|Hge].
  - now apply nth_In.
  - now rewrite nth_overflow.
Qed.

Lemma values_length (found : list string) :
  Nat.ltb 1 (List.length (found ++ [""])) = nonempty found.
Proof.
  destruct found as [|x [|y ys]]; try reflexivity.
Qed.

Lemma empty_length (v : string) :
  Nat.eqb (String.length v) 0 = true <-> v = "".
Proof. destruct v; simpl; split; congruence. Qed.

(** *** The handler of a selector *)

(** C9. Called with [None], [_set_data_name] returns at once and leaves
    the whole state as it was: the active attributes of the dataset, the
    [AssignAttribute] filter and the trace, to which no [data_changed]
    is added.  Called with the empty string it deactivates the attribute
    of the pair on the dataset and fires [data_changed], without a call
    on the filter. *)
Theorem set_data_name_none_returns :
  forall (w : world) (data_type : attr) (attr_type : d_type),
    _set_data_name data_type attr_type None w = (w, Return tt) /\
    since w (Py.exec (_set_data_name data_type attr_type None) w) = [] /\
    (forall ds,
        data w = Some ds ->
        Py.outcome (_set_data_name data_type attr_type (Some "")) w
        = Return tt /\
        active
          (datasets (Py.exec (_set_data_name data_type attr_type (Some "")) w) ds)
          attr_type data_type = None /\
        since w (Py.exec (_set_data_name data_type attr_type (Some "")) w)
        = [SetActive ds attr_type data_type None; DataChanged] /\
        _assign_attribute (Py.exec (_set_data_name data_type attr_type (Some "")) w)
        = _assign_attribute w).
Proof.
  intros w data_type attr_type.
  split; [reflexivity|]. split.
  - unfold Py.exec. simpl. unfold since. apply skipn_all.
  - intros ds Hds.
    unfold Py.outcome, Py.exec, _set_data_name, Py.bind, Py.get.
    rewrite Hds. cbn [String.length Nat.eqb].
    unfold set_active, fire_data_changed, emit, Py.bind, Py.modify.
    cbn [fst snd].
    split; [reflexivity|]. split; [|split].
    + unfold record_event. cbn [datasets].
      rewrite datasets_with_dataset_same. cbn [active with_active].
      apply tset_same.
    + apply since_app. simpl. now rewrite <- app_assoc.
    + reflexivity.
Qed.

(** *** What the steps of the pass keep *)

Lemma kept_refl w : kept w w [].
Proof. unfold kept. rewrite app_nil_r. repeat split. Qed.

Lemma kept_trans w w1 w2 t1 t2 :
  kept w w1 t1 -> kept w1 w2 t2 -> kept w w2 (t1 ++ t2).
Proof.
  intros (Ht & Ho & Hp & Hd & Hf & Hi & Hn & Hin & Hx)
         (Ht' & Ho' & Hp' & Hd' & Hf' & Hi' & Hn' & Hin' & Hx').
  unfold kept.
  split; [|split; [|split; [|split; [|split; [|split; [|split; [|split]]]]]]];
    try congruence.
  - rewrite Ht', Ht. symmetry. apply app_assoc.
  - unfold observer_events in *. rewrite filter_app, Ho, Ho'. reflexivity.
  - unfold native in *. rewrite forallb_app, Hp, Hp'. reflexivity.
  - intros x. destruct (Hx x) as (? & ? & ? & ?).
    destruct (Hx' x) as (? & ? & ? & ?). repeat split; congruence.
Qed.

Lemma untouched_refl d a w : untouched d a w w [].
Proof. unfold untouched. repeat split. Qed.

Lemma untouched_trans d a w w1 w2 t1 t2 :
  untouched d a w w1 t1 -> untouched d a w1 w2 t2 ->
  untouched d a w w2 (t1 ++ t2).
Proof.
  intros (Hs & Hc & Ha & Ht) (Hs' & Hc' & Ha' & Ht').
  unfold untouched. split; [|split; [|split]].
  - now rewrite Hs', Hs.
  - now rewrite Hc', Hc.
  - intros x. now rewrite Ha', Ha.
  - rewrite forallb_app, Ht, Ht'. reflexivity.
Qed.

(** The handler of the selector of a pair, on a source that holds a
    dataset: what it keeps, and what it does to the pair. *)
Lemma handler_run ds d a v w :
  data w = Some ds ->
  exists w',
    _name_changed d a (Some v) w = (w', Return tt) /\
    kept w w' (handler_calls ds d a v) /\
    selector w' = selector w /\ candidates w' = candidates w /\
    (forall d' a', (d', a') <> (d, a) ->
                   untouched d' a' w w' (handler_calls ds d a v)) /\
    (forall x, active (datasets w' x) d a =
               if Nat.eqb x ds
               then (if Nat.eqb (String.length v) 0 then None else Some v)
               else active (datasets w x) d a).
Proof.
  intros Hds.
  unfold _name_changed, _set_data_name, handler_calls, activation,
    Py.bind at 1, Py.get.
  rewrite Hds.
  unfold set_active, aa_assign, aa_update, fire_data_changed, emit,
    Py.bind, Py.modify, kept, untouched.
  destruct (Nat.eqb (String.length v) 0); cbn [fst snd];
    (eexists; split; [reflexivity|];
     cbn [trace data _first _observer_id name datasets candidates selector
            _assign_attribute input record_event with_selector
            with_assign_attribute with_dataset with_candidates];
     split;
     [ split; [rewrite <- ?app_assoc; reflexivity|];
       split; [reflexivity|]; split; [reflexivity|];
       split; [reflexivity|]; split; [reflexivity|]; split; [reflexivity|];
       split; [reflexivity|]; split; [reflexivity|];
       intros x; destruct (Nat.eqb_spec x ds) as [->|]; repeat split
     | split; [reflexivity|]; split; [reflexivity|]; split;
       [ intros d' a' Hne;
         split; [reflexivity|]; split; [reflexivity|]; split;
         [ intros x; destruct (Nat.eqb_spec x ds) as [->|]; [|reflexivity];
           cbn [active with_active]; now rewrite tset_other
         | cbn [forallb app touches]; rewrite (touches_other _ _ _ _ Hne);
           reflexivity ]
       | intros x; destruct (Nat.eqb_spec x ds) as [->|]; [|reflexivity];
         cbn [active with_active]; apply tset_same ] ]).
Qed.

(** Storing the list of a pair. *)
Lemma store_candidates_run ds d a values w :
  data w = Some ds ->
  exists w' t,
    store_candidates d a values w = (w', Return tt) /\
    kept w w' t /\
    candidates w' d a = values /\
    selector w' d a =
      (if mem (selector w d a) values then selector w d a
       else fallback values) /\
    (forall d' a', (d', a') <> (d, a) -> untouched d' a' w w' t) /\
    t = (if mem (selector w d a) values then []
         else handler_calls ds d a (fallback values)) /\
    (mem (selector w d a) values = true ->
     w' = with_candidates (tset (candidates w) d a values) w) /\
    (forall x, active (datasets w' x) d a =
               if mem (selector w d a) values then active (datasets w x) d a
               else if Nat.eqb x ds
                    then (if Nat.eqb (String.length (fallback values)) 0
                          then None else Some (fallback values))
                    else active (datasets w x) d a).
Proof.
  intros Hds.
  unfold VTKDataSource.store_candidates.
  rewrite bind_modify, bind_get.
  set (w0 := with_candidates (tset (candidates w) d a values) w).
  assert (H0 : kept w w0 [] /\ candidates w0 d a = values /\
               selector w0 = selector w /\ datasets w0 = datasets w /\
               (forall d' a', (d', a') <> (d, a) -> untouched d' a' w w0 [])).
  { unfold w0, kept, untouched.
    cbn [trace data _first _observer_id name datasets candidates selector
           _assign_attribute with_candidates].
    split; [rewrite app_nil_r; repeat split|].
    split; [apply tset_same|]. split; [reflexivity|]. split; [reflexivity|].
    intros d' a' Hne. rewrite tset_other by assumption. repeat split. }
  destruct H0 as (K0 & C0 & S0 & X0 & U0).
  rewrite S0.
  destruct (mem (selector w d a) values) eqn:Hmem.
  - exists w0, []. split; [reflexivity|]. split; [exact K0|].
    split; [exact C0|]. split; [now rewrite S0|]. split; [exact U0|].
    split; [reflexivity|]. split; [reflexivity|].
    intros x. now rewrite X0.
  - rewrite bind_modify.
    set (w1 := with_selector (tset (selector w0) d a (fallback values)) w0).
    assert (H1 : kept w0 w1 [] /\ candidates w1 = candidates w0 /\
                 selector w1 d a = fallback values /\
                 datasets w1 = datasets w0 /\
                 (forall d' a', (d', a') <> (d, a) -> untouched d' a' w0 w1 [])).
    { unfold w1, kept, untouched.
      cbn [trace data _first _observer_id name datasets candidates selector
             _assign_attribute with_selector].
      split; [rewrite app_nil_r; repeat split|].
      split; [reflexivity|]. split; [apply tset_same|]. split; [reflexivity|].
      intros d' a' Hne. rewrite tset_other by assumption. repeat split. }
    destruct H1 as (K1 & C1 & S1 & X1 & U1).
    assert (Hds1 : data w1 = Some ds).
    { destruct K0 as (_ & _ & _ & D0 & _). destruct K1 as (_ & _ & _ & D1 & _).
      congruence. }
    destruct (handler_run ds d a (fallback values) w1 Hds1)
      as (w2 & Hrun & K2 & S2 & C2 & U2 & A2).
    exists w2, (handler_calls ds d a (fallback values)).
    split; [exact Hrun|]. split.
    { change (handler_calls ds d a (fallback values))
        with (([] ++ []) ++ handler_calls ds d a (fallback values)).
      eapply kept_trans; [eapply kept_trans; eassumption | exact K2]. }
    split; [now rewrite C2, C1|]. split; [now rewrite S2|]. split.
    { intros d' a' Hne.
      change (handler_calls ds d a (fallback values))
        with (([] ++ []) ++ handler_calls ds d a (fallback values)).
      eapply untouched_trans; [eapply untouched_trans|]; eauto. }
    split; [reflexivity|]. split; [discriminate|].
    intros x. rewrite A2, X1, X0. reflexivity.
Qed.

(** *** One step of the data-refresh pass *)

(** The calls that activate what the selector holds. *)
Lemma activation_run ds d a v w :
  exists w',
    (set_active ds d a (Some v) ;;
     aa_assign v a d ;;
     aa_update ;;
     Py.modify (fun w => with_selector (tset (selector w) d a v) w)) w
    = (w', Return tt) /\
    kept w w' (activation ds d a v) /\
    selector w' d a = v /\ candidates w' = candidates w /\
    (forall d' a', (d', a') <> (d, a) ->
                   untouched d' a' w w' (activation ds d a v)) /\
    (forall x, active (datasets w' x) d a =
               if Nat.eqb x ds then Some v else active (datasets w x) d a).
Proof.
  unfold set_active, aa_assign, aa_update, emit, Py.bind, Py.modify,
    kept, untouched, activation.
  cbn [fst snd]. eexists. split; [reflexivity|].
  cbn [trace data _first _observer_id name datasets candidates selector
         _assign_attribute input record_event with_selector
         with_assign_attribute with_dataset with_candidates].
  split.
  { split; [rewrite <- !app_assoc; reflexivity|].
    split; [reflexivity|]. split; [reflexivity|].
    split; [reflexivity|]. split; [reflexivity|]. split; [reflexivity|].
    split; [reflexivity|]. split; [reflexivity|].
    intros x. destruct (Nat.eqb_spec x ds) as [->|]; repeat split. }
  split; [apply tset_same|]. split; [reflexivity|]. split.
  - intros d' a' Hne. rewrite tset_other by assumption.
    split; [reflexivity|]. split; [reflexivity|]. split.
    + intros x. destruct (Nat.eqb_spec x ds) as [->|]; [|reflexivity].
      cbn [active with_active]. now rewrite tset_other.
    + cbn [forallb app touches]. rewrite (touches_other _ _ _ _ Hne).
      reflexivity.
  - intros x. destruct (Nat.eqb_spec x ds) as [->|]; [|reflexivity].
    cbn [active with_active]. apply tset_same.
Qed.

Lemma setup_attr_run ds found d a w :
  data w = Some ds ->
  exists w' t,
    setup_attr ds found d a w = (w', Return tt) /\
    kept w w' t /\
    candidates w' d a = found a ++ [""] /\
    selector w' d a = settled (_first w) (found a) (selector w d a) /\
    (forall d' a', (d', a') <> (d, a) -> untouched d' a' w w' t) /\
    t = (if mem (selector w d a) (found a ++ [""]) then []
         else handler_calls ds d a (fallback (found a ++ [""])))
        ++ (if nonempty (found a)
            then activation ds d a (selector w' d a) else []) /\
    (found a = [] -> selector w d a = "" ->
     w' = with_candidates (tset (candidates w) d a [""]) w) /\
    (forall x, active (datasets w' x) d a =
               if nonempty (found a)
               then (if Nat.eqb x ds then Some (selector w' d a)
                     else active (datasets w x) d a)
               else if mem (selector w d a) (found a ++ [""])
                    then active (datasets w x) d a
                    else if Nat.eqb x ds
                         then (if Nat.eqb
                                    (String.length (fallback (found a ++ [""]))) 0
                               then None
                               else Some (fallback (found a ++ [""])))
                         else active (datasets w x) d a).
Proof.
  intros Hds.
  destruct (store_candidates_run ds d a (found a ++ [""]) w Hds)
    as (w1 & t1 & Hrun1 & K1 & C1 & S1 & U1 & T1 & E1 & A1).
  unfold VTKDataSource.setup_attr. cbv zeta.
  rewrite (bind_returns _ _ _ _ _ _ _ _ Hrun1), values_length.
  assert (F1 : _first w1 = _first w).
  { destruct K1 as (_ & _ & _ & _ & F & _). exact F. }
  unfold VTKDataSource.settled. cbv zeta. rewrite <- S1.
  destruct (found a) as [|v0 vs] eqn:Hfound; cbn [nonempty andb].
  - exists w1, t1. split; [reflexivity|]. split; [exact K1|].
    split; [exact C1|]. split; [reflexivity|]. split; [exact U1|].
    split; [now rewrite app_nil_r|]. split.
    + intros _ Hsel. apply E1. now rewrite Hsel.
    + exact A1.
  - rewrite bind_get.
    match goal with
    | |- context [set_active ds d a (Some ?v)] => set (default := v)
    end.
    destruct (activation_run ds d a default w1)
      as (w2 & Hrun2 & K2 & S2 & C2 & U2 & A2).
    exists w2, (t1 ++ activation ds d a default).
    split; [exact Hrun2|].
    split; [eapply kept_trans; eassumption|].
    split; [now rewrite C2|].
    split.
    { rewrite S2. unfold default. rewrite F1. reflexivity. }
    split.
    { intros d' a' Hne. eapply untouched_trans; eauto. }
    split; [now rewrite T1, S2|].
    split; [discriminate|].
    intros x. rewrite A2, S2.
    destruct (Nat.eqb x ds) eqn:Hx; [reflexivity|].
    rewrite A1, Hx.
    now destruct (mem (selector w d a) ((v0 :: vs) ++ [""])).
Qed.

(** *** The loop over the pairs *)

Lemma kept_data w w' t ds : kept w w' t -> data w = Some ds -> data w' = Some ds.
Proof. intros (_ & _ & _ & D & _) H. congruence. Qed.

Lemma kept_first w w' t : kept w w' t -> _first w' = _first w.
Proof. now intros (_ & _ & _ & _ & F & _). Qed.

Lemma visit_loop ds found sl : forall w,
  data w = Some ds ->
  exists w' t,
    Py.for_each sl (visit ds found) w = (w', Return tt) /\
    kept w w' t /\
    (forall d a, ~ In (d, a) sl -> untouched d a w w' t) /\
    (_first w = false ->
     forall d a, In (selector w d a) (found d a ++ [""]) ->
                 selector w' d a = selector w d a).
Proof.
  induction sl as [|[d0 a0] sl IH]; intros w Hds.
  - exists w, []. split; [reflexivity|]. split; [apply kept_refl|].
    split; [intros; apply untouched_refl | reflexivity].
  - destruct (setup_attr_run ds (found d0) d0 a0 w Hds)
      as (w1 & t1 & Hrun & Hk & _ & Hsel & Hun & _).
    destruct (IH w1 (kept_data _ _ _ _ Hk Hds))
      as (w2 & t2 & Hrun2 & Hk2 & Hun2 & Hsel2).
    exists w2, (t1 ++ t2). split; [|split; [|split]].
    + simpl. unfold Py.bind, VTKDataSource.visit at 1. simpl fst. simpl snd.
      now rewrite Hrun.
    + eapply kept_trans; eassumption.
    + intros d a Hnin. eapply untouched_trans.
      * apply Hun. intros Heq. apply Hnin. left. congruence.
      * apply Hun2. intros Hin. apply Hnin. now right.
    + intros Hf d a Hin.
      assert (Hf1 : _first w1 = false) by (rewrite (kept_first _ _ _ Hk); exact Hf).
      assert (Hkeep : selector w1 d a = selector w d a).
      { assert (Hdec : {(d, a) = (d0, a0)} + {(d, a) <> (d0, a0)})
          by (repeat decide equality).
        destruct Hdec as [Heq|Hne].
        - inversion Heq; subst. rewrite Hsel, Hf.
          unfold VTKDataSource.settled. cbv zeta.
          rewrite (proj2 (mem_In _ _) Hin), andb_false_r. reflexivity.
        - apply (Hun d a Hne). }
      rewrite (Hsel2 Hf1); [exact Hkeep | now rewrite Hkeep].
Qed.

(** The pass visits the six pairs and then finishes. *)
Lemma update_data_run w ds :
  data w = Some ds ->
  exists w6,
    Py.for_each pairs (visit ds (get_all_attributes (datasets w ds))) w
    = (w6, Return tt) /\
    _update_data w = (finish w6, Return tt).
Proof.
  intros Hds.
  set (found := get_all_attributes (datasets w ds)).
  destruct (visit_loop ds found [(point, scalars); (point, vectors); (point, tensors)] w Hds)
    as (w3 & t3 & Hrun3 & Hk3 & _).
  assert (Hd3 : data w3 = Some ds) by exact (kept_data _ _ _ _ Hk3 Hds).
  destruct (visit_loop ds found [(cell, scalars); (cell, vectors); (cell, tensors)] w3 Hd3)
    as (w6 & t6 & Hrun6 & Hk6 & _).
  exists w6. split.
  - change pairs with ([(point, scalars); (point, vectors); (point, tensors)]
                        ++ [(cell, scalars); (cell, vectors); (cell, tensors)]).
    now rewrite (py_for_each_app _ _ _ _ _ _ _ Hrun3).
  - unfold VTKDataSource._update_data, Py.bind at 1, Py.get. rewrite Hds.
    fold found.
    unfold _setup_data_traits, Py.bind, Py.get. rewrite Hds.
    change (Py.for_each [scalars; vectors; tensors] (setup_attr ds (found point) point) w)
      with (Py.for_each [(point, scalars); (point, vectors); (point, tensors)]
              (visit ds found) w).
    rewrite Hrun3, Hd3.
    change (Py.for_each [scalars; vectors; tensors] (setup_attr ds (found cell) cell) w3)
      with (Py.for_each [(cell, scalars); (cell, vectors); (cell, tensors)]
              (visit ds found) w3).
    rewrite Hrun6.
    unfold finish, fire_data_changed, emit, Py.modify, Py.ret.
    destruct (_first w6); reflexivity.
Qed.

Lemma pairs_split d a :
  exists before after,
    pairs = before ++ (d, a) :: after /\
    ~ In (d, a) before /\ ~ In (d, a) after.
Proof.
  unfold pairs. destruct d, a.
  - exists [], [(point, vectors); (point, tensors);
               (cell, scalars); (cell, vectors); (cell, tensors)].
    simpl. intuition discriminate.
  - exists [(point, scalars)], [(point, tensors);
               (cell, scalars); (cell, vectors); (cell, tensors)].
    simpl. intuition discriminate.
  - exists [(point, scalars); (point, vectors)],
      [(cell, scalars); (cell, vectors); (cell, tensors)].
    simpl. intuition discriminate.
  - exists [(point, scalars); (point, vectors); (point, tensors)],
      [(cell, vectors); (cell, tensors)].
    simpl. intuition discriminate.
  - exists [(point, scalars); (point, vectors); (point, tensors);
            (cell, scalars)], [(cell, tensors)].
    simpl. intuition discriminate.
  - exists [(point, scalars); (point, vectors); (point, tensors);
            (cell, scalars); (cell, vectors)], [].
    simpl. intuition discriminate.
Qed.

Lemma pairs_nodup : NoDup pairs.
Proof.
  unfold pairs.
  repeat (constructor; [simpl; intuition discriminate|]). constructor.
Qed.

(** The loop as seen from one pair: the steps before it, its own step,
    the steps after it. *)
Lemma visit_at ds found d a w :
  data w = Some ds ->
  exists w1 t1 w2 w3 t3,
    kept w w1 t1 /\ untouched d a w w1 t1 /\
    data w1 = Some ds /\
    setup_attr ds (found d) d a w1 = (w2, Return tt) /\
    kept w2 w3 t3 /\ untouched d a w2 w3 t3 /\
    Py.for_each pairs (visit ds found) w = (w3, Return tt).
Proof.
  intros Hds.
  destruct (pairs_split d a) as (before & after & Heq & Hb & Ha).
  destruct (visit_loop ds found before w Hds)
    as (w1 & t1 & Hrun1 & Hk1 & Hun1 & _).
  assert (Hd1 : data w1 = Some ds) by exact (kept_data _ _ _ _ Hk1 Hds).
  destruct (setup_attr_run ds (found d) d a w1 Hd1)
    as (w2 & t2 & Hrun2 & Hk2 & _).
  destruct (visit_loop ds found after w2 (kept_data _ _ _ _ Hk2 Hd1))
    as (w3 & t3 & Hrun3 & Hk3 & Hun3 & _).
  exists w1, t1, w2, w3, t3.
  repeat (split; [solve [auto]|]).
  rewrite Heq, (py_for_each_app _ _ _ _ _ _ _ Hrun1). simpl.
  unfold Py.bind, VTKDataSource.visit at 1. simpl fst. simpl snd.
  now rewrite Hrun2.
Qed.

Lemma flat_map_ext_in (A B : Type) (f g : A -> list B) (l : list A) :
  (forall x, In x l -> f x = g x) -> flat_map f l = flat_map g l.
Proof.
  induction l as [|x l IH]; intros H; [reflexivity|].
  cbn [flat_map]. rewrite (H x (or_introl eq_refl)), IH; [reflexivity|].
  intros y Hy. apply H. now right.
Qed.

(** The calls of a loop over pairs that are all different. *)
Lemma visit_trace ds found sl :
  NoDup sl ->
  forall w w',
    data w = Some ds ->
    Py.for_each sl (visit ds found) w = (w', Return tt) ->
    trace w' =
      trace w ++
      flat_map
        (fun p =>
           (if mem (selector w (fst p) (snd p)) (found (fst p) (snd p) ++ [""])
            then []
            else handler_calls ds (fst p) (snd p)
                   (fallback (found (fst p) (snd p) ++ [""])))
           ++ (if nonempty (found (fst p) (snd p))
               then activation ds (fst p) (snd p) (selector w' (fst p) (snd p))
               else []))
        sl.
Proof.
  induction 1 as [|[d0 a0] sl Hnin Hnd IH]; intros w w' Hds Hrun.
  - inversion Hrun. simpl. now rewrite app_nil_r.
  - destruct (setup_attr_run ds (found d0) d0 a0 w Hds)
      as (w1 & t1 & Hrun1 & K1 & _ & _ & U1 & T1 & _).
    assert (Hd1 : data w1 = Some ds) by exact (kept_data _ _ _ _ K1 Hds).
    assert (Hrest : Py.for_each sl (visit ds found) w1 = (w', Return tt)).
    { rewrite <- Hrun. simpl.
      unfold Py.bind, VTKDataSource.visit at 2. simpl fst. simpl snd.
      now rewrite Hrun1. }
    destruct (visit_loop ds found sl w1 Hd1) as (w2 & t2 & Hrun2 & _ & Hun & _).
    rewrite Hrest in Hrun2. inversion Hrun2; subst w2. clear Hrun2.
    destruct (Hun d0 a0 Hnin) as (Hsel & _).
    destruct K1 as (Ht1 & _).
    rewrite (IH w1 w' Hd1 Hrest), Ht1, T1. cbn [flat_map fst snd].
    rewrite Hsel, <- !app_assoc. do 3 f_equal.
    apply flat_map_ext_in. intros [d a] Hin. cbn [fst snd].
    assert (Hne : (d, a) <> (d0, a0)) by (intros E; apply Hnin; now rewrite <- E).
    destruct (U1 d a Hne) as (E & _). now rewrite E.
Qed.

(** The whole pass, for a source that holds a dataset. *)
Lemma pass_at w ds :
  data w = Some ds ->
  exists w',
    _update_data w = (w', Return tt) /\
    _first w' = false /\ data w' = data w /\
    _observer_id w' = _observer_id w /\ name w' = name w /\
    input (_assign_attribute w') = input (_assign_attribute w) /\
    (forall x, observers (datasets w' x) = observers (datasets w x) /\
               next_tag (datasets w' x) = next_tag (datasets w x) /\
               class_name (datasets w' x) = class_name (datasets w x) /\
               arrays (datasets w' x) = arrays (datasets w x)) /\
    trace w' =
      trace w
      ++ pass_calls fallback_index ds (get_all_attributes (datasets w ds))
           (selector w) (selector w')
      ++ [DataChanged] /\
    observer_events (since w w') = [] /\ native (since w w') = true /\
    forall d a,
      candidates w' d a = get_all_attributes (datasets w ds) d a ++ [""] /\
      selector w' d a =
        settled (_first w) (get_all_attributes (datasets w ds) d a)
          (selector w d a) /\
      (nonempty (get_all_attributes (datasets w ds) d a) = true ->
       active (datasets w' ds) d a = Some (selector w' d a)) /\
      (get_all_attributes (datasets w ds) d a = [] ->
       selector w d a = "" ->
       (forall x, active (datasets w' x) d a = active (datasets w x) d a) /\
       forallb (fun ev => negb (touches d a ev)) (since w w') = true) /\
      (get_all_attributes (datasets w ds) d a = [] ->
       selector w d a <> "" ->
       active (datasets w' ds) d a = None /\
       In (SetActive ds d a None) (since w w')).
Proof.
  intros Hds.
  set (found := get_all_attributes (datasets w ds)).
  destruct (update_data_run w ds Hds) as (w6 & Hloop & Hrun).
  fold found in Hloop.
  exists (finish w6). split; [exact Hrun|].
  destruct (visit_loop ds found pairs w Hds) as (w6' & t & Hloop' & Hk & _).
  rewrite Hloop in Hloop'. inversion Hloop'; subst w6'. clear Hloop'.
  destruct Hk as (Ht & Ho & Hp & Hd & _ & Hi & Hn & Hin & Hx).
  assert (Hfin : trace (finish w6) = trace w6 ++ [DataChanged] /\
                 data (finish w6) = data w6 /\
                 _observer_id (finish w6) = _observer_id w6 /\
                 name (finish w6) = name w6 /\
                 datasets (finish w6) = datasets w6 /\
                 selector (finish w6) = selector w6 /\
                 candidates (finish w6) = candidates w6 /\
                 _assign_attribute (finish w6) = _assign_attribute w6).
  { unfold finish. destruct (_first w6); repeat split. }
  destruct Hfin as (Ft & Fd & Fi & Fn & Fx & Fs & Fc & Fo).
  split; [unfold finish; now destruct (_first w6) eqn:E|].
  assert (Htrace : trace (finish w6) = trace w ++ t ++ [DataChanged]).
  { rewrite Ft, Ht. now rewrite <- app_assoc. }
  rewrite (since_app _ _ _ Htrace).
  rewrite Fd, Fi, Fn, Fx, Fs, Fc, Fo.
  split; [exact Hd|]. split; [exact Hi|]. split; [exact Hn|].
  split; [exact Hin|]. split; [exact Hx|].
  split.
  { rewrite Ft, (visit_trace _ _ _ pairs_nodup _ _ Hds Hloop).
    unfold pass_calls. now rewrite <- app_assoc. }
  split.
  { unfold observer_events in *. rewrite filter_app, Ho. reflexivity. }
  split.
  { unfold native in *. rewrite forallb_app, Hp. reflexivity. }
  intros d a.
  destruct (visit_at ds found d a w Hds)
    as (w1 & t1 & w2 & w3 & t3 & Hk1 & Hu1 & Hd1 & Hrun2 & Hk3 & Hu3 & Hloop').
  rewrite Hloop in Hloop'. inversion Hloop'; subst w3. clear Hloop'.
  destruct (setup_attr_run ds (found d) d a w1 Hd1)
    as (w2' & t2 & Hrun2' & Hk2 & Hc2 & Hs2 & _ & Ht2 & Hnil & Ha2).
  rewrite Hrun2 in Hrun2'. inversion Hrun2'; subst w2'. clear Hrun2'.
  destruct Hu1 as (Hsel1 & _ & Hact1 & Htr1).
  destruct Hu3 as (Hsel3 & Hcand3 & Hact3 & Htr3).
  rewrite (kept_first _ _ _ Hk1), Hsel1 in Hs2.
  assert (Hall : t = t1 ++ t2 ++ t3).
  { destruct Hk1 as (E1 & _). destruct Hk2 as (E2 & _).
    destruct Hk3 as (E3 & _).
    apply (app_inv_head (trace w)). rewrite <- Ht, E3, E2, E1.
    now rewrite <- !app_assoc. }
  split; [now rewrite Hcand3|]. split; [now rewrite Hsel3|].
  split; [|split].
  - intros Hne. rewrite Hact3, Ha2, Hne, Nat.eqb_refl, Hsel3. reflexivity.
  - intros Hnil' Hempty.
    assert (Hw2 : w2 = with_candidates (tset (candidates w1) d a [""]) w1).
    { apply Hnil; [exact Hnil' | now rewrite Hsel1]. }
    split.
    + intros x. rewrite Hact3, Hw2. cbn [datasets with_candidates].
      apply Hact1.
    + assert (Ht2' : t2 = []).
      { rewrite Ht2, Hsel1, Hnil', Hempty. reflexivity. }
      rewrite Hall, Ht2', !forallb_app, Htr1, Htr3. reflexivity.
  - intros Hnil' Hstale.
    assert (Hmem : mem (selector w d a) ([] ++ [""]) = false).
    { cbn [app mem existsb]. rewrite orb_false_r.
      apply String.eqb_neq. exact Hstale. }
    assert (Hfb : fallback ([] ++ [""]) = "").
    { unfold VTKDataSource.fallback. cbn [app].
      destruct (fallback_index [""]) as [|[|n]]; reflexivity. }
    split.
    + rewrite Hact3, Ha2, Hsel1, Hnil', Hmem, Hfb, Nat.eqb_refl. reflexivity.
    + rewrite Hall, Ht2, Hsel1, Hnil', Hmem, Hfb.
      apply in_or_app. left. apply in_or_app. right.
      apply in_or_app. left. apply in_or_app. left. now left.
Qed.

(** C2. In the data-refresh pass, for every pair: on a first pass, a
    selector that is empty while names are found for the pair is set to
    the first of them; a first pass ends the being first; on any later
    pass a selector whose value is still among the candidates, the empty
    name included, keeps it, so it is not overwritten by the first
    candidate; and a selector that holds a name that is still found keeps
    it on every pass.  Without a dataset the pass changes nothing. *)
Theorem selector_defaulting :
  forall (w : world) (d : d_type) (a : attr),
    Py.outcome _update_data w = Return tt /\
    (forall ds x xs,
        data w = Some ds -> _first w = true -> selector w d a = "" ->
        get_all_attributes (datasets w ds) d a = x :: xs ->
        selector (Py.exec _update_data w) d a = x) /\
    (forall ds, data w = Some ds -> _first (Py.exec _update_data w) = false) /\
    (forall ds,
        data w = Some ds -> _first w = false ->
        In (selector w d a) (get_all_attributes (datasets w ds) d a ++ [""]) ->
        selector (Py.exec _update_data w) d a = selector w d a) /\
    (forall ds,
        data w = Some ds -> selector w d a <> "" ->
        In (selector w d a) (get_all_attributes (datasets w ds) d a) ->
        selector (Py.exec _update_data w) d a = selector w d a) /\
    (data w = None -> Py.exec _update_data w = w).
Proof.
  intros w d a.
  destruct (data w) as [ds|] eqn:Hds.
  - destruct (pass_at w ds Hds)
      as (w' & Hrun & Hf & _ & _ & _ & _ & _ & _ & _ & _ & Hp).
    destruct (Hp d a) as (_ & Hsel & _).
    unfold Py.outcome, Py.exec. rewrite Hrun. cbn [fst snd].
    rewrite Hsel. unfold VTKDataSource.settled. cbv zeta.
    split; [reflexivity|].
    split; [|split; [|split; [|split]]].
    + intros ds' x xs Heq Hfirst Hempty Hfound. inversion Heq; subst ds'.
      rewrite Hfound, Hfirst, Hempty.
      assert (Hmem : mem "" ((x :: xs) ++ [""]) = true).
      { apply mem_In. apply in_or_app. right. now left. }
      rewrite Hmem. reflexivity.
    + intros ds' _. exact Hf.
    + intros ds' Heq Hfirst Hin. inversion Heq; subst ds'.
      rewrite (proj2 (mem_In _ _) Hin), Hfirst, andb_false_r. reflexivity.
    + intros ds' Heq Hne Hin. inversion Heq; subst ds'.
      assert (Hmem : mem (selector w d a)
                       (get_all_attributes (datasets w ds) d a ++ [""]) = true).
      { apply mem_In. apply in_or_app. now left. }
      assert (Hlen : Nat.eqb (String.length (selector w d a)) 0 = false).
      { destruct (selector w d a); [contradiction|reflexivity]. }
      rewrite Hmem, Hlen, andb_false_r. reflexivity.
    + discriminate.
  - unfold Py.outcome, Py.exec.
    assert (Hrun : _update_data w = (w, Return tt)).
    { unfold VTKDataSource._update_data, Py.bind, Py.get. now rewrite Hds. }
    rewrite Hrun. cbn [fst snd].
    repeat split; try reflexivity; intros; discriminate.
Qed.

(** C10, as amended.  When no name is found for a pair: the pass stores
    the candidate list that holds only the empty name.  If the selector
    of the pair is empty, the step for the pair does nothing else, and
    the whole pass leaves the selector and the active attribute of the
    pair as they were and makes no call of [set_active] or [assign] for
    the pair.  If the selector holds a name, it falls back to the empty
    name and its handler deactivates the attribute of the pair. *)
Theorem no_candidates_untouched :
  forall (w : world) (ds : ds_id) (d : d_type) (a : attr),
    data w = Some ds ->
    get_all_attributes (datasets w ds) d a = [] ->
    candidates (Py.exec _update_data w) d a = [""] /\
    (selector w d a = "" ->
     (forall w0,
         selector w0 d a = "" ->
         setup_attr ds (get_all_attributes (datasets w ds) d) d a w0
         = (with_candidates (tset (candidates w0) d a [""]) w0, Return tt)) /\
     selector (Py.exec _update_data w) d a = selector w d a /\
     active (datasets (Py.exec _update_data w) ds) d a
     = active (datasets w ds) d a /\
     forallb (fun ev => negb (touches d a ev))
       (since w (Py.exec _update_data w)) = true) /\
    (selector w d a <> "" ->
     selector (Py.exec _update_data w) d a = "" /\
     active (datasets (Py.exec _update_data w) ds) d a = None /\
     In (SetActive ds d a None) (since w (Py.exec _update_data w))).
Proof.
  intros w ds d a Hds Harr.
  destruct (pass_at w ds Hds)
    as (w' & Hrun & _ & _ & _ & _ & _ & _ & _ & _ & _ & Hp).
  destruct (Hp d a) as (Hc & Hsel & _ & Hkeep & Hstale).
  unfold Py.exec. rewrite Hrun. cbn [fst].
  split; [now rewrite Hc, Harr|]. split.
  - intros Hempty. split; [|split; [|split]].
    + intros w0 Hempty0.
      unfold VTKDataSource.setup_attr, VTKDataSource.store_candidates,
        Py.bind, Py.modify, Py.get, Py.ret.
      rewrite Harr. cbn [app List.length Nat.ltb Nat.leb fst snd
                           selector with_candidates].
      rewrite Hempty0. reflexivity.
    + rewrite Hsel, Harr, Hempty. reflexivity.
    + apply (Hkeep Harr Hempty).
    + apply (Hkeep Harr Hempty).
  - intros Hne. split; [|apply (Hstale Harr Hne)].
    rewrite Hsel, Harr. unfold VTKDataSource.settled. cbv zeta.
    cbn [app nonempty andb mem existsb]. rewrite orb_false_r.
    rewrite (proj2 (String.eqb_neq _ _) Hne).
    unfold VTKDataSource.fallback.
    destruct (fallback_index [""]) as [|[|n]]; reflexivity.
Qed.

(** *** Replacing the dataset *)

Lemma data_changes_app t1 t2 :
  data_changes (t1 ++ t2) = data_changes t1 + data_changes t2.
Proof. unfold data_changes. now rewrite filter_app, length_app. Qed.

(** The hook of a replacement. *)
Lemma data_changed_run old new w :
  data w = Some new ->
  exists w' t,
    _data_changed old new w = (w', Return tt) /\
    observer_events t = [] /\ native t = true /\
    t = pass_calls fallback_index new (get_all_attributes (datasets w new))
          (selector w) (selector w')
        ++ [DataChanged; DataChanged] /\
    trace w' =
      trace w ++ t
      ++ match old with
         | Some o => [RemoveObserver o (_observer_id w)]
         | None => []
         end
      ++ [AddObserver new "ModifiedEvent" (_observer_id w');
          Connect new "ModifiedEvent"] /\
    data w' = Some new /\
    input (_assign_attribute w') = Some new /\
    outputs w' = [AssignAttributeOutput] /\
    _first w' = false /\
    name w' =
      match String.index 0 "[Hidden]" (name w) with
      | Some _ =>
          (("VTK Data (" ++ class_name (datasets w new) ++ ")") ++ " [Hidden]")%string
      | None => ("VTK Data (" ++ class_name (datasets w new) ++ ")")%string
      end /\
    (forall d a,
        candidates w' d a = get_all_attributes (datasets w new) d a ++ [""]) /\
    forall x,
      observers (datasets w' x) =
        (let removed :=
           match old with
           | Some o =>
               if Nat.eqb x o
               then filter (fun ob => negb (Z.eqb (fst ob) (_observer_id w)))
                      (observers (datasets w x))
               else observers (datasets w x)
           | None => observers (datasets w x)
           end in
         if Nat.eqb x new
         then removed ++ [(_observer_id w', "ModifiedEvent")]
         else removed).
Proof.
  intros Hds.
  unfold VTKDataSource._data_changed.
  rewrite bind_modify.
  set (w0 := with_assign_attribute _ w).
  destruct (pass_at w0 new)
    as (w1 & Hrun & Hf & Hd & Hi & Hn & Hin & Hx & Ht & Ho & Hp & Hq).
  { exact Hds. }
  rewrite (bind_returns _ _ _ _ _ _ _ _ Hrun).
  rewrite bind_modify.
  unfold fire_data_changed, emit. rewrite bind_modify.
  set (w2 := record_event DataChanged _).
  set (t2 := pass_calls fallback_index new (get_all_attributes (datasets w new))
               (selector w) (selector w1)
             ++ [DataChanged; DataChanged]).
  assert (H2 : trace w2 = trace w ++ t2 /\
               data w2 = Some new /\
               _observer_id w2 = _observer_id w /\
               name w2 = name w /\
               input (_assign_attribute w2) = Some new /\
               outputs w2 = [AssignAttributeOutput] /\
               _first w2 = false /\
               selector w2 = selector w1 /\
               (forall d a, candidates w2 d a
                            = get_all_attributes (datasets w new) d a ++ [""]) /\
               forall x, observers (datasets w2 x) = observers (datasets w x) /\
                         next_tag (datasets w2 x) = next_tag (datasets w x) /\
                         class_name (datasets w2 x) = class_name (datasets w x)).
  { unfold w2, t2.
    cbn [trace data name _assign_attribute outputs _first candidates datasets
           selector _observer_id record_event with_outputs].
    rewrite Ht, Hd, Hn, Hin, Hf, Hi. unfold w0.
    cbn [trace data name _assign_attribute datasets selector _observer_id
           with_assign_attribute input].
    split; [rewrite <- !app_assoc; reflexivity|]. split; [assumption|].
    split; [reflexivity|].
    split; [reflexivity|]. split; [reflexivity|]. split; [reflexivity|].
    split; [reflexivity|]. split; [reflexivity|]. split.
    - intros d a. destruct (Hq d a) as (Hc & _). exact Hc.
    - intros x. destruct (Hx x) as (E1 & E2 & E3 & _). now repeat split. }
  destruct H2 as (T2 & D2 & I2 & N2 & In2 & O2 & F2 & S2 & C2 & X2).
  assert (Ho2 : observer_events t2 = [] /\ native t2 = true).
  { rewrite (since_app _ _ _ Ht) in Ho, Hp.
    unfold t2. unfold observer_events, native in *.
    rewrite !filter_app, !forallb_app in *.
    apply app_eq_nil in Ho. destruct Ho as [Ho _].
    apply andb_prop in Hp. destruct Hp as [Hp _].
    unfold w0 in Ho, Hp. cbn [datasets selector with_assign_attribute] in Ho, Hp.
    rewrite Ho, Hp. split; reflexivity. }
  clearbody w2. clear w0 Hrun Ht Hd Hn Hin Hf Hi Hx Ho Hp Hq.
  unfold remove_observer, add_observer, _get_name, emit,
    Py.bind, Py.modify, Py.get, Py.ret.
  destruct old as [o|]; cbv beta iota zeta;
    cbn [trace data name _assign_attribute outputs _first candidates datasets
           selector _observer_id record_event with_name with_observer_id
           with_dataset];
    rewrite D2, N2;
    cbn [datasets with_dataset]; rewrite ?Nat.eqb_refl.
  - destruct (String.index 0 "[Hidden]" (name w));
      (eexists; exists t2; split; [reflexivity|];
       cbn [trace data name _assign_attribute outputs _first candidates datasets
              selector _observer_id record_event with_name with_observer_id
              with_dataset];
       split; [exact (proj1 Ho2)|]; split; [exact (proj2 Ho2)|];
       split; [unfold t2; rewrite S2; reflexivity|];
       split; [rewrite T2, I2, <- !app_assoc; reflexivity|];
       split; [exact D2|];
       split; [exact In2|]; split; [exact O2|]; split; [exact F2|];
       split;
       [destruct (Nat.eqb_spec new o) as [Heq|_]; [try subst o|];
        cbn [class_name with_observers];
        rewrite (proj2 (proj2 (X2 new))); reflexivity|];
       split; [exact C2|];
       intros x;
       destruct (Nat.eqb_spec x new) as [->|Hxn];
       [destruct (Nat.eqb_spec new o) as [->|Hno];
        cbn [observers next_tag with_observers];
        rewrite ?(proj1 (X2 _)), ?(proj1 (proj2 (X2 _))), ?I2; reflexivity
       |destruct (Nat.eqb_spec x o) as [->|Hxo];
        cbn [observers with_observers];
        rewrite ?(proj1 (X2 _)), ?I2; reflexivity]).
  - destruct (String.index 0 "[Hidden]" (name w));
      (eexists; exists t2; split; [reflexivity|];
       cbn [trace data name _assign_attribute outputs _first candidates datasets
              selector _observer_id record_event with_name with_observer_id
              with_dataset];
       split; [exact (proj1 Ho2)|]; split; [exact (proj2 Ho2)|];
       split; [unfold t2; rewrite S2; reflexivity|];
       split; [rewrite T2, <- !app_assoc; reflexivity|];
       split; [exact D2|];
       split; [exact In2|]; split; [exact O2|]; split; [exact F2|];
       split;
       [cbn [class_name with_observers];
        rewrite (proj2 (proj2 (X2 new))); reflexivity|];
       split; [exact C2|];
       intros x;
       destruct (Nat.eqb_spec x new) as [->|Hxn];
       cbn [observers next_tag with_observers];
       rewrite ?(proj1 (X2 _)), ?(proj1 (proj2 (X2 _))); reflexivity).
Qed.

Lemma assign_data_eq new w :
  assign_data new w =
    match data w with
    | Some old =>
        if Nat.eqb old new then (w, Return tt)
        else _data_changed (Some old) new (with_data (Some new) w)
    | None => _data_changed None new (with_data (Some new) w)
    end.
Proof.
  unfold VTKDataSource.assign_data, Py.bind at 1, Py.get.
  destruct (data w) as [old|]; [destruct (Nat.eqb old new)|]; reflexivity.
Qed.

(** *** The subscription *)

Lemma subscriptions_app t t' :
  subscriptions (t ++ t') = fold_left subscription_step t' (subscriptions t).
Proof. unfold subscriptions. apply fold_left_app. Qed.

Lemma subscriptions_quiet t : forall live,
  observer_events t = [] -> fold_left subscription_step t live = live.
Proof.
  induction t as [|ev t IH]; intros live H; [reflexivity|].
  cbn [fold_left]. unfold observer_events in *. cbn [filter] in H.
  destruct ev; try discriminate H; cbn [subscription_step]; now apply IH.
Qed.

(** An assignment to [data] keeps the invariant of the subscription. *)
Lemma assign_data_subscribed new w :
  subscribed w ->
  exists w',
    assign_data new w = (w', Return tt) /\
    data w' = Some new /\ subscribed w' /\
    (data w <> Some new ->
     observer_events (since w w')
     = match data w with
       | Some old => [RemoveObserver old (_observer_id w)]
       | None => []
       end
       ++ [AddObserver new "ModifiedEvent" (_observer_id w')]) /\
    (forall x o, In o (observers (datasets w x)) ->
                 fst o <> _observer_id w ->
                 In o (observers (datasets w' x))).
Proof.
  intros Hsub. rewrite assign_data_eq.
  assert (Hstep : forall old : option ds_id,
             data w = old -> old <> Some new ->
             exists w',
               _data_changed old new (with_data (Some new) w) = (w', Return tt) /\
               data w' = Some new /\ subscribed w' /\
               observer_events (since w w')
               = match old with
                 | Some old => [RemoveObserver old (_observer_id w)]
                 | None => []
                 end
                 ++ [AddObserver new "ModifiedEvent" (_observer_id w')] /\
               (forall x o, In o (observers (datasets w x)) ->
                            fst o <> _observer_id w ->
                            In o (observers (datasets w' x)))).
  { intros old Hold Hne.
    destruct (data_changed_run old new (with_data (Some new) w) eq_refl)
      as (w' & t & Hrun & Ho & _ & _ & Ht & Hd' & _ & _ & _ & _ & _ & Hx).
    cbn [trace _observer_id datasets with_data] in Ht, Hx.
    exists w'. split; [exact Hrun|]. split; [exact Hd'|].
    split; [|split].
    - unfold subscribed in *. rewrite Hd', Ht, Hold in *. split.
      + rewrite subscriptions_app, !fold_left_app,
          (subscriptions_quiet t _ Ho).
        destruct old as [o|].
        * destruct Hsub as [Hsub _]. rewrite Hsub.
          cbn [fold_left subscription_step filter fst snd app].
          now rewrite Nat.eqb_refl, Z.eqb_refl.
        * now rewrite Hsub.
      + rewrite Hx, Nat.eqb_refl. cbv zeta. apply in_or_app. right. now left.
    - rewrite (since_app _ _ _ Ht).
      unfold observer_events in *. rewrite !filter_app, Ho.
      now destruct old.
    - intros x o Hin Htag. rewrite Hx. cbv zeta.
      assert (Hrem : In o
                (match old with
                 | Some o0 =>
                     if Nat.eqb x o0
                     then filter (fun ob => negb (Z.eqb (fst ob) (_observer_id w)))
                            (observers (datasets w x))
                     else observers (datasets w x)
                 | None => observers (datasets w x)
                 end)).
      { destruct old as [o0|]; [|exact Hin].
        destruct (Nat.eqb x o0); [|exact Hin].
        apply filter_In. split; [exact Hin|].
        apply negb_true_iff. now apply Z.eqb_neq. }
      destruct (Nat.eqb x new); [apply in_or_app; now left | exact Hrem]. }
  destruct (data w) as [old|] eqn:Hd.
  - destruct (Nat.eqb_spec old new) as [->|Hne].
    + exists w. split; [reflexivity|]. split; [exact Hd|].
      split; [exact Hsub|]. split; [intros H; now contradiction H|].
      intros x o Hin _. exact Hin.
    + destruct (Hstep (Some old) eq_refl) as (w' & E & D & S & O & F).
      { congruence. }
      exists w'. repeat (split; [assumption|]).
      split; [intros _; exact O | exact F].
  - destruct (Hstep None eq_refl) as (w' & E & D & S & O & F).
    { discriminate. }
    exists w'. repeat (split; [assumption|]).
    split; [intros _; exact O | exact F].
Qed.

(** *** Restoring a persisted source *)

Variable gunzip_string : string -> string.
Variable read_dataset : string -> ds_id.

Local Abbreviation __set_pure_state__ :=
  (VTKDataSource.__set_pure_state__ get_all_attributes fallback_index
     gunzip_string read_dataset).

Lemma assign_data_native new w :
  exists w' t,
    assign_data new w = (w', Return tt) /\
    trace w' = trace w ++ t /\ native t = true /\
    data w' = Some new.
Proof.
  rewrite assign_data_eq.
  assert (Hrun : forall old, exists w' t,
             _data_changed old new (with_data (Some new) w) = (w', Return tt) /\
             trace w' = trace w ++ t /\ native t = true /\
             data w' = Some new).
  { intros old.
    destruct (data_changed_run old new (with_data (Some new) w) eq_refl)
      as (w' & t & Hrun & _ & Hp & _ & Ht & Hd & _).
    eexists. eexists. split; [exact Hrun|]. split; [exact Ht|].
    split; [|exact Hd].
    unfold native in *. rewrite !forallb_app, Hp. now destruct old. }
  destruct (data w) as [old|] eqn:Hd;
    [destruct (Nat.eqb_spec old new) as [->|]|]; auto.
  exists w, []. rewrite app_nil_r. repeat split. exact Hd.
Qed.

Lemma field_get_in k fs v : field_get k fs = Some v -> In (k, v) fs.
Proof.
  induction fs as [|[k' v'] fs IH]; cbn [field_get]; [discriminate|].
  destruct (String.eqb_spec k' k) as [->|_].
  - intros H. inversion H. now left.
  - intros H. right. now apply IH.
Qed.

Lemma typed_field k fs v :
  forallb typed fs = true -> field_get k (rev fs) = Some v ->
  typed (k, v) = true.
Proof.
  intros Hty Hget. rewrite forallb_forall in Hty. apply Hty.
  apply in_rev. now apply field_get_in.
Qed.

Lemma field_get_app k fs kv :
  field_get k (fs ++ [kv]) =
    match field_get k fs with
    | Some v => Some v
    | None => if String.eqb (fst kv) k then Some (snd kv) else None
    end.
Proof.
  induction fs as [|[k' v] fs IH]; cbn [app field_get].
  - now destruct kv.
  - now destruct (String.eqb k' k).
Qed.

(** The fields of a record are set in their order, and change the name
    and the tag of the observer to the last values that the record
    gives them, and nothing else that the hook of the dataset set. *)
Lemma restore_fields_run fs : forall w,
  forallb typed fs = true ->
  exists w',
    Py.for_each fs restore_field w = (w', Return tt) /\
    trace w' = trace w ++ map (fun kv => SetState (fst kv) (snd kv)) fs /\
    data w' = data w /\ datasets w' = datasets w /\
    name w' =
      match field_get "name" (rev fs) with
      | Some (Str n) => n
      | _ => name w
      end /\
    _observer_id w' =
      match field_get "_observer_id" (rev fs) with
      | Some (Int z) => z
      | _ => _observer_id w
      end.
Proof.
  induction fs as [|kv fs IH]; intros w Hty.
  - exists w. split; [reflexivity|]. rewrite app_nil_r. repeat split.
  - cbn [forallb] in Hty. apply andb_prop in Hty. destruct Hty as [Hkv Hty].
    assert (Hstep : exists w1,
               restore_field kv w = (w1, Return tt) /\
               trace w1 = trace w ++ [SetState (fst kv) (snd kv)] /\
               data w1 = data w /\ datasets w1 = datasets w /\
               name w1 = (if String.eqb (fst kv) "name"
                          then match snd kv with Str n => n | Int _ => name w end
                          else name w) /\
               _observer_id w1 =
                 (if String.eqb (fst kv) "_observer_id"
                  then match snd kv with Int z => z | Str _ => _observer_id w end
                  else _observer_id w)).
    { unfold restore_field, typed, emit, Py.bind, Py.modify, Py.raise in *.
      destruct (String.eqb_spec (fst kv) "name") as [E|_].
      - rewrite E. cbn [String.eqb Ascii.eqb Bool.eqb].
        destruct (snd kv); [|discriminate Hkv].
        eexists. split; [reflexivity|]. repeat split.
      - destruct (String.eqb (fst kv) "_observer_id").
        + destruct (snd kv); [discriminate Hkv|].
          eexists. split; [reflexivity|]. repeat split.
        + eexists. split; [reflexivity|]. repeat split. }
    destruct Hstep as (w1 & Hrun1 & T1 & D1 & X1 & N1 & I1).
    destruct (IH w1 Hty) as (w' & Hrun & T & D & X & N & I).
    exists w'. split.
    + simpl Py.for_each. now rewrite (bind_returns _ _ _ _ _ _ _ _ Hrun1).
    + split; [rewrite T, T1; simpl; now rewrite <- app_assoc|].
      split; [congruence|]. split; [congruence|].
      cbn [rev]. rewrite !field_get_app. split.
      * rewrite N.
        destruct (field_get "name" (rev fs)) as [[n|z]|] eqn:G;
          try reflexivity.
        -- apply (typed_field _ _ _ Hty) in G. discriminate G.
        -- rewrite N1.
           destruct (String.eqb (fst kv) "name"); [|reflexivity].
           now destruct (snd kv).
      * rewrite I.
        destruct (field_get "_observer_id" (rev fs)) as [[n|z]|] eqn:G;
          try reflexivity.
        -- apply (typed_field _ _ _ Hty) in G. discriminate G.
        -- rewrite I1.
           destruct (String.eqb (fst kv) "_observer_id"); [|reflexivity].
           now destruct (snd kv).
Qed.

Lemma filter_all (A : Type) (p : A -> bool) (xs : list A) :
  forallb p xs = true -> filter p xs = xs.
Proof.
  induction xs as [|x xs IH]; simpl; [reflexivity|].
  intros H. apply andb_prop in H. destruct H as [Hx Hxs].
  now rewrite Hx, IH.
Qed.

Lemma well_formed_typed state :
  well_formed state -> forallb typed (st_fields state) = true.
Proof.
  unfold well_formed. rewrite !forallb_forall. intros H kv Hin.
  specialize (H kv Hin). apply andb_prop in H. tauto.
Qed.

(** [set_state(self, state, ignore=['children', 'data'])] sets the
    fields, in their order, and nothing else. *)
Lemma set_state_fields state w :
  well_formed state ->
  exists w',
    set_state state [] ["children"; "data"] w = (w', Return tt) /\
    trace w' =
      trace w ++ map (fun kv => SetState (fst kv) (snd kv)) (st_fields state) /\
    data w' = data w /\ datasets w' = datasets w /\
    name w' =
      match field_get "name" (rev (st_fields state)) with
      | Some (Str n) => n
      | _ => name w
      end /\
    _observer_id w' =
      match field_get "_observer_id" (rev (st_fields state)) with
      | Some (Int z) => z
      | _ => _observer_id w
      end.
Proof.
  intros Hwf. unfold set_state.
  assert (Hall :
            filter
              (fun kv : string * value =>
                 mem (fst kv) []
                 || negb (mem "*" ["children"; "data"]
                          || mem (fst kv) ["children"; "data"]))
              (st_fields state) = st_fields state).
  { apply filter_all. unfold well_formed in Hwf.
    rewrite forallb_forall in *. intros kv Hin.
    specialize (Hwf kv Hin). apply andb_prop in Hwf. exact (proj1 Hwf). }
  rewrite Hall.
  destruct (restore_fields_run (st_fields state) w (well_formed_typed _ Hwf))
    as (w' & Hrun & Ht).
  exists w'. split; [|exact Ht].
  cbn [mem existsb]. unfold Py.bind, Py.ret. now rewrite Hrun.
Qed.

(** [set_state(self, state, first=['children'], ignore=['*'])] sets the
    state of the children and nothing else. *)
Lemma set_state_children state w :
  well_formed state ->
  set_state state ["children"] ["*"] w
  = (record_event (SetChildrenState (List.length (st_children state))) w,
     Return tt).
Proof.
  intros Hwf. unfold set_state.
  assert (Hnone :
            filter
              (fun kv : string * value =>
                 mem (fst kv) ["children"] || negb (mem "*" ["*"] || mem (fst kv) ["*"]))
              (st_fields state) = []).
  { apply filter_none. intros kv Hin.
    unfold well_formed in Hwf. rewrite forallb_forall in Hwf.
    specialize (Hwf kv Hin). apply andb_prop in Hwf. destruct Hwf as [Hwf _].
    simpl in *.
    destruct (String.eqb (fst kv) "children"); [discriminate | reflexivity]. }
  rewrite Hnone. reflexivity.
Qed.

(** What a restoration does, step by step. *)
Lemma restore_run state z w :
  well_formed state ->
  st_data state = Some z ->
  exists w1 w2,
    match z with
    | Some z => assign_data (read_dataset (gunzip_string z))
    | None => Py.ret tt
    end w = (w1, Return tt) /\
    set_state state [] ["children"; "data"] w1 = (w2, Return tt) /\
    __set_pure_state__ state w
    = (record_event (SetChildrenState (List.length (st_children state)))
         (record_event (HandleChildrenState (List.length (st_children state)))
            w2),
       Return tt).
Proof.
  intros Hwf Hz.
  assert (Hdata : exists w1,
             match z with
             | Some z => assign_data (read_dataset (gunzip_string z))
             | None => Py.ret tt
             end w = (w1, Return tt)).
  { destruct z as [z|].
    - destruct (assign_data_native (read_dataset (gunzip_string z)) w)
        as (w1 & t & Hrun & _). eauto.
    - exists w. reflexivity. }
  destruct Hdata as (w1 & Hrun1).
  destruct (set_state_fields state w1 Hwf) as (w2 & Hrun2 & _).
  exists w1, w2. split; [exact Hrun1|]. split; [exact Hrun2|].
  unfold VTKDataSource.__set_pure_state__. rewrite Hz.
  rewrite (bind_returns _ _ _ _ _ _ _ _ Hrun1).
  rewrite (bind_returns _ _ _ _ _ _ _ _ Hrun2).
  unfold handle_children_state, emit. rewrite bind_modify.
  now apply set_state_children.
Qed.

(** C4, as amended.  A restoration applies the dataset first, when the
    record has one: the dataset read from the record is assigned to
    [data], so that the source holds it, and what this assignment does
    comes before everything else; then the fields that are neither the
    dataset nor the children are set, in their order; then the children
    are set up and given their state.  A record without the attribute
    [data] is refused with [AttributeError] before anything is done. *)
Theorem restore_dataset_first :
  forall (state : pure_state) (w : world),
    well_formed state ->
    match st_data state with
    | None => __set_pure_state__ state w = (w, Raise "AttributeError")
    | Some z =>
        Py.outcome (__set_pure_state__ state) w = Return tt /\
        data (Py.exec (__set_pure_state__ state) w)
        = match z with
          | Some z => Some (read_dataset (gunzip_string z))
          | None => data w
          end /\
        native
          (since w
             (match z with
              | Some z =>
                  Py.exec (assign_data (read_dataset (gunzip_string z))) w
              | None => w
              end)) = true /\
        since w (Py.exec (__set_pure_state__ state) w)
        = since w
            (match z with
             | Some z =>
                 Py.exec (assign_data (read_dataset (gunzip_string z))) w
             | None => w
             end)
          ++ map (fun kv => SetState (fst kv) (snd kv)) (st_fields state)
          ++ [HandleChildrenState (List.length (st_children state));
              SetChildrenState (List.length (st_children state))]
    end.
Proof.
  intros state w Hwf.
  destruct (st_data state) as [z|] eqn:Hz.
  2: { unfold VTKDataSource.__set_pure_state__. now rewrite Hz. }
  destruct (restore_run state z w Hwf Hz) as (w1 & w2 & Hrun1 & Hrun2 & Hrun).
  destruct (set_state_fields state w1 Hwf)
    as (w2' & Hrun2' & Ht2 & Hd2 & _).
  rewrite Hrun2 in Hrun2'. inversion Hrun2'; subst w2'. clear Hrun2'.
  assert (H1 : w1 = match z with
                    | Some z =>
                        Py.exec (assign_data (read_dataset (gunzip_string z))) w
                    | None => w
                    end /\
               exists t1, trace w1 = trace w ++ t1 /\ native t1 = true /\
                          data w1 = match z with
                                    | Some z => Some (read_dataset (gunzip_string z))
                                    | None => data w
                                    end).
  { destruct z as [z|].
    - split; [unfold Py.exec; now rewrite Hrun1|].
      destruct (assign_data_native (read_dataset (gunzip_string z)) w)
        as (w1' & t & E & Ht & Hp & Hd).
      rewrite Hrun1 in E. inversion E; subst w1'. eauto.
    - inversion Hrun1; subst w1. split; [reflexivity|].
      exists []. rewrite app_nil_r. repeat split. }
  destruct H1 as (E1 & t1 & Ht1 & Hp1 & Hd1).
  rewrite <- E1.
  unfold Py.outcome, Py.exec. rewrite Hrun.
  cbn [fst snd data record_event].
  split; [reflexivity|]. split; [congruence|].
  rewrite (since_app _ _ _ Ht1). split; [exact Hp1|].
  apply since_app. cbn [trace record_event].
  rewrite Ht2, Ht1. rewrite <- !app_assoc. reflexivity.
Qed.

End VTKProperties.

(** ** The properties at work on concrete pipelines and datasets *)

(** C1 on the source of [pipeline false], whose first child fails to
    start: both children are started and the source ends up running. *)
Lemma start_attempts_every_child_witness :
  Source.running (Source.heap (Source.pipeline false) 0) = false /\
  Py.outcome (Source.start (Source.fails_on 1 "boom") 0) (Source.pipeline false)
  = Return tt /\
  Source.started
    (Source.since (Source.pipeline false)
       (Py.exec (Source.start (Source.fails_on 1 "boom") 0)
          (Source.pipeline false)))
  = [1; 2] /\
  Source.running
    (Source.heap
       (Py.exec (Source.start (Source.fails_on 1 "boom") 0)
          (Source.pipeline false)) 0)
  = true /\
  In (Source.Logged "boom")
    (Source.since (Source.pipeline false)
       (Py.exec (Source.start (Source.fails_on 1 "boom") 0)
          (Source.pipeline false))).
Proof.
  destruct (start_attempts_every_child (Source.fails_on 1 "boom")
              (Source.pipeline false) 0 eq_refl)
    as (Hout & Hstarted & _ & Hrunning & Hlogged).
  split; [reflexivity|].
  split; [exact Hout|]. split; [exact Hstarted|]. split; [exact Hrunning|].
  apply (Hlogged 1 "boom").
  - simpl. now left.
  - reflexivity.
  - intros w0. reflexivity.
Defined.

(** The trace of that run: the failure of child 1 is logged between the
    two calls. *)
Example start_logs_the_failure :
  Source.since (Source.pipeline false)
    (Py.exec (Source.start (Source.fails_on 1 "boom") 0) (Source.pipeline false))
  = [Source.CallStart 1; Source.Logged "boom"; Source.CallStart 2].
Proof. reflexivity. Qed.

(** C6 on the source of [pipeline true], whose second child fails to
    stop. *)
Lemma stop_failure_propagates_witness :
  (Source.running (Source.heap (Source.pipeline true) 0) = true /\
   Source.children (Source.heap (Source.pipeline true) 0) = [1] ++ 2 :: [] /\
   ~ In 0 [1] /\
   Py.for_each [1] (Source.obj_stop (Source.fails_on 2 "boom"))
     (Source.pipeline true)
   = (Py.exec (Py.for_each [1] (Source.obj_stop (Source.fails_on 2 "boom")))
        (Source.pipeline true), Return tt) /\
   Source.obj_stop (Source.fails_on 2 "boom") 2
     (Py.exec (Py.for_each [1] (Source.obj_stop (Source.fails_on 2 "boom")))
        (Source.pipeline true))
   = (Py.exec (Source.stop (Source.fails_on 2 "boom") 0) (Source.pipeline true),
      Raise "boom")) /\
  Source.stop (Source.fails_on 2 "boom") 0 (Source.pipeline true)
  = (Py.exec (Source.stop (Source.fails_on 2 "boom") 0) (Source.pipeline true),
     Raise "boom") /\
  Source.running
    (Source.heap
       (Py.exec (Source.stop (Source.fails_on 2 "boom") 0) (Source.pipeline true))
       0)
  = true.
Proof.
  assert (Hnot : ~ In 0 [1]).
  { simpl. intros [H|[]]. discriminate. }
  destruct (stop_failure_propagates (Source.fails_on 2 "boom")
              (Source.pipeline true) 0 [1] 2 [] "boom"
              (Py.exec (Py.for_each [1] (Source.obj_stop (Source.fails_on 2 "boom")))
                 (Source.pipeline true))
              (Py.exec (Source.stop (Source.fails_on 2 "boom") 0)
                 (Source.pipeline true))
              eq_refl eq_refl Hnot eq_refl eq_refl)
    as (Hstop & _ & _ & Hrunning).
  split; [|split; [exact Hstop | exact Hrunning]].
  repeat split. exact Hnot.
Defined.

(** C8 on a running source without children: two modules are added. *)
Lemma add_module_single_manager_witness :
  (0 < Source.next (Source.lone_source true) /\
   (forall c,
       In c (Source.children (Source.heap (Source.lone_source true) 0)) ->
       c < Source.next (Source.lone_source true)) /\
   Source.module_managers (Source.lone_source true) 0 = [] /\
   [5; 6] <> [] /\
   Py.for_each [5; 6]
     (Source.add_module Source.never_fails Source.never_fails 0)
     (Source.lone_source true)
   = (Py.exec
        (Py.for_each [5; 6]
           (Source.add_module Source.never_fails Source.never_fails 0))
        (Source.lone_source true), Return tt)) /\
  Source.module_managers
    (Py.exec
       (Py.for_each [5; 6]
          (Source.add_module Source.never_fails Source.never_fails 0))
       (Source.lone_source true)) 0
  = [1] /\
  Source.children
    (Source.heap
       (Py.exec
          (Py.for_each [5; 6]
             (Source.add_module Source.never_fails Source.never_fails 0))
          (Source.lone_source true)) 1)
  = [5; 6] /\
  Source.running
    (Source.heap
       (Py.exec
          (Py.for_each [5; 6]
             (Source.add_module Source.never_fails Source.never_fails 0))
          (Source.lone_source true)) 1)
  = true.
Proof.
  assert (H0 : 0 < Source.next (Source.lone_source true)).
  { simpl. apply Nat.lt_0_succ. }
  assert (Hcs : forall c,
             In c (Source.children (Source.heap (Source.lone_source true) 0)) ->
             c < Source.next (Source.lone_source true)).
  { intros c []. }
  assert (Hms : [5; 6] <> ([] : list Source.oid)) by discriminate.
  destruct (add_module_single_manager Source.never_fails Source.never_fails
              (Source.lone_source true) 0 [5; 6]
              (Py.exec
                 (Py.for_each [5; 6]
                    (Source.add_module Source.never_fails Source.never_fails 0))
                 (Source.lone_source true))
              H0 Hcs eq_refl Hms eq_refl)
    as (Hmm & _ & Hmods & Hrun & Hself).
  split; [repeat split; assumption|].
  split; [exact Hmm|]. split; [exact Hmods|].
  exact (eq_trans Hrun Hself).
Defined.

(** C3 fails on a source that was restored from [saved_with_tag].  The
    restoration subscribes to dataset 1 under tag 1 and then sets
    [_observer_id] to the 7 of the record.  When dataset 2 is assigned,
    the observer removed from dataset 1 is the one with tag 7: the
    subscription of the source on dataset 1 stays, beside the new one on
    dataset 2. *)
Theorem restored_tag_keeps_old_subscription :
  VTKDataSource.data VTKDataSource.restored = Some 1 /\
  VTKDataSource.observers
    (VTKDataSource.datasets VTKDataSource.restored 1)
  = [(0%Z, "ModifiedEvent"); (1%Z, "ModifiedEvent")] /\
  VTKDataSource._observer_id VTKDataSource.restored = 7%Z /\
  VTKDataSource.observer_events
    (VTKDataSource.since VTKDataSource.restored
       (Py.exec
          (VTKDataSource.assign_data VTKDataSource.active_first
             VTKDataSource.first_member 2)
          VTKDataSource.restored))
  = [VTKDataSource.RemoveObserver 1 7%Z;
     VTKDataSource.AddObserver 2 "ModifiedEvent" 1%Z] /\
  VTKDataSource.observers
    (VTKDataSource.datasets
       (Py.exec
          (VTKDataSource.assign_data VTKDataSource.active_first
             VTKDataSource.first_member 2)
          VTKDataSource.restored) 1)
  = [(0%Z, "ModifiedEvent"); (1%Z, "ModifiedEvent")] /\
  VTKDataSource.subscriptions
    (VTKDataSource.trace
       (Py.exec
          (VTKDataSource.assign_data VTKDataSource.active_first
             VTKDataSource.first_member 2)
          VTKDataSource.restored))
  = [(1, 1%Z); (2, 1%Z)].
Proof. repeat split. Qed.

(** On a source that was not restored, replacing dataset 1 by dataset 2
    removes the observer of 1, then adds the one on 2. *)
Example data_replacement_swaps_the_observer :
  VTKDataSource.observer_events
    (VTKDataSource.since
       (Py.exec
          (VTKDataSource.assign_data VTKDataSource.active_first
             VTKDataSource.first_member 1)
          (VTKDataSource.fresh VTKDataSource.weather))
       (Py.exec
          (VTKDataSource.assign_data VTKDataSource.active_first
             VTKDataSource.first_member 1 ;;
           VTKDataSource.assign_data VTKDataSource.active_first
             VTKDataSource.first_member 2)
          (VTKDataSource.fresh VTKDataSource.weather)))
  = [VTKDataSource.RemoveObserver 1 1%Z;
     VTKDataSource.AddObserver 2 "ModifiedEvent" 1%Z].
Proof. reflexivity. Qed.

(** C2, the scenario of the spec: the first pass selects [temperature];
    the user selects [pressure]; a second pass, which now finds
    [pressure] first, leaves the selection. *)
Example selector_scenario :
  VTKDataSource.selector
    (Py.exec
       (VTKDataSource._update_data VTKDataSource.active_first
          VTKDataSource.first_member)
       (VTKDataSource.with_data (Some 1)
          (VTKDataSource.fresh VTKDataSource.weather)))
    VTKDataSource.point VTKDataSource.scalars
  = "temperature" /\
  VTKDataSource.selector
    (Py.exec
       (VTKDataSource._update_data VTKDataSource.active_first
          VTKDataSource.first_member ;;
        VTKDataSource.assign_selector VTKDataSource.point VTKDataSource.scalars
          "pressure" ;;
        VTKDataSource._update_data VTKDataSource.active_first
          VTKDataSource.first_member)
       (VTKDataSource.with_data (Some 1)
          (VTKDataSource.fresh VTKDataSource.weather)))
    VTKDataSource.point VTKDataSource.scalars
  = "pressure" /\
  VTKDataSource.candidates
    (Py.exec
       (VTKDataSource._update_data VTKDataSource.active_first
          VTKDataSource.first_member ;;
        VTKDataSource.assign_selector VTKDataSource.point VTKDataSource.scalars
          "pressure" ;;
        VTKDataSource._update_data VTKDataSource.active_first
          VTKDataSource.first_member)
       (VTKDataSource.with_data (Some 1)
          (VTKDataSource.fresh VTKDataSource.weather)))
    VTKDataSource.point VTKDataSource.scalars
  = ["pressure"; "temperature"; ""].
Proof. repeat split. Qed.

(** A name that is not a candidate is refused as a selection. *)
Example selection_outside_the_candidates :
  Py.outcome
    (VTKDataSource._update_data VTKDataSource.active_first
       VTKDataSource.first_member ;;
     VTKDataSource.assign_selector VTKDataSource.point VTKDataSource.scalars
       "humidity")
    (VTKDataSource.with_data (Some 1)
       (VTKDataSource.fresh VTKDataSource.weather))
  = Raise "TraitError".
Proof. reflexivity. Qed.

(** The amended C10 on dataset 2, for which no point scalars are found,
    in a source whose selectors are empty. *)
Lemma no_candidates_untouched_witness :
  (VTKDataSource.data
     (VTKDataSource.with_data (Some 2)
        (VTKDataSource.fresh VTKDataSource.weather)) = Some 2 /\
   VTKDataSource.active_first
     (VTKDataSource.datasets
        (VTKDataSource.with_data (Some 2)
           (VTKDataSource.fresh VTKDataSource.weather)) 2)
     VTKDataSource.point VTKDataSource.scalars = []) /\
  VTKDataSource.candidates
    (Py.exec
       (VTKDataSource._update_data VTKDataSource.active_first
          VTKDataSource.first_member)
       (VTKDataSource.with_data (Some 2)
          (VTKDataSource.fresh VTKDataSource.weather)))
    VTKDataSource.point VTKDataSource.scalars = [""] /\
  VTKDataSource.selector
    (Py.exec
       (VTKDataSource._update_data VTKDataSource.active_first
          VTKDataSource.first_member)
       (VTKDataSource.with_data (Some 2)
          (VTKDataSource.fresh VTKDataSource.weather)))
    VTKDataSource.point VTKDataSource.scalars = "" /\
  forallb
    (fun ev =>
       negb (VTKDataSource.touches VTKDataSource.point VTKDataSource.scalars ev))
    (VTKDataSource.since
       (VTKDataSource.with_data (Some 2)
          (VTKDataSource.fresh VTKDataSource.weather))
       (Py.exec
          (VTKDataSource._update_data VTKDataSource.active_first
             VTKDataSource.first_member)
          (VTKDataSource.with_data (Some 2)
             (VTKDataSource.fresh VTKDataSource.weather))))
  = true.
Proof.
  destruct (no_candidates_untouched VTKDataSource.active_first
              VTKDataSource.first_member
              (VTKDataSource.with_data (Some 2)
                 (VTKDataSource.fresh VTKDataSource.weather))
              2 VTKDataSource.point VTKDataSource.scalars eq_refl eq_refl)
    as (Hcand & Hempty & _).
  destruct (Hempty eq_refl) as (_ & Hsel & _ & Hquiet).
  split; [split; reflexivity|].
  split; [exact Hcand|]. split; [exact Hsel | exact Hquiet].
Defined.

(** C10 as stated fails when the selector of the pair holds a name.  In
    [replaced], dataset 2 has taken the place of dataset 1 while the
    selector of the point scalars holds [temperature]; no point scalars
    are found on dataset 2.  The pass does not leave the selector as it
    was: it is reset to the empty name, and [set_active] is called for
    the pair. *)
Lemma stale_selector_reset :
  VTKDataSource.data VTKDataSource.replaced = Some 2 /\
  VTKDataSource.active_first
    (VTKDataSource.datasets VTKDataSource.replaced 2)
    VTKDataSource.point VTKDataSource.scalars = [] /\
  VTKDataSource.selector VTKDataSource.replaced
    VTKDataSource.point VTKDataSource.scalars = "temperature" /\
  VTKDataSource.selector
    (Py.exec
       (VTKDataSource._update_data VTKDataSource.active_first
          VTKDataSource.first_member)
       VTKDataSource.replaced)
    VTKDataSource.point VTKDataSource.scalars = "" /\
  VTKDataSource.selector
    (Py.exec
       (VTKDataSource._update_data VTKDataSource.active_first
          VTKDataSource.first_member)
       VTKDataSource.replaced)
    VTKDataSource.point VTKDataSource.scalars
  <> VTKDataSource.selector VTKDataSource.replaced
       VTKDataSource.point VTKDataSource.scalars /\
  filter (VTKDataSource.touches VTKDataSource.point VTKDataSource.scalars)
    (VTKDataSource.since VTKDataSource.replaced
       (Py.exec
          (VTKDataSource._update_data VTKDataSource.active_first
             VTKDataSource.first_member)
          VTKDataSource.replaced))
  = [VTKDataSource.SetActive 2 VTKDataSource.point VTKDataSource.scalars None].
Proof.
  split; [reflexivity|]. split; [reflexivity|]. split; [reflexivity|].
  split; [reflexivity|]. split; [|reflexivity].
  intros H. vm_compute in H. discriminate H.
Qed.

(** The amended C4 on the record [saved]. *)
Lemma restore_dataset_first_witness :
  VTKDataSource.well_formed VTKDataSource.saved /\
  Py.outcome
    (VTKDataSource.__set_pure_state__ VTKDataSource.active_first
       VTKDataSource.first_member VTKDataSource.stored
       VTKDataSource.reads_weather VTKDataSource.saved)
    (VTKDataSource.fresh VTKDataSource.weather)
  = Return tt /\
  VTKDataSource.data
    (Py.exec
       (VTKDataSource.__set_pure_state__ VTKDataSource.active_first
          VTKDataSource.first_member VTKDataSource.stored
          VTKDataSource.reads_weather VTKDataSource.saved)
       (VTKDataSource.fresh VTKDataSource.weather))
  = Some 1 /\
  VTKDataSource.since (VTKDataSource.fresh VTKDataSource.weather)
    (Py.exec
       (VTKDataSource.__set_pure_state__ VTKDataSource.active_first
          VTKDataSource.first_member VTKDataSource.stored
          VTKDataSource.reads_weather VTKDataSource.saved)
       (VTKDataSource.fresh VTKDataSource.weather))
  = VTKDataSource.since (VTKDataSource.fresh VTKDataSource.weather)
      (Py.exec
         (VTKDataSource.assign_data VTKDataSource.active_first
            VTKDataSource.first_member 1)
         (VTKDataSource.fresh VTKDataSource.weather))
    ++ [VTKDataSource.SetState "name" (VTKDataSource.Str "VTK Data (PolyData)");
        VTKDataSource.HandleChildrenState 1;
        VTKDataSource.SetChildrenState 1].
Proof.
  assert (Hwf : VTKDataSource.well_formed VTKDataSource.saved) by reflexivity.
  destruct (restore_dataset_first VTKDataSource.active_first
              VTKDataSource.first_member VTKDataSource.stored
              VTKDataSource.reads_weather VTKDataSource.saved
              (VTKDataSource.fresh VTKDataSource.weather) Hwf)
    as (Hout & Hdata & _ & Hsince).
  split; [exact Hwf|]. split; [exact Hout|].
  split; [exact Hdata | exact Hsince].
Defined.

(** C4 as stated fails: restoring [saved] into a new source applies the
    dataset before the field [name], not after it. *)
Lemma restore_not_fields_first :
  VTKDataSource.phases
    (VTKDataSource.since (VTKDataSource.fresh VTKDataSource.weather)
       (Py.exec
          (VTKDataSource.__set_pure_state__ VTKDataSource.active_first
             VTKDataSource.first_member VTKDataSource.stored
             VTKDataSource.reads_weather VTKDataSource.saved)
          (VTKDataSource.fresh VTKDataSource.weather)))
  = [VTKDataSource.Dataset; VTKDataSource.Fields; VTKDataSource.Children] /\
  VTKDataSource.phases
    (VTKDataSource.since (VTKDataSource.fresh VTKDataSource.weather)
       (Py.exec
          (VTKDataSource.__set_pure_state__ VTKDataSource.active_first
             VTKDataSource.first_member VTKDataSource.stored
             VTKDataSource.reads_weather VTKDataSource.saved)
          (VTKDataSource.fresh VTKDataSource.weather)))
  <> [VTKDataSource.Fields; VTKDataSource.Dataset; VTKDataSource.Children].
Proof.
  split.
  - reflexivity.
  - intros H. vm_compute in H. discriminate H.
Qed.

(** The amended C7 at work: the source of [idle_parent] is not running,
    its running children 1 and 2 are removed, and both get their
    [stop()] call and are stopped. *)
Lemma removed_children_stopped_witness :
  Py.for_each [1] (Source.obj_stop Source.never_fails) Source.idle_parent
  = (Py.exec (Py.for_each [1] (Source.obj_stop Source.never_fails))
       Source.idle_parent, Return tt) /\
  Source.running (Source.heap Source.idle_parent 0) = false /\
  Source.running
    (Source.heap
       (Py.exec
          (Source._handle_children Source.never_fails Source.never_fails
             0 ([1] ++ 2 :: []) [])
          Source.idle_parent) 2) = false /\
  exists rest,
    Source.stopped
      (Source.since Source.idle_parent
         (Py.exec
            (Source._handle_children Source.never_fails Source.never_fails
               0 ([1] ++ 2 :: []) [])
            Source.idle_parent))
    = [1] ++ 2 :: rest.
Proof.
  split; [reflexivity|]. split; [reflexivity|]. split; [reflexivity|].
  apply (removed_children_stopped Source.never_fails Source.never_fails
           Source.idle_parent 0 [1] 2 [] []
           (Py.exec (Py.for_each [1] (Source.obj_stop Source.never_fails))
              Source.idle_parent)).
  reflexivity.
Defined.

(** C7 as stated fails when [stop()] of a removed child raises: the
    children 1 and 2 of the source 0 are removed by [children = []];
    [stop()] of 1 raises, the hook ends there, and [stop()] is never
    called on the removed child 2, which is left running.  The
    assignment itself returns: the exception is caught and logged by
    the trait machinery. *)
Lemma removed_child_not_stopped :
  Source.children (Source.heap (Source.pipeline true) 0) = [1; 2] /\
  Py.outcome
    (Source.assign_children Source.never_fails (Source.fails_on 1 "boom") 0 [])
    (Source.pipeline true) = Return tt /\
  Source.children
    (Source.heap
       (Py.exec
          (Source.assign_children Source.never_fails (Source.fails_on 1 "boom")
             0 [])
          (Source.pipeline true)) 0) = [] /\
  Source.since (Source.pipeline true)
    (Py.exec
       (Source.assign_children Source.never_fails (Source.fails_on 1 "boom")
          0 [])
       (Source.pipeline true))
  = [Source.CallStop 1; Source.Logged "boom"] /\
  Source.stopped
    (Source.since (Source.pipeline true)
       (Py.exec
          (Source.assign_children Source.never_fails (Source.fails_on 1 "boom")
             0 [])
          (Source.pipeline true))) = [1] /\
  Source.running
    (Source.heap
       (Py.exec
          (Source.assign_children Source.never_fails (Source.fails_on 1 "boom")
             0 [])
          (Source.pipeline true)) 2) = true.
Proof.
  repeat split; reflexivity.
Qed.

(** * Further properties *)

(** ** Of [Source] *)

Section SourceLifecycle.

Import Source.

Variable start_error : oid -> world -> option exn.
Variable stop_error : oid -> world -> option exn.

Local Abbreviation obj_start := (Source.obj_start start_error).
Local Abbreviation obj_stop := (Source.obj_stop stop_error).
Local Abbreviation start := (Source.start start_error).
Local Abbreviation stop := (Source.stop stop_error).

Lemma same_but_running_refl x : same_but_running x x.
Proof. unfold same_but_running. repeat split. Qed.

Lemma same_but_running_with b x : same_but_running (with_running b x) x.
Proof. unfold same_but_running. repeat split. Qed.

(** One guarded [obj.start()]: what it does to the store. *)
Lemma attempt_start_heap c w w' :
  Py.try_except (obj_start c) exception w = (w', Return tt) ->
  (forall o, o <> c -> heap w' o = heap w o) /\
  same_but_running (heap w' c) (heap w c) /\
  (running (heap w c) = true -> running (heap w' c) = true) /\
  ((forall w0, start_error c w0 = None) -> running (heap w' c) = true).
Proof.
  unfold Py.try_except. rewrite obj_start_run. cbv zeta.
  destruct (running (heap w c)) eqn:Hr.
  - intros H. inversion H; subst w'. simpl. rewrite Hr.
    repeat split; auto using same_but_running_refl.
  - destruct (start_error c (record_event (CallStart c) w)) as [e|] eqn:He.
    + intros H. unfold exception, emit, Py.modify in H.
      inversion H; subst w'. simpl.
      split; [reflexivity|]. split; [apply same_but_running_refl|].
      split; [congruence|].
      intros Hnone. specialize (Hnone (record_event (CallStart c) w)).
      congruence.
    + intros H. inversion H; subst w'.
      rewrite heap_set_obj_same.
      split; [|split; [|split]].
      * intros o Ho. now rewrite heap_set_obj_other.
      * apply same_but_running_with.
      * reflexivity.
      * reflexivity.
Qed.


(** *** Children that are added *)

Local Abbreviation process_added := (Source.process_added start_error).
Local Abbreviation _handle_children :=
  (Source._handle_children start_error stop_error).

(** Processing one added object: the events, and what becomes of the
    object. *)
Lemma process_added_effect self obj w :
  exists w' t,
    process_added self obj w = (w', Return tt) /\
    extends w t w' /\
    started t = (if running (heap w self) then [obj] else []) /\
    stopped t = [] /\
    next w' = next w /\
    (forall o, o <> obj -> heap w' o = heap w o) /\
    cls (heap w' obj) = cls (heap w obj) /\
    children (heap w' obj) = children (heap w obj) /\
    (running (heap w obj) = true -> running (heap w' obj) = true) /\
    (running (heap w self) = false ->
     running (heap w' obj) = running (heap w obj)) /\
    wired self (scene (heap w self)) (heap w' obj).
Proof.
  rewrite process_added_eq.
  set (w1 := set_obj obj (with_scene (scene (heap w self))) w).
  cbv zeta.
  set (w2 := if is_module_manager (cls (heap w1 obj)) then _ else _).
  assert (H1 : heap w1 obj = with_scene (scene (heap w self)) (heap w obj))
    by apply heap_set_obj_same.
  assert (H2 : trace w2 = trace w /\ next w2 = next w /\
               (forall o, o <> obj -> heap w2 o = heap w o) /\
               cls (heap w2 obj) = cls (heap w obj) /\
               children (heap w2 obj) = children (heap w obj) /\
               running (heap w2 obj) = running (heap w obj) /\
               wired self (scene (heap w self)) (heap w2 obj)).
  { unfold w2, wired. rewrite H1. cbn [cls with_scene].
    destruct (is_module_manager (cls (heap w obj))) eqn:Hmm;
      [|destruct (is_filter (cls (heap w obj))) eqn:Hfi].
    - rewrite heap_set_obj_same, H1.
      cbn [cls children running scene source inputs with_source with_scene].
      repeat split.
      + intros o Ho. unfold w1. now rewrite !heap_set_obj_other.
      + intros Hfi. destruct (cls (heap w obj)); discriminate.
    - rewrite heap_set_obj_same, H1.
      cbn [cls children running scene source inputs with_inputs with_scene].
      repeat split.
      + intros o Ho. unfold w1. now rewrite !heap_set_obj_other.
      + intros Hmm'. congruence.
      + intros _. apply in_or_app. right. now left.
    - rewrite H1.
      cbn [cls children running scene source inputs with_scene].
      repeat split.
      + intros o Ho. unfold w1. now rewrite heap_set_obj_other.
      + intros Hmm'. congruence.
      + intros Hfi'. congruence. }
  destruct H2 as (Ht2 & Hn2 & Hf2 & Hc2 & Hch2 & Hr2 & Hw2).
  assert (Hself : running (heap w2 self) = running (heap w self)).
  { destruct (Nat.eq_dec self obj) as [->|Hne]; [exact Hr2|].
    now rewrite Hf2. }
  clearbody w2. clear w1 H1.
  rewrite Hself.
  destruct (running (heap w self)) eqn:Hrs.
  - destruct (attempt_start start_error obj w2)
      as (w' & t & Hrun & Hext & Hst & Hsp & Hnext & _).
    destruct (attempt_start_heap obj w2 w' Hrun) as (Hf & Hs & Hm & _).
    exists w', (CallStart obj :: t).
    split; [exact Hrun|].
    split; [eapply extends_same_trace; eassumption|].
    split; [simpl; now rewrite Hst|]. split; [exact Hsp|].
    split; [congruence|].
    split; [intros o Ho; rewrite Hf by assumption; now apply Hf2|].
    destruct Hs as (Hcls & Hchi & Hsc & Hso & Hin).
    split; [congruence|]. split; [congruence|].
    split; [intros Hr; apply Hm; congruence|].
    split; [discriminate|].
    destruct Hw2 as (Wsc & Wso & Win).
    unfold wired. rewrite Hcls, Hsc, Hso, Hin. repeat split; assumption.
  - exists w2, [].
    split; [reflexivity|].
    split; [unfold extends; rewrite Ht2; now rewrite app_nil_r|].
    split; [reflexivity|]. split; [reflexivity|]. split; [assumption|].
    split; [assumption|]. split; [assumption|]. split; [assumption|].
    split; [congruence|]. split; [intros _; exact Hr2 | exact Hw2].
Qed.

(** The loop over the added objects: it returns; it starts the added
    objects, in order, when the node runs, and none otherwise; it wires
    every added object to the node and leaves classes, children lists
    and the other objects alone. *)
Lemma added_loop_effect self added : forall w,
  exists w' t,
    Py.for_each added (process_added self) w = (w', Return tt) /\
    extends w t w' /\
    started t = (if running (heap w self) then added else []) /\
    stopped t = [] /\
    next w' = next w /\
    (forall o, ~ In o added -> heap w' o = heap w o) /\
    (forall o, cls (heap w' o) = cls (heap w o) /\
               children (heap w' o) = children (heap w o)) /\
    (forall o, running (heap w o) = true -> running (heap w' o) = true) /\
    (running (heap w self) = false ->
     forall o, running (heap w' o) = running (heap w o)) /\
    (forall o, In o added -> wired self (scene (heap w self)) (heap w' o)).
Proof.
  induction added as [|obj added IH]; intros w.
  - exists w, []. split; [reflexivity|]. split; [apply extends_refl|].
    split; [now destruct (running (heap w self))|].
    split; [reflexivity|]. split; [reflexivity|]. split; [reflexivity|].
    split; [intros o; now split|]. split; [auto|]. split; [reflexivity|].
    intros o [].
  - destruct (process_added_effect self obj w)
      as (w1 & t1 & Hrun1 & Hext1 & Hst1 & Hsp1 & Hn1 & Hf1 & Hc1 & Hch1
          & Hm1 & Hk1 & Hw1).
    destruct (IH w1)
      as (w2 & t2 & Hrun2 & Hext2 & Hst2 & Hsp2 & Hn2 & Hf2 & Hcc2 & Hm2
          & Hk2 & Hw2).
    assert (Hcc1 : forall o, cls (heap w1 o) = cls (heap w o) /\
                             children (heap w1 o) = children (heap w o)).
    { intros o. destruct (Nat.eq_dec o obj) as [->|Hne]; [now split|].
      now rewrite Hf1. }
    assert (Hmono1 : forall o, running (heap w o) = true ->
                               running (heap w1 o) = true).
    { intros o Ho. destruct (Nat.eq_dec o obj) as [->|Hne]; auto.
      now rewrite Hf1. }
    assert (Hkeep1 : running (heap w self) = false ->
                     forall o, running (heap w1 o) = running (heap w o)).
    { intros Hr o. destruct (Nat.eq_dec o obj) as [->|Hne]; auto.
      now rewrite Hf1. }
    assert (Hrs : running (heap w1 self) = running (heap w self)).
    { destruct (running (heap w self)) eqn:Hr; [now apply Hmono1|].
      now rewrite Hkeep1. }
    assert (Hsc : scene (heap w1 self) = scene (heap w self)).
    { destruct (Nat.eq_dec self obj) as [->|Hne]; [apply Hw1|].
      now rewrite Hf1. }
    exists w2, (t1 ++ t2).
    split; [simpl; unfold Py.bind; now rewrite Hrun1|].
    split; [eapply extends_trans; eassumption|].
    split.
    { rewrite started_app, Hst1, Hst2, Hrs.
      now destruct (running (heap w self)). }
    split; [rewrite stopped_app, Hsp1, Hsp2; reflexivity|].
    split; [congruence|].
    split.
    { intros o Hnin. rewrite Hf2.
      - apply Hf1. intros ->. apply Hnin. now left.
      - intros Hin. apply Hnin. now right. }
    split.
    { intros o. destruct (Hcc2 o), (Hcc1 o). split; congruence. }
    split; [auto|].
    split.
    { intros Hr o. rewrite Hk2 by congruence. now apply Hkeep1. }
    intros o Hin.
    destruct (in_dec Nat.eq_dec o added) as [Hin'|Hnin].
    + rewrite <- Hsc. now apply Hw2.
    + destruct Hin as [<-|Hin]; [|contradiction].
      now rewrite Hf2.
Qed.


(** *** [add_module] with and without a manager *)

Local Abbreviation add_module := (Source.add_module start_error stop_error).

Lemma last_module_manager_keeps (h : oid -> object) (cs : list oid) :
  (forall c, In c cs -> is_module_manager (cls (h c)) = false) ->
  forall acc,
    fold_left
      (fun mm child =>
         if is_module_manager (cls (h child)) then Some child else mm)
      cs acc = acc.
Proof.
  induction cs as [|c cs IH]; intros H acc; simpl.
  - reflexivity.
  - rewrite (H c) by now left. apply IH. intros c' Hin. apply H. now right.
Qed.

(** When the node has module managers among its children, [add_module]
    does one thing: [mm.children.append(module)] on the manager that
    comes last in [children].  It creates no manager, calls no [start()]
    on its own and does not touch the children of the node. *)
Theorem add_module_uses_last_manager :
  forall (w : world) (self m : oid) (pre : list oid) (mm : oid)
         (post : list oid),
    children (heap w self) = pre ++ mm :: post ->
    is_module_manager (cls (heap w mm)) = true ->
    (forall c, In c post -> is_module_manager (cls (heap w c)) = false) ->
    add_module self m w = mm_children_append mm m w.
Proof.
  intros w self m pre mm post Hcs Hmm Hpost.
  assert (Hlast : last_module_manager (heap w) (children (heap w self))
                  = Some mm).
  { rewrite Hcs. unfold last_module_manager.
    rewrite fold_left_app. simpl. rewrite Hmm.
    now apply last_module_manager_keeps. }
  rewrite add_module_eq. cbv zeta. rewrite Hlast. reflexivity.
Qed.

(** When a running node has no module manager and [start()] of the new
    manager raises, [add_module] raises the same exception: the manager
    has been created and asked to start, but it is attached to nothing;
    the children of the node and every other object are as before, and
    the module was added nowhere. *)
Theorem add_module_start_failure :
  forall (w : world) (self m : oid) (e : exn),
    self < next w ->
    module_managers w self = [] ->
    running (heap w self) = true ->
    (forall w0, start_error (next w) w0 = Some e) ->
    Py.outcome (add_module self m) w = Raise e /\
    (forall o, o <> next w -> heap (Py.exec (add_module self m) w) o = heap w o) /\
    children (heap (Py.exec (add_module self m) w) self)
    = children (heap w self) /\
    heap (Py.exec (add_module self m) w) (next w)
    = mkObject KModuleManager false [] (scene (heap w self)) (Some self) [] /\
    next (Py.exec (add_module self m) w) = S (next w) /\
    started (since w (Py.exec (add_module self m) w)) = [next w].
Proof.
  intros w self m e Hself Hnone Hr Hfail.
  assert (Hnomm : forall c, In c (children (heap w self)) ->
                            is_module_manager (cls (heap w c)) = false).
  { apply filter_none. exact Hnone. }
  set (w1 := mkWorld
               (upd (heap w) (next w)
                  (mkObject KModuleManager false [] (scene (heap w self))
                     (Some self) []))
               (S (next w)) (trace w)).
  assert (Hnew : heap w1 (next w)
                 = mkObject KModuleManager false [] (scene (heap w self))
                     (Some self) []).
  { unfold w1, upd. cbn [heap]. now rewrite Nat.eqb_refl. }
  assert (Hrun : add_module self m w
                 = (record_event (CallStart (next w)) w1, Raise e)).
  { rewrite add_module_eq. cbv zeta.
    rewrite (last_module_manager_none _ _ Hnomm), Hr. fold w1.
    rewrite obj_start_run. cbv zeta. rewrite Hnew. cbn [running].
    now rewrite Hfail. }
  unfold Py.outcome, Py.exec. rewrite Hrun. cbn [fst snd].
  assert (Hother : forall o, o <> next w ->
             heap (record_event (CallStart (next w)) w1) o = heap w o).
  { intros o Ho. unfold record_event, w1, upd. cbn [heap].
    destruct (Nat.eqb_spec o (next w)); [contradiction | reflexivity]. }
  split; [reflexivity|]. split; [exact Hother|].
  split; [rewrite Hother by lia; reflexivity|].
  split; [exact Hnew|]. split; [reflexivity|].
  unfold since, record_event, w1. cbn [trace]. now rewrite skipn_length_app.
Qed.

End SourceLifecycle.

Section SourceRouting.

Import Source.

Variable start_error : oid -> world -> option exn.
Variable stop_error : oid -> world -> option exn.
Variable same_class : oid -> oid -> bool.
Variable scene_add_child : oid -> oid -> M unit.

Local Abbreviation add_child :=
  (Source.add_child start_error stop_error same_class scene_add_child).

Lemma children_append_effect self child w :
  exists w',
    children_append start_error stop_error self child w = (w', Return tt) /\
    children (heap w' self) = children (heap w self) ++ [child] /\
    (forall o, o <> self -> children (heap w' o) = children (heap w o)) /\
    wired self (scene (heap w self)) (heap w' child) /\
    started (since w w')
    = (if running (heap w self) then [child] else []) /\
    stopped (since w w') = [] /\
    next w' = next w.
Proof.
  set (w1 := set_obj self (with_children (children (heap w self) ++ [child])) w).
  destruct (added_loop_effect start_error self [child] w1)
    as (w' & t & Hrun & Hext & Hst & Hsp & Hn & _ & Hcc & _ & _ & Hw).
  assert (H1 : heap w1 self
               = with_children (children (heap w self) ++ [child]) (heap w self))
    by apply heap_set_obj_same.
  exists w'. split.
  { unfold children_append, _children_items_changed, Source._handle_children.
    unfold Py.bind at 1, read. unfold Py.bind at 1, write, Py.modify.
    fold w1. cbn [Py.for_each]. unfold Py.bind at 1, Py.ret.
    exact Hrun. }
  split; [destruct (Hcc self) as [_ ->]; now rewrite H1|].
  split.
  { intros o Ho. destruct (Hcc o) as [_ ->]. unfold w1.
    now rewrite heap_set_obj_other. }
  split.
  { specialize (Hw child (or_introl eq_refl)). now rewrite H1 in Hw. }
  rewrite (extends_since w t w')
    by (apply (extends_same_trace w1); [reflexivity | exact Hext]).
  rewrite H1 in Hst. cbn [running with_children] in Hst.
  split; [exact Hst|]. split; [exact Hsp|]. exact Hn.
Qed.

(** [add_child] with a child that is a filter, or that is not of the
    class of the node.  A module is handed to [add_module].  Any other
    such child becomes the last child of the node, whatever it does when
    started: it has the scene of the node, a module manager has the node
    as its source and a filter has it among its inputs; [start()] is
    called on it exactly when the node runs; no object is created. *)
Theorem add_child_appends :
  forall (w : world) (self child : oid),
    is_filter (cls (heap w child)) = true \/ same_class self child = false ->
    match cls (heap w child) with
    | KModule =>
        add_child self child w
        = Source.add_module start_error stop_error self child w
    | _ =>
        Py.outcome (add_child self child) w = Return tt /\
        children (heap (Py.exec (add_child self child) w) self)
        = children (heap w self) ++ [child] /\
        wired self (scene (heap w self))
          (heap (Py.exec (add_child self child) w) child) /\
        started (since w (Py.exec (add_child self child) w))
        = (if running (heap w self) then [child] else []) /\
        next (Py.exec (add_child self child) w) = next w
    end.
Proof.
  intros w self child Hroute.
  destruct (children_append_effect self child w)
    as (w' & Hrun & Hch & _ & Hw & Hst & _ & Hn).
  destruct (cls (heap w child)) eqn:Hk;
    try (assert (Happ : add_child self child w
                        = children_append start_error stop_error self child w)
           by (unfold Source.add_child, Py.bind at 1, read; cbv beta iota;
               rewrite Hk; cbn [is_filter];
               first [ reflexivity
                     | destruct Hroute as [Hf|Hs];
                       [discriminate Hf | now rewrite Hs] ]);
         unfold Py.outcome, Py.exec; rewrite Happ, Hrun; cbn [fst snd];
         split; [reflexivity|]; split; [exact Hch|]; split; [exact Hw|];
         split; [exact Hst | exact Hn]).
  unfold Source.add_child, Py.bind at 1, read. cbv beta iota.
  rewrite Hk. cbn [is_filter].
  destruct Hroute as [Hf|Hs]; [discriminate Hf|]. now rewrite Hs.
Qed.

End SourceRouting.

(** The tree view accepts exactly filters and module managers, and gives
    the same answer for a class and for an object of that class.  What it
    hands back on a drop is the object itself, for exactly the objects it
    accepts; for a class it hands back nothing. *)
Theorem tno_accepts_filters_and_managers :
  forall k : Source.klass,
    Source.tno_can_add (Source.AClass k)
    = (Source.is_filter k || Source.is_module_manager k) /\
    Source.tno_can_add (Source.AnObject k)
    = Source.tno_can_add (Source.AClass k) /\
    Source.tno_drop_object (Source.AnObject k)
    = (if Source.tno_can_add (Source.AnObject k)
       then Some (Source.AnObject k) else None) /\
    Source.tno_drop_object (Source.AClass k) = None.
Proof.
  intros k. destruct k; repeat split; reflexivity.
Qed.

(** ** More on the data-refresh pass *)

Section VTKPass.

Import VTKDataSource.

Variable get_all_attributes : DataSet -> table (list string).
Variable fallback_index : list string -> nat.

Local Abbreviation fallback := (VTKDataSource.fallback fallback_index).
Local Abbreviation _update_data :=
  (VTKDataSource._update_data get_all_attributes fallback_index).
Local Abbreviation assign_data :=
  (VTKDataSource.assign_data get_all_attributes fallback_index).

Lemma data_changes_flat_map (A : Type) (f : A -> list event) (g : A -> bool)
  (l : list A) :
  (forall p, data_changes (f p) = if g p then 1 else 0) ->
  data_changes (flat_map f l) = List.length (filter g l).
Proof.
  intros H. induction l as [|p l IH]; [reflexivity|].
  cbn [flat_map filter]. rewrite data_changes_app, IH, H.
  now destruct (g p).
Qed.

Lemma data_changes_pass_calls ds found before after :
  data_changes (pass_calls fallback_index ds found before after)
  = List.length (stale_pairs found before).
Proof.
  unfold pass_calls, stale_pairs. apply data_changes_flat_map.
  intros [d a]. cbn [fst snd]. cbv zeta. rewrite data_changes_app.
  assert (Hact : data_changes
                   (if nonempty (found d a)
                    then activation ds d a (after d a) else []) = 0)
    by now destruct (nonempty (found d a)).
  rewrite Hact, Nat.add_0_r.
  destruct (mem (before d a) (found d a ++ [""])); [reflexivity|].
  unfold handler_calls.
  now destruct (Nat.eqb (String.length (fallback (found d a ++ [""]))) 0).
Qed.


(** After a pass on a source that holds a dataset, every candidate list
    holds the names found for the pair at the start of the pass,
    followed by the empty name; every selector is a member of its
    candidate list; and for a pair for which names were found and whose
    selector is not empty, the attribute active on the dataset is the one
    that the selector names. *)
Theorem pass_synchronises :
  forall (w : world) (ds : ds_id) (d : d_type) (a : attr),
    data w = Some ds ->
    data (Py.exec _update_data w) = Some ds /\
    candidates (Py.exec _update_data w) d a
    = get_all_attributes (datasets w ds) d a ++ [""] /\
    In (selector (Py.exec _update_data w) d a)
      (candidates (Py.exec _update_data w) d a) /\
    (get_all_attributes (datasets w ds) d a <> [] ->
     selector (Py.exec _update_data w) d a <> "" ->
     active (datasets (Py.exec _update_data w) ds) d a
     = Some (selector (Py.exec _update_data w) d a)).
Proof.
  intros w ds d a Hds. unfold Py.exec.
  destruct (pass_at get_all_attributes fallback_index w ds Hds)
    as (w' & Hrun & _ & Hd & _ & _ & _ & _ & _ & _ & _ & Hp).
  rewrite Hrun. cbn [fst].
  destruct (Hp d a) as (Hc & Hsel & Ha & _).
  split; [congruence|]. split; [exact Hc|]. split.
  - rewrite Hc, Hsel. unfold settled. cbv zeta.
    set (found := get_all_attributes (datasets w ds) d a).
    assert (Hv1 : In (if mem (selector w d a) (found ++ [""])
                      then selector w d a else fallback (found ++ [""]))
                     (found ++ [""])).
    { destruct (mem (selector w d a) (found ++ [""])) eqn:Hmem.
      - now apply mem_In.
      - apply fallback_in. apply in_or_app. right. now left. }
    destruct (nonempty found && _first w
              && Nat.eqb (String.length
                            (if mem (selector w d a) (found ++ [""])
                             then selector w d a
                             else fallback (found ++ [""]))) 0) eqn:Hcase;
      [|exact Hv1].
    destruct found as [|x xs]; [discriminate Hcase|]. now left.
  - intros Hne _. apply Ha.
    destruct (get_all_attributes (datasets w ds) d a);
      [contradiction | reflexivity].
Qed.

End VTKPass.

(** ** More on the handlers *)

Section VTKHandlers.

Import VTKDataSource.

(** The handler of a selector, called with a name that is not empty.
    On a source with a dataset it activates the name for the pair on the
    dataset, has the filter assign it and update, and fires
    [data_changed]: these four calls and no other; the attributes of the
    other pairs, the selectors and the candidate lists are not touched.
    On a source without dataset it raises [AttributeError] and changes
    nothing. *)
Theorem set_data_name_activates :
  forall (w : world) (data_type : attr) (attr_type : d_type) (value : string),
    value <> "" ->
    match data w with
    | None =>
        _set_data_name data_type attr_type (Some value) w
        = (w, Raise "AttributeError")
    | Some ds =>
        Py.outcome (_set_data_name data_type attr_type (Some value)) w
        = Return tt /\
        active
          (datasets (Py.exec (_set_data_name data_type attr_type (Some value)) w)
             ds) attr_type data_type = Some value /\
        (forall x d a,
            (d, a) <> (attr_type, data_type) ->
            active
              (datasets
                 (Py.exec (_set_data_name data_type attr_type (Some value)) w) x)
              d a
            = active (datasets w x) d a) /\
        assigned
          (_assign_attribute
             (Py.exec (_set_data_name data_type attr_type (Some value)) w))
        = assigned (_assign_attribute w) ++ [(value, data_type, attr_type)] /\
        updates
          (_assign_attribute
             (Py.exec (_set_data_name data_type attr_type (Some value)) w))
        = S (updates (_assign_attribute w)) /\
        selector (Py.exec (_set_data_name data_type attr_type (Some value)) w)
        = selector w /\
        candidates (Py.exec (_set_data_name data_type attr_type (Some value)) w)
        = candidates w /\
        since w (Py.exec (_set_data_name data_type attr_type (Some value)) w)
        = activation ds attr_type data_type value ++ [DataChanged]
    end.
Proof.
  intros w data_type attr_type value Hne.
  assert (Hlen : Nat.eqb (String.length value) 0 = false).
  { destruct value; [contradiction|reflexivity]. }
  destruct (data w) as [ds|] eqn:Hds.
  2: { unfold _set_data_name, Py.bind, Py.get. now rewrite Hds. }
  unfold Py.outcome, Py.exec, _set_data_name, Py.bind, Py.get.
  rewrite Hds, Hlen.
  unfold set_active, aa_assign, aa_update, fire_data_changed, emit,
    Py.bind, Py.modify.
  cbn [fst snd].
  split; [reflexivity|]. split; [|split; [|split; [|split; [|split; [|split]]]]].
  - cbn [datasets record_event with_assign_attribute].
    rewrite datasets_with_dataset_same. cbn [active with_active].
    apply tset_same.
  - intros x d a Hother.
    cbn [datasets record_event with_assign_attribute with_dataset].
    destruct (Nat.eqb_spec x ds) as [->|]; [|reflexivity].
    cbn [active with_active]. now apply tset_other.
  - reflexivity.
  - reflexivity.
  - reflexivity.
  - reflexivity.
  - apply since_app. simpl. now rewrite <- !app_assoc.
Qed.

End VTKHandlers.

(** ** More on replacing the dataset *)

Section VTKReplacement.

Import VTKDataSource.

Variable get_all_attributes : DataSet -> table (list string).
Variable fallback_index : list string -> nat.

Local Abbreviation _update_data :=
  (VTKDataSource._update_data get_all_attributes fallback_index).
Local Abbreviation assign_data :=
  (VTKDataSource.assign_data get_all_attributes fallback_index).

(** Assigning a dataset that the source does not hold yet sets the
    source up for it: the filter reads the new dataset and its output is
    the only output of the source, every candidate list holds the names
    found on the new dataset followed by the empty name, the source is no
    longer in its first use, the name is made from the class of the
    dataset, with the mark [[Hidden]] kept when the old name had it.
    [data_changed] is fired once by the pass, once by the hook, and once
    more for every selector that was not among the new candidates. *)
Theorem assign_data_sets_up :
  forall (w : world) (new : ds_id),
    data w <> Some new ->
    Py.outcome (assign_data new) w = Return tt /\
    input (_assign_attribute (Py.exec (assign_data new) w)) = Some new /\
    outputs (Py.exec (assign_data new) w) = [AssignAttributeOutput] /\
    _first (Py.exec (assign_data new) w) = false /\
    name (Py.exec (assign_data new) w) =
      match String.index 0 "[Hidden]" (name w) with
      | Some _ =>
          (("VTK Data (" ++ class_name (datasets w new) ++ ")") ++ " [Hidden]")%string
      | None => ("VTK Data (" ++ class_name (datasets w new) ++ ")")%string
      end /\
    (forall d a,
        candidates (Py.exec (assign_data new) w) d a
        = get_all_attributes (datasets w new) d a ++ [""]) /\
    data_changes (since w (Py.exec (assign_data new) w))
    = List.length
        (stale_pairs (get_all_attributes (datasets w new)) (selector w)) + 2.
Proof.
  intros w new Hnew.
  assert (Hrun : forall old : option ds_id,
             exists w',
               VTKDataSource._data_changed get_all_attributes fallback_index
                 old new (with_data (Some new) w) = (w', Return tt) /\
               input (_assign_attribute w') = Some new /\
               outputs w' = [AssignAttributeOutput] /\
               _first w' = false /\
               name w' =
                 match String.index 0 "[Hidden]" (name w) with
                 | Some _ =>
                     (("VTK Data (" ++ class_name (datasets w new) ++ ")")
                      ++ " [Hidden]")%string
                 | None => ("VTK Data (" ++ class_name (datasets w new) ++ ")")%string
                 end /\
               (forall d a, candidates w' d a
                            = get_all_attributes (datasets w new) d a ++ [""]) /\
               data_changes (since w w')
               = List.length
                   (stale_pairs (get_all_attributes (datasets w new))
                      (selector w)) + 2).
  { intros old.
    destruct (data_changed_run get_all_attributes fallback_index old new
                (with_data (Some new) w) eq_refl)
      as (w' & t & E & _ & _ & Et & Ht & _ & Hi & Ho & Hf & Hn & Hc & _).
    cbn [trace name datasets selector with_data] in *.
    exists w'. repeat (split; [assumption|]).
    rewrite (since_app _ _ _ Ht), Et, !data_changes_app,
      (data_changes_pass_calls fallback_index).
    destruct old; cbn; lia. }
  unfold Py.outcome, Py.exec.
  rewrite (assign_data_eq get_all_attributes fallback_index).
  destruct (data w) as [old|] eqn:Hd.
  - destruct (Nat.eqb_spec old new) as [->|Hne]; [now contradiction Hnew|].
    destruct (Hrun (Some old)) as (w' & E & Hi & Ho & Hf & Hn & Hc & Hcount).
    rewrite E. cbn [fst snd].
    repeat (split; [assumption || reflexivity|]). assumption.
  - destruct (Hrun None) as (w' & E & Hi & Ho & Hf & Hn & Hc & Hcount).
    rewrite E. cbn [fst snd].
    repeat (split; [assumption || reflexivity|]). assumption.
Qed.

(** On a source whose subscription is in order, whatever observers the
    datasets have besides: after an assignment to [data] the source has
    exactly one subscription, on the dataset assigned, under the tag kept
    in [_observer_id]; when the assignment replaces a dataset, the calls
    made on observers are, in this order, the removal of the observer of
    the source from the previous dataset and the addition of one to the
    new dataset; the observers that are not of the source stay.  A pass
    keeps the subscription in order. *)
Theorem assignment_keeps_one_subscription :
  forall (w : world) (new : ds_id),
    subscribed w ->
    Py.outcome (assign_data new) w = Return tt /\
    data (Py.exec (assign_data new) w) = Some new /\
    subscribed (Py.exec (assign_data new) w) /\
    (data w <> Some new ->
     observer_events (since w (Py.exec (assign_data new) w))
     = match data w with
       | Some old => [RemoveObserver old (_observer_id w)]
       | None => []
       end
       ++ [AddObserver new "ModifiedEvent"
             (_observer_id (Py.exec (assign_data new) w))]) /\
    (forall x o, In o (observers (datasets w x)) ->
                 fst o <> _observer_id w ->
                 In o (observers (datasets (Py.exec (assign_data new) w) x))) /\
    subscribed (Py.exec _update_data w).
Proof.
  intros w new Hsub.
  destruct (assign_data_subscribed get_all_attributes fallback_index new w Hsub)
    as (w' & E & Hd & Hs & Ho & Hf).
  unfold Py.outcome, Py.exec. rewrite E. cbn [fst snd].
  split; [reflexivity|]. split; [exact Hd|]. split; [exact Hs|].
  split; [exact Ho|]. split; [exact Hf|].
  destruct (data w) as [ds|] eqn:Hds.
  - destruct (pass_at get_all_attributes fallback_index w ds Hds)
      as (w1 & Hrun & _ & Hd1 & Hi1 & _ & _ & Hx & Ht & Hq & _).
    rewrite Hrun. cbn [fst].
    rewrite (since_app _ _ _ Ht) in Hq.
    unfold subscribed in *. rewrite Hd1, Hds, Hi1, Ht in *.
    destruct Hsub as [Hlive Hin]. split.
    + now rewrite subscriptions_app, (subscriptions_quiet _ _ Hq).
    + now rewrite (proj1 (Hx ds)).
  - assert (Hrun : _update_data w = (w, Return tt)).
    { unfold VTKDataSource._update_data, Py.bind, Py.get. now rewrite Hds. }
    rewrite Hrun. cbn [fst]. exact Hsub.
Qed.

End VTKReplacement.

(** ** Saving and restoring *)

Section VTKSaving.

Import VTKDataSource.

Variable gzip_string : string -> string.
Variable write_dataset : DataSet -> string.

Lemma dict_get_pop k n d :
  dict_get k (dict_pop n d) = if String.eqb n k then None else dict_get k d.
Proof.
  induction d as [|[k' v] d IH]; cbn [dict_pop filter dict_get fst].
  - now destruct (String.eqb n k).
  - fold (dict_pop n d).
    destruct (String.eqb_spec k' n) as [->|Hne]; cbn [negb dict_get].
    + rewrite IH. now destruct (String.eqb n k).
    + rewrite IH. destruct (String.eqb_spec k' k) as [->|Hne'].
      * destruct (String.eqb_spec n k) as [->|]; [congruence|reflexivity].
      * reflexivity.
Qed.

Lemma dict_get_pops k ns : forall d,
  dict_get k (fold_left (fun d n => dict_pop n d) ns d)
  = if mem k ns then None else dict_get k d.
Proof.
  induction ns as [|n ns IH]; intros d; cbn [fold_left mem existsb].
  - reflexivity.
  - fold (mem k ns). rewrite IH, dict_get_pop, (String.eqb_sym k n).
    destruct (String.eqb n k), (mem k ns); reflexivity.
Qed.

Lemma pops_of_pairs (f g : string -> string) names : forall d,
  fold_left (fun d name => dict_pop (g name) (dict_pop (f name) d)) names d
  = fold_left (fun d n => dict_pop n d)
      (flat_map (fun name => [f name; g name]) names) d.
Proof.
  induction names as [|name names IH]; intros d; [reflexivity|].
  cbn [fold_left flat_map app]. apply IH.
Qed.

(** What a saved dictionary holds under each key: under [data] the
    compressed dataset when the source holds one; nothing under the
    fifteen keys that are removed; under every other key what the base
    class saved.  The tag of the observer is kept under [_observer_id],
    since the key removed is [_observer]. *)
Theorem saved_state_keys :
  forall (d : dict) (w : world) (k : string),
    dict_get k (__get_pure_state__ gzip_string write_dataset d w) =
      match data w with
      | Some ds =>
          if String.eqb "data" k
          then Some (gzip_string (write_dataset (datasets w ds)))
          else if mem k removed_keys then None else dict_get k d
      | None => if mem k removed_keys then None else dict_get k d
      end /\
    dict_get "_observer_id" (__get_pure_state__ gzip_string write_dataset d w)
    = dict_get "_observer_id" d.
Proof.
  assert (Hkeys : forall d w k,
    dict_get k (__get_pure_state__ gzip_string write_dataset d w) =
      match data w with
      | Some ds =>
          if String.eqb "data" k
          then Some (gzip_string (write_dataset (datasets w ds)))
          else if mem k removed_keys then None else dict_get k d
      | None => if mem k removed_keys then None else dict_get k d
      end).
  { intros d w k. unfold __get_pure_state__. cbv zeta.
    rewrite (pops_of_pairs (fun name => ("_" ++ name ++ "_list")%string)
               (fun name => ("_" ++ name ++ "_name")%string)).
    rewrite <- fold_left_app.
    match goal with
    | |- context [fold_left _ ?ks d] =>
        change ks with removed_keys;
        set (d' := fold_left (fun d n => dict_pop n d) removed_keys d)
    end.
    assert (Hd' : dict_get k d' = if mem k removed_keys then None else dict_get k d)
      by apply dict_get_pops.
    destruct (data w) as [ds|]; [|exact Hd'].
    unfold dict_set. cbn [dict_get].
    destruct (String.eqb "data" k) eqn:E; [reflexivity|].
    now rewrite dict_get_pop, E. }
  intros d w k. split; [apply Hkeys|].
  rewrite Hkeys. now destruct (data w).
Qed.

Lemma dict_get_app k d kv :
  dict_get k (d ++ [kv]) =
    match dict_get k d with
    | Some v => Some v
    | None => if String.eqb (fst kv) k then Some (snd kv) else None
    end.
Proof.
  induction d as [|[k' v] d IH]; cbn [app dict_get].
  - now destruct kv.
  - now destruct (String.eqb k' k).
Qed.

End VTKSaving.

Section VTKRestoring.

Import VTKDataSource.

Variable get_all_attributes : DataSet -> table (list string).
Variable fallback_index : list string -> nat.
Variable gunzip_string : string -> string.
Variable read_dataset : string -> ds_id.

Local Abbreviation assign_data :=
  (VTKDataSource.assign_data get_all_attributes fallback_index).
Local Abbreviation __set_pure_state__ :=
  (VTKDataSource.__set_pure_state__ get_all_attributes fallback_index
     gunzip_string read_dataset).



End VTKRestoring.

(** ** [VTKDataSource.start] *)

Section VTKStart.

Variable get_all_attributes :
  VTKDataSource.DataSet -> VTKDataSource.table (list string).
Variable fallback_index : list string -> nat.
Variable start_error : Source.oid -> Source.world -> option exn.

Local Abbreviation _update_data :=
  (VTKDataSource._update_data get_all_attributes fallback_index).
Local Abbreviation vtk_start :=
  (VTKDataSourceNode.start get_all_attributes fallback_index start_error).


End VTKStart.


(** ** The views of the generated classes *)

(** [trait_view] hands the request to the superclass exactly when a view
    element is given or the name is none of the five it knows; it builds
    the view named, the default view being [traits_view]; and for the
    empty name, which is among the five, it builds nothing and returns
    [None]. *)
Theorem trait_view_dispatch :
  forall (name : option string) (view_element_given : bool),
    (TVTK.trait_view name view_element_given = TVTK.Nothing <->
     view_element_given = false /\ name = Some "") /\
    (TVTK.trait_view name view_element_given = TVTK.Built TVTK.FullTraitsView <->
     view_element_given = false /\ name = Some "full_traits_view") /\
    (TVTK.trait_view name view_element_given = TVTK.Built TVTK.View <->
     view_element_given = false /\ name = Some "view") /\
    (TVTK.trait_view name view_element_given = TVTK.Built TVTK.TraitsView <->
     view_element_given = false /\ (name = None \/ name = Some "traits_view")).
Proof.
  intros name given. unfold TVTK.trait_view, TVTK.is_in.
  destruct given; cbn [orb existsb].
  { intuition (try discriminate; try congruence). }
  destruct name as [s|]; cbn [orb negb].
  2: { intuition (try discriminate; try congruence). }
  destruct (String.eqb_spec s "") as [->|H0]; cbn [orb negb].
  { cbn. intuition (try discriminate; try congruence). }
  destruct (String.eqb_spec s "traits_view") as [->|H1]; cbn [orb negb].
  { cbn. intuition (try discriminate; try congruence). }
  destruct (String.eqb_spec s "full_traits_view") as [->|H2]; cbn [orb negb].
  { cbn. intuition (try discriminate; try congruence). }
  destruct (String.eqb_spec s "view") as [->|H3]; cbn [orb negb].
  { cbn. intuition (try discriminate; try congruence). }
  intuition (try discriminate; try congruence).
Qed.

(** ** The further properties at work *)

(** On [two_managers], [add_module] is the append to manager 3, the last
    one: it gets the module 8, and manager 1 gets nothing. *)
Lemma add_module_uses_last_manager_witness :
  Source.children (Source.heap Source.two_managers 0) = [1; 2] ++ 3 :: [] /\
  Source.add_module Source.never_fails Source.never_fails 0 8
    Source.two_managers
  = Source.mm_children_append 3 8 Source.two_managers /\
  Source.children
    (Source.heap
       (Py.exec (Source.add_module Source.never_fails Source.never_fails 0 8)
          Source.two_managers) 3)
  = [7; 8] /\
  Source.children
    (Source.heap
       (Py.exec (Source.add_module Source.never_fails Source.never_fails 0 8)
          Source.two_managers) 1)
  = [].
Proof.
  assert (Hpost : forall c,
             In c [] ->
             Source.is_module_manager
               (Source.cls (Source.heap Source.two_managers c)) = false).
  { intros c []. }
  assert (Hrun := add_module_uses_last_manager Source.never_fails
                    Source.never_fails Source.two_managers 0 8 [1; 2] 3 []
                    eq_refl eq_refl Hpost).
  split; [reflexivity|]. split; [exact Hrun|].
  unfold Py.exec. rewrite Hrun. split; reflexivity.
Defined.

(** On a running source without children, when the new manager fails to
    start: [add_module] raises and the source still has no child. *)
Lemma add_module_start_failure_witness :
  Source.module_managers (Source.lone_source true) 0 = [] /\
  Py.outcome
    (Source.add_module (Source.fails_on 1 "boom") Source.never_fails 0 5)
    (Source.lone_source true)
  = Raise "boom" /\
  Source.children
    (Source.heap
       (Py.exec
          (Source.add_module (Source.fails_on 1 "boom") Source.never_fails 0 5)
          (Source.lone_source true)) 0)
  = [].
Proof.
  destruct (add_module_start_failure (Source.fails_on 1 "boom")
              Source.never_fails (Source.lone_source true) 0 5 "boom"
              (Nat.lt_0_succ 0) eq_refl eq_refl (fun _ => eq_refl))
    as (Hout & _ & Hcs & _).
  split; [reflexivity|]. split; [exact Hout | exact Hcs].
Defined.

(** On [pipeline true], the filter 4 given to [add_child] becomes the
    last child and is started. *)
Lemma add_child_appends_witness :
  Source.is_filter (Source.cls (Source.heap (Source.pipeline true) 4)) = true /\
  Source.children
    (Source.heap
       (Py.exec
          (Source.add_child Source.never_fails Source.never_fails
             (fun _ _ => false) (fun _ _ => Py.ret tt) 0 4)
          (Source.pipeline true)) 0)
  = [1; 2; 4] /\
  Source.started
    (Source.since (Source.pipeline true)
       (Py.exec
          (Source.add_child Source.never_fails Source.never_fails
             (fun _ _ => false) (fun _ _ => Py.ret tt) 0 4)
          (Source.pipeline true)))
  = [4].
Proof.
  destruct (add_child_appends Source.never_fails Source.never_fails
              (fun _ _ => false) (fun _ _ => Py.ret tt)
              (Source.pipeline true) 0 4 (or_introl eq_refl))
    as (_ & Hcs & _ & Hst & _).
  split; [reflexivity|]. split; [exact Hcs | exact Hst].
Defined.

(** On a source that holds dataset 1 and has not been used yet: after a
    pass the candidates for the point scalars are the two arrays and the
    empty name, the selector holds the first of them, and it is active
    on the dataset. *)
Lemma pass_synchronises_witness :
  VTKDataSource.data
    (VTKDataSource.with_data (Some 1)
       (VTKDataSource.fresh VTKDataSource.weather)) = Some 1 /\
  VTKDataSource.candidates
    (Py.exec
       (VTKDataSource._update_data VTKDataSource.active_first
          VTKDataSource.first_member)
       (VTKDataSource.with_data (Some 1)
          (VTKDataSource.fresh VTKDataSource.weather)))
    VTKDataSource.point VTKDataSource.scalars
  = ["temperature"; "pressure"; ""] /\
  In "temperature"
    (VTKDataSource.candidates
       (Py.exec
          (VTKDataSource._update_data VTKDataSource.active_first
             VTKDataSource.first_member)
          (VTKDataSource.with_data (Some 1)
             (VTKDataSource.fresh VTKDataSource.weather)))
       VTKDataSource.point VTKDataSource.scalars) /\
  VTKDataSource.active
    (VTKDataSource.datasets
       (Py.exec
          (VTKDataSource._update_data VTKDataSource.active_first
             VTKDataSource.first_member)
          (VTKDataSource.with_data (Some 1)
             (VTKDataSource.fresh VTKDataSource.weather))) 1)
    VTKDataSource.point VTKDataSource.scalars
  = Some "temperature".
Proof.
  destruct (pass_synchronises VTKDataSource.active_first
              VTKDataSource.first_member
              (VTKDataSource.with_data (Some 1)
                 (VTKDataSource.fresh VTKDataSource.weather))
              1 VTKDataSource.point VTKDataSource.scalars eq_refl)
    as (_ & Hc & Hin & Ha).
  split; [reflexivity|]. split; [exact Hc|]. split; [exact Hin|].
  apply Ha; discriminate.
Defined.

(** On a source that holds dataset 1, the handler of the point scalars
    called with [pressure] makes it the active attribute. *)
Lemma set_data_name_activates_witness :
  "pressure" <> ""%string /\
  VTKDataSource.active
    (VTKDataSource.datasets
       (Py.exec
          (VTKDataSource._set_data_name VTKDataSource.scalars
             VTKDataSource.point (Some "pressure"))
          (VTKDataSource.with_data (Some 1)
             (VTKDataSource.fresh VTKDataSource.weather))) 1)
    VTKDataSource.point VTKDataSource.scalars
  = Some "pressure".
Proof.
  assert (Hne : "pressure" <> ""%string) by discriminate.
  destruct (set_data_name_activates
              (VTKDataSource.with_data (Some 1)
                 (VTKDataSource.fresh VTKDataSource.weather))
              VTKDataSource.scalars VTKDataSource.point "pressure" Hne)
    as (_ & Ha & _).
  split; [exact Hne | exact Ha].
Defined.

(** When dataset 2 replaces dataset 1 in a source that had selected
    [temperature], the selector of the point scalars is not among the
    new candidates: [data_changed] is fired three times. *)
Lemma assign_data_sets_up_witness :
  VTKDataSource.data
    (Py.exec
       (VTKDataSource.assign_data VTKDataSource.active_first
          VTKDataSource.first_member 1)
       (VTKDataSource.fresh VTKDataSource.weather)) <> Some 2 /\
  VTKDataSource.name
    (Py.exec
       (VTKDataSource.assign_data VTKDataSource.active_first
          VTKDataSource.first_member 2)
       (Py.exec
          (VTKDataSource.assign_data VTKDataSource.active_first
             VTKDataSource.first_member 1)
          (VTKDataSource.fresh VTKDataSource.weather)))
  = "VTK Data (ImageData)" /\
  VTKDataSource.data_changes
    (VTKDataSource.since
       (Py.exec
          (VTKDataSource.assign_data VTKDataSource.active_first
             VTKDataSource.first_member 1)
          (VTKDataSource.fresh VTKDataSource.weather))
       (Py.exec
          (VTKDataSource.assign_data VTKDataSource.active_first
             VTKDataSource.first_member 2)
          (Py.exec
             (VTKDataSource.assign_data VTKDataSource.active_first
                VTKDataSource.first_member 1)
             (VTKDataSource.fresh VTKDataSource.weather))))
  = 3.
Proof.
  assert (Hnew : VTKDataSource.data
                   (Py.exec
                      (VTKDataSource.assign_data VTKDataSource.active_first
                         VTKDataSource.first_member 1)
                      (VTKDataSource.fresh VTKDataSource.weather))
                 <> Some 2) by discriminate.
  destruct (assign_data_sets_up VTKDataSource.active_first
              VTKDataSource.first_member
              (Py.exec
                 (VTKDataSource.assign_data VTKDataSource.active_first
                    VTKDataSource.first_member 1)
                 (VTKDataSource.fresh VTKDataSource.weather)) 2 Hnew)
    as (_ & _ & _ & _ & Hname & _ & Hcount).
  split; [exact Hnew|]. split; [exact Hname | exact Hcount].
Defined.

(** On a source that holds dataset 1 after a first assignment, the
    assignment of dataset 2 removes the observer of the source from
    dataset 1, adds one to dataset 2 and leaves the subscription in
    order. *)
Lemma assignment_keeps_one_subscription_witness :
  VTKDataSource.subscribed
    (Py.exec
       (VTKDataSource.assign_data VTKDataSource.active_first
          VTKDataSource.first_member 1)
       (VTKDataSource.fresh VTKDataSource.weather)) /\
  VTKDataSource.data
    (Py.exec
       (VTKDataSource.assign_data VTKDataSource.active_first
          VTKDataSource.first_member 2)
       (Py.exec
          (VTKDataSource.assign_data VTKDataSource.active_first
             VTKDataSource.first_member 1)
          (VTKDataSource.fresh VTKDataSource.weather)))
  = Some 2 /\
  VTKDataSource.subscribed
    (Py.exec
       (VTKDataSource.assign_data VTKDataSource.active_first
          VTKDataSource.first_member 2)
       (Py.exec
          (VTKDataSource.assign_data VTKDataSource.active_first
             VTKDataSource.first_member 1)
          (VTKDataSource.fresh VTKDataSource.weather))).
Proof.
  assert (Hsub1 : VTKDataSource.subscribed
                    (Py.exec
                       (VTKDataSource.assign_data VTKDataSource.active_first
                          VTKDataSource.first_member 1)
                       (VTKDataSource.fresh VTKDataSource.weather))).
  { vm_compute. split; [reflexivity|]. right. left. reflexivity. }
  destruct (assignment_keeps_one_subscription VTKDataSource.active_first
              VTKDataSource.first_member
              (Py.exec
                 (VTKDataSource.assign_data VTKDataSource.active_first
                    VTKDataSource.first_member 1)
                 (VTKDataSource.fresh VTKDataSource.weather)) 2 Hsub1)
    as (_ & Hdata & Hsub2 & _).
  split; [exact Hsub1|]. split; [exact Hdata | exact Hsub2].
Defined.

(** The calls on observers of that replacement. *)
Example replacement_releases_the_subscription :
  VTKDataSource.subscriptions
    (VTKDataSource.trace
       (Py.exec
          (VTKDataSource.assign_data VTKDataSource.active_first
             VTKDataSource.first_member 1 ;;
           VTKDataSource.assign_data VTKDataSource.active_first
             VTKDataSource.first_member 2)
          (VTKDataSource.fresh VTKDataSource.weather)))
  = [(2, 1%Z)] /\
  VTKDataSource.observers
    (VTKDataSource.datasets
       (Py.exec
          (VTKDataSource.assign_data VTKDataSource.active_first
             VTKDataSource.first_member 1 ;;
           VTKDataSource.assign_data VTKDataSource.active_first
             VTKDataSource.first_member 2)
          (VTKDataSource.fresh VTKDataSource.weather)) 1)
  = [(0%Z, "ModifiedEvent")].
Proof. split; vm_compute; reflexivity. Qed.


(** The record of a source that holds dataset 1, saved over
    [base_record]: the dataset is there, the private lists are not, and
    the tag of the observer is. *)
Example saved_record :
  map
    (fun k =>
       VTKDataSource.dict_get k
         (VTKDataSource.__get_pure_state__ (fun s => s)
            VTKDataSource.class_name VTKDataSource.base_record
            (VTKDataSource.with_data (Some 1)
               (VTKDataSource.fresh VTKDataSource.weather))))
    ["data"; "name"; "_first"; "_point_scalars_list"; "_observer_id"]
  = [Some "PolyData"; Some "VTK Data (PolyData)"; None; None; Some "4"].
Proof. reflexivity. Qed.

(** [trait_view('')] returns [None]. *)
Example trait_view_of_the_empty_name :
  TVTK.trait_view (Some "") false = TVTK.Nothing.
Proof. reflexivity. Qed.
